(** * Histogram conditioning adapters of Refiners: a shallow embedding

    Source files embedded here:
    - [src/refiners/fluxion/adapters/histogram.py]
      ([HistogramDistance], [HistogramExtractor], [ViT3dEmbeddings],
      [HistogramEncoder.compute_histogram_embedding],
      [HistogramCrossAttention], [HistogramCrossAttentionAdapter],
      [SD1HistogramAdapter]);
    - [src/refiners/training_utils/trainers/histogram.py]
      ([BatchHistogramPrompt.collate_fn], [SaveHistogram]);
    - [tests/adapters/test_histogram.py] (the inputs of the extractor tests).

    Tensors are a shape with row-major data.  Float tensors are idealised:
    histogram values are exact rationals, network activations range over
    an arbitrary scalar type with a zero (class [Scalars]). *)

From Stdlib Require Import QArith Qround Qabs ZArith List Lia Bool ArithRing Sorted Ascii.
From stdpp Require Import gmap strings list pretty.

Local Open Scope nat_scope.

(** ** Python results *)

(** The exceptions the embedded code can raise. *)
Inductive exn : Type :=
| ValueError (msg : string)
| RuntimeError (msg : string)
| AssertionError (msg : string)
| AttributeError (msg : string).

Inductive result (A : Type) : Type :=
| Ok (a : A)
| Raise (e : exn).
Arguments Ok {A} a.
Arguments Raise {A} e.

Definition rbind {A B} (r : result A) (k : A -> result B) : result B :=
  match r with
  | Ok a => k a
  | Raise e => Raise e
  end.

Notation "'let*' x ':=' r 'in' k" := (rbind r (fun x => k))
  (at level 10, x name, r at level 100, k at level 200).

Definition is_ok {A} (r : result A) : bool :=
  match r with Ok _ => true | Raise _ => false end.

(** ** Tensors *)

Record Tensor (A : Type) : Type := mkTensor { shape : list nat; data : list A }.
Arguments mkTensor {A} shape data.
Arguments shape {A} t.
Arguments data {A} t.

(** [x.numel()]: the product of the dimensions. *)
Definition numel_of (s : list nat) : nat := fold_right Nat.mul 1 s.
Definition numel {A} (x : Tensor A) : nat := numel_of (shape x).

(** Element [i] of the [n]-element leading-axis slices of a tensor. *)
Definition batch_slice {A} (n : nat) (x : Tensor A) (i : nat) : list A :=
  take n (drop (i * n) (data x)).

Definition Qsum (l : list Q) : Q := fold_right Qplus 0%Q l.

Definition nat_to_Q (n : nat) : Q := inject_Z (Z.of_nat n).

(** ** HistogramExtractor (histogram.py, lines 28-56) *)

Module HistogramExtractor.

Definition getq (d : list Q) (i : nat) : Q := nth i d 0%Q.

(** [fl.Permute(0, 2, 3, 1)]: [y[b,h,w,c] = x[b,c,h,w]]. *)
Definition Permute_0231 (x : Tensor Q) : result (Tensor Q) :=
  match shape x with
  | [B; C; H; W] =>
      Ok (mkTensor [B; H; W; C]
            (flat_map (fun b => flat_map (fun h => flat_map (fun w =>
               map (fun c => getq (data x) (((b * C + c) * H + h) * W + w))
                   (seq 0 C)) (seq 0 W)) (seq 0 H)) (seq 0 B)))
  | _ => Raise (RuntimeError "permute: number of dims does not match")
  end.

(** One axis of [torch.histogramdd] with [bins] equal-width bins over
    [[lo, hi]]: a coordinate outside the range drops the sample, the
    position is the truncated linear interpolation, and the rightmost
    bin includes the right boundary. *)
Definition bin_index (lo hi : Q) (bins : nat) (v : Q) : option nat :=
  if Qlt_le_dec v lo then None
  else if Qlt_le_dec hi v then None
  else
    let pos := Z.to_nat (Qfloor ((v - lo) * nat_to_Q bins / (hi - lo))) in
    Some (if Nat.eqb pos bins then pos - 1 else pos).

(** The row-major position of the bin of an (r, g, b) sample. *)
Definition bin_of (bins : nat) (range : Q * Q) (s : Q * Q * Q) : option nat :=
  let '(r, g, b) := s in
  match bin_index (fst range) (snd range) bins r,
        bin_index (fst range) (snd range) bins g,
        bin_index (fst range) (snd range) bins b with
  | Some i, Some j, Some k => Some ((i * bins + j) * bins + k)
  | _, _, _ => None
  end.

Definition falls_in (bins : nat) (range : Q * Q) (k : nat) (s : Q * Q * Q) : bool :=
  match bin_of bins range s with
  | Some k' => Nat.eqb k' k
  | None => false
  end.

(** [torch.histogramdd(samples, bins, range).hist] for three axes that
    share [bins] and [range]: the occurrence count of every bin. *)
Definition torch_histogramdd (samples : list (Q * Q * Q)) (bins : nat)
    (range : Q * Q) : list nat :=
  map (fun k => length (List.filter (falls_in bins range k) samples))
      (seq 0 (bins * bins * bins)).

(** [x[i]] read as [num_pixels] coordinate triples (the innermost axis
    holds the coordinates, the outer axes are flattened). *)
Definition samples_of (d : list Q) (num_pixels i : nat) : list (Q * Q * Q) :=
  map (fun p => let o := (i * num_pixels + p) * 3 in
                (getq d o, getq d (o + 1), getq d (o + 2)))
      (seq 0 num_pixels).

(** [hist_dd.hist / num_pixels].  Torch yields NaN when [num_pixels] is
    zero; [Qdiv] yields 0 there, and no statement below covers the case. *)
Definition normalize (num_pixels : nat) (hist : list nat) : list Q :=
  map (fun c => (nat_to_Q c / nat_to_Q num_pixels)%Q) hist.

(** [2**self.color_bits]. *)
Definition color_size (color_bits : nat) : nat := 2 ^ color_bits.

(** [HistogramExtractor.histogramdd] (lines 36-56). *)
Definition histogramdd (color_bits : nat) (x : Tensor Q) : result (Tensor Q) :=
  match shape x with
  | [batch_size; H; W; C] =>
      let num_pixels := H * W in
      let S := color_size color_bits in
      if negb (Nat.eqb C 3) then
        Raise (RuntimeError "histogramdd: range/bins do not match the innermost dimension")
      else if Nat.eqb batch_size 0 then
        Raise (RuntimeError "stack expects a non-empty TensorList")
      else
        let histograms :=
          map (fun i => normalize num_pixels
                          (torch_histogramdd (samples_of (data x) num_pixels i) S
                             (0%Q, nat_to_Q S)))
              (seq 0 batch_size) in
        Ok (mkTensor [batch_size; S; S; S] (concat histograms))
  | _ => Raise (RuntimeError "histogramdd: expected a 4-dimensional input")
  end.

(** [HistogramExtractor(color_bits)(x)]:
    [Chain(Permute(0, 2, 3, 1), Lambda(histogramdd))]. *)
Definition forward (color_bits : nat) (x : Tensor Q) : result (Tensor Q) :=
  let* y := Permute_0231 x in histogramdd color_bits y.

(** A [B x 3 x H x W] image batch whose channels all hold [v]. *)
Definition constant_image (B H W : nat) (v : Q) : Tensor Q :=
  mkTensor [B; 3; H; W] (replicate (B * 3 * H * W) v).

(** The values the binning range [[0, S]] counts. *)
Definition in_range (S : nat) (v : Q) : Prop := (0 <= v <= nat_to_Q S)%Q.

(** Entry [[i, r, g, b]] of a [(B, S, S, S)] histogram tensor. *)
Definition hist_at (S : nat) (t : Tensor Q) (i r g b : nat) : Q :=
  getq (data t) (((i * S + r) * S + g) * S + b).

End HistogramExtractor.

(** ** The attributes of a HistogramExtractor *)

Module HistogramExtractorClass.

(** The names the class statement binds (lines 28-56), and the attribute
    [__init__] sets on the instance (line 33). *)
Definition class_body : list string := ["__init__"; "histogramdd"].
Definition instance_attributes : list string := ["color_bits"].

(** [getattr(extractor, name)]: the instance, then the class, then its
    bases; [inherited] are the names [fl.Chain] and its bases provide. *)
Definition getattr (inherited : list string) (name : string) : result string :=
  if bool_decide (name ∈ instance_attributes ++ class_body ++ inherited) then Ok name
  else Raise (AttributeError name).

End HistogramExtractorClass.

(** ** HistogramEncoder.compute_histogram_embedding (histogram.py, lines 164-181) *)

Module HistogramEncoder.

(** Torch broadcasting of two shapes, innermost axis first: axes are
    compatible when they are equal or one of them is 1; a missing axis
    counts as 1. *)
Fixpoint broadcast_rev (s1 s2 : list nat) : option (list nat) :=
  match s1, s2 with
  | [], s => Some s
  | s, [] => Some s
  | a :: s1', b :: s2' =>
      if Nat.eqb a b then cons a <$> broadcast_rev s1' s2'
      else if Nat.eqb a 1 then cons b <$> broadcast_rev s1' s2'
      else if Nat.eqb b 1 then cons a <$> broadcast_rev s1' s2'
      else None
  end.

Definition broadcast_shapes (s1 s2 : list nat) : option (list nat) :=
  @rev nat <$> broadcast_rev (@rev nat s1) (@rev nat s2).

(** The truth value Python takes of [x == y] for two tensors: the
    element-wise comparison has the broadcast shape, and [bool()] of a
    tensor is defined for exactly one element. *)
Definition tensor_eq_truth (x y : Tensor Q) : result bool :=
  match broadcast_shapes (shape x) (shape y) with
  | None => Raise (RuntimeError "The size of tensor a must match the size of tensor b")
  | Some s =>
      if Nat.eqb (numel_of s) 1 then Ok (Qeq_bool (nth 0 (data x) 0%Q) (nth 0 (data y) 0%Q))
      else if Nat.eqb (numel_of s) 0 then
        Raise (RuntimeError "Boolean value of Tensor with no values is ambiguous")
      else Raise (RuntimeError "Boolean value of Tensor with more than one value is ambiguous")
  end.

(** [if x == negative_histogram]: a tensor compared with [None] is [False]. *)
Definition eq_truth (x : Tensor Q) (negative_histogram : option (Tensor Q)) : result bool :=
  match negative_histogram with
  | None => Ok false
  | Some y => tensor_eq_truth x y
  end.

(** [cat(tensors=(a, b), dim=0)]. *)
Definition cat0 (a b : Tensor Q) : result (Tensor Q) :=
  match shape a, shape b with
  | n :: sa, m :: sb =>
      if decide (sa = sb) then Ok (mkTensor ((n + m) :: sa) (data a ++ data b))
      else Raise (RuntimeError "Sizes of tensors must match except in dimension 0")
  | _, _ => Raise (RuntimeError "zero-dimensional tensor cannot be concatenated")
  end.

Definition zeros_like (x : Tensor Q) : Tensor Q :=
  mkTensor (shape x) (replicate (numel x) 0%Q).

(** [(zeros_like(x) + 1.0) * 1 / numel] (line 178). *)
Definition uniform_fallback (x : Tensor Q) : Tensor Q :=
  let z := zeros_like x in
  mkTensor (shape z) (map (fun v => ((v + 1) * 1 / nat_to_Q (numel x))%Q) (data z)).

(** [self(x)]: the encoder network, a parameter of the embedding; [None]
    stands for a forward pass that raises. *)
Definition call (encoder : Tensor Q -> option (Tensor Q)) (x : Tensor Q) : result (Tensor Q) :=
  match encoder x with
  | Some e => Ok e
  | None => Raise (RuntimeError "HistogramEncoder.forward")
  end.

Definition empty_tensor_msg : string := "Cannot compute histogram embedding for empty tensor".

Definition compute_histogram_embedding (encoder : Tensor Q -> option (Tensor Q))
    (x : Tensor Q) (negative_histogram : option (Tensor Q)) : result (Tensor Q) :=
  let* conditional_embedding := call encoder x in
  let* same := eq_truth x negative_histogram in
  if (same : bool) then cat0 conditional_embedding conditional_embedding
  else
    let* negative_histogram :=
      match negative_histogram with
      | None =>
          if Nat.eqb (numel x) 0 then Raise (ValueError empty_tensor_msg)
          else Ok (uniform_fallback x)
      | Some y => Ok y
      end in
    let* negative_embedding := call encoder negative_histogram in
    cat0 negative_embedding conditional_embedding.

End HistogramEncoder.

(** ** The shared conditioning context *)

Module Context.

(** Modelled from the spec: the context provider of the layer framework is
    not part of these sources.  Per the spec it is a key-value store keyed
    by a namespace, scoped to a forward pass; [set_context] replaces the
    entries of a namespace, and reading a missing entry is a hard error. *)
Definition set_context {V} (context : string) (value : gmap string V)
    (ctxs : gmap string (gmap string V)) : gmap string (gmap string V) :=
  <[context := value]> ctxs.

(** Modelled from the spec: [fl.UseContext(context, key)], the layer that
    returns the entry [key] of the namespace [context]. *)
Definition UseContext {V} (context key : string)
    (ctxs : gmap string (gmap string V)) : result V :=
  match ctxs !! context with
  | None => Raise (AssertionError "context is unset")
  | Some c =>
      match c !! key with
      | None => Raise (AssertionError "context entry is unset")
      | Some v => Ok v
      end
  end.

End Context.

(** ** Layers of the framework *)

(** The scalars of network activations and weights. *)
Class Scalars : Type := {
  R : Type;
  r0 : R;
  radd : R -> R -> R;
  rmul : R -> R -> R
}.

(** What floats satisfy on finite values: adding zero and multiplying by
    zero. *)
Class ScalarLaws (K : Scalars) : Prop := {
  radd_0_r : forall x : R, radd x r0 = x;
  rmul_0_l : forall x : R, rmul r0 x = r0;
  rmul_0_r : forall x : R, rmul x r0 = r0
}.

(** Parameters live in an object store; a location is the identity of a
    parameter tensor. *)
Abbreviation loc := nat (only parsing).

Module Layers.
Section Layers.
Context {K : Scalars}.

(** Entry [[i, j]] of a matrix stored row-major with [cols] columns. *)
Definition mat_get (d : list R) (cols i j : nat) : R := nth (i * cols + j) d r0.

(** [sum_t f t] for [t < n], accumulated from zero. *)
Definition rsum (n : nat) (f : nat -> R) : R :=
  fold_left (fun acc t => radd acc (f t)) (seq 0 n) r0.

(** Modelled from the spec: [fl.Linear(in_features, out_features, bias)]
    applied to a (rows x in_features) matrix, [y = x W^T + b] with [W] of
    shape (out_features x in_features). *)
Definition Linear_apply (in_features out_features : nat) (W : Tensor R)
    (b : option (Tensor R)) (x : Tensor R) : result (Tensor R) :=
  match shape x with
  | [n; d] =>
      if Nat.eqb d in_features then
        Ok (mkTensor [n; out_features]
              (flat_map (fun i =>
                 map (fun j =>
                        let y := rsum in_features (fun t =>
                                   rmul (mat_get (data x) d i t)
                                        (mat_get (data W) in_features j t)) in
                        match b with
                        | Some bt => radd y (nth j (data bt) r0)
                        | None => y
                        end)
                     (seq 0 out_features))
                 (seq 0 n)))
      else Raise (RuntimeError "mat1 and mat2 shapes cannot be multiplied")
  | _ => Raise (RuntimeError "linear: expected a (tokens x features) matrix")
  end.

(** Modelled from the spec: [ScaledDotProductAttention(num_heads,
    is_causal)] on a query (n x d), a key (m x d) and a value (m x dv):
    entry [[i, j]] of the result is [sum_t A_h[i, t] * v[t, j]], where [h]
    is the head of column [j] and [A_h] the attention weights of head [h]
    (softmax of the scaled, possibly masked, dot products), given by
    [weights]. *)
Definition ScaledDotProductAttention
    (weights : nat -> bool -> Tensor R -> Tensor R -> nat -> nat -> nat -> R)
    (num_heads : nat) (is_causal : bool) (q k v : Tensor R) : result (Tensor R) :=
  match shape q, shape k, shape v with
  | [n; d], [m; d'], [m'; dv] =>
      if (Nat.eqb d d' && Nat.eqb m m' && negb (Nat.eqb num_heads 0)
          && Nat.eqb (d mod num_heads) 0 && Nat.eqb (dv mod num_heads) 0)%bool then
        Ok (mkTensor [n; dv]
              (flat_map (fun i =>
                 map (fun j =>
                        rsum m (fun t =>
                          rmul (weights num_heads is_causal q k (j / (dv / num_heads)) i t)
                               (mat_get (data v) dv t j)))
                     (seq 0 dv))
                 (seq 0 n)))
      else Raise (RuntimeError "scaled_dot_product_attention: shapes do not match")
  | _, _, _ => Raise (RuntimeError "scaled_dot_product_attention: expected matrices")
  end.

(** Modelled from the spec: [fl.Multiply(scale)]. *)
Definition Multiply (scale : R) (x : Tensor R) : Tensor R :=
  mkTensor (shape x) (map (fun a => rmul a scale) (data x)).

(** Modelled from the spec: the element-wise sum [fl.Sum] takes of the
    outputs of its two branches. *)
Definition tensor_add (a b : Tensor R) : result (Tensor R) :=
  if decide (shape a = shape b) then
    Ok (mkTensor (shape a) (zip_with radd (data a) (data b)))
  else Raise (RuntimeError "The size of tensor a must match the size of tensor b").

(** [init.zeros_(weight)]: fills the tensor with zeros, in place. *)
Definition zeros_ (w : Tensor R) : Tensor R :=
  mkTensor (shape w) (map (fun _ => r0) (data w)).

(** A tensor of zeros. *)
Definition all_zero (t : Tensor R) : Prop := Forall (fun x => x = r0) (data t).

End Layers.
End Layers.

(** ** Attention layers, adapters and the network *)

Module SD.

(** [fl.Linear]: its two dimensions and its parameters. *)
Record Linear : Type := mkLinear {
  in_features : nat;
  out_features : nat;
  weight : loc;
  bias : option loc
}.

(** Modelled from the spec: [fl.Attention] is not part of these sources.
    It is configured by head count, causality flag, inner dimension and
    bias usage, and chains three projections to the inner dimension, the
    scaled-dot-product attention and an output projection (as the sibling
    [FuyuAttention] of fuyu/transformers.py does).  [attn_mro] is
    [type(attn).__mro__], the class of the layer first. *)
Record Attention : Type := mkAttention {
  attn_mro : list string;
  embedding_dim : nat;
  key_embedding_dim : nat;
  value_embedding_dim : nat;
  inner_dim : nat;
  num_heads : nat;
  use_bias : bool;
  is_causal : bool;
  query_weight : loc;
  key_weight : loc;
  value_weight : loc;
  out_weight : loc;
  query_bias : loc;
  key_bias : loc;
  value_bias : loc;
  out_bias : loc
}.

#[global] Instance Linear_eq_dec : EqDecision Linear.
Proof. solve_decision. Defined.

#[global] Instance Attention_eq_dec : EqDecision Attention.
Proof. solve_decision. Defined.

Definition with_bias (use : bool) (l : loc) : option loc := if use then Some l else None.

Definition query_projection (a : Attention) : Linear :=
  mkLinear (embedding_dim a) (inner_dim a) (query_weight a) (with_bias (use_bias a) (query_bias a)).
Definition key_projection (a : Attention) : Linear :=
  mkLinear (key_embedding_dim a) (inner_dim a) (key_weight a) (with_bias (use_bias a) (key_bias a)).
Definition value_projection (a : Attention) : Linear :=
  mkLinear (value_embedding_dim a) (inner_dim a) (value_weight a) (with_bias (use_bias a) (value_bias a)).
Definition out_projection (a : Attention) : Linear :=
  mkLinear (inner_dim a) (embedding_dim a) (out_weight a) (with_bias (use_bias a) (out_bias a)).

(** [type(attn)] and [isinstance(attn, cls)]. *)
Definition type_name (a : Attention) : option string := head (attn_mro a).
Definition isinstance (a : Attention) (cls : string) : bool :=
  bool_decide (cls ∈ attn_mro a).

(** [type(attn) != fl.SelfAttention] (line 305). *)
Definition not_SelfAttention (a : Attention) : bool :=
  negb (bool_decide (type_name a = Some "SelfAttention")).

(** Modelled from the spec: a network of the framework is a tree of
    composable containers.  [Chain] composes its layers in sequence, other
    containers ([Residual], [Sum], [Concatenate], ...) combine them in
    their own way, a [Leaf] is any other layer with the parameters it
    owns, and [Attn] is a layer that is an instance of [fl.Attention]. *)
#[local] Unset Elimination Schemes.
Inductive Module (P : Type) : Type :=
| Leaf (kind : string) (params : list loc)
| Chain (ms : list (Module P))
| Container (kind : string) (ms : list (Module P))
| Attn (p : P).
#[local] Set Elimination Schemes.
Arguments Leaf {P} kind params.
Arguments Chain {P} ms.
Arguments Container {P} kind ms.
Arguments Attn {P} p.

(** Modelled from the spec: [target.layers(fl.Attention)], the attention
    layers of the tree in traversal order. *)
Fixpoint layers_Attention (m : Module Attention) : list Attention :=
  match m with
  | Leaf _ _ => []
  | Chain ms => flat_map layers_Attention ms
  | Container _ ms => flat_map layers_Attention ms
  | Attn a => [a]
  end.

(** The same tree with other layers in place of its attention layers. *)
Fixpoint replace_layers {P Q} (f : P -> Q) (m : Module P) : Module Q :=
  match m with
  | Leaf kind params => Leaf kind params
  | Chain ms => Chain (map (replace_layers f) ms)
  | Container kind ms => Container kind (map (replace_layers f) ms)
  | Attn p => Attn (f p)
  end.

(** The parameters of the base network. *)
Definition Attention_params (a : Attention) : list loc :=
  [query_weight a; key_weight a; value_weight a; out_weight a]
  ++ (if use_bias a then [query_bias a; key_bias a; value_bias a; out_bias a] else []).

Fixpoint parameters (m : Module Attention) : list loc :=
  match m with
  | Leaf _ params => params
  | Chain ms => flat_map parameters ms
  | Container _ ms => flat_map parameters ms
  | Attn a => Attention_params a
  end.

(** The histogram encoder, by the parameters it owns. *)
Record HistogramEncoder : Type := mkHistogramEncoder { encoder_parameters : list loc }.

Section Model.
Context {K : Scalars}.

(** What the framework and the runtime supply: the attention weights of
    [ScaledDotProductAttention], the initial value of a new parameter, the
    forward pass of the layers and containers that are no attention
    layers, and the context key and input width of the image-prompt
    cross-attention branch. *)
Class Framework : Type := {
  attention_weights : nat -> bool -> Tensor R -> Tensor R -> nat -> nat -> nat -> R;
  init_param : loc -> list nat -> Tensor R;
  leaf_forward : string -> list (Tensor R) -> gmap string (gmap string (Tensor R)) ->
                 list (Tensor R) -> result (list (Tensor R));
  container_forward : string -> list (list (Tensor R) -> result (list (Tensor R))) ->
                      gmap string (gmap string (Tensor R)) ->
                      list (Tensor R) -> result (list (Tensor R));
  image_context_key : string;
  image_in_features : Attention -> nat
}.
Context {F : Framework}.

(** A container calls its layers and nothing else of them: layers that
    agree on every input are interchangeable. *)
Class FrameworkLaws : Prop := {
  container_forward_ext :
    forall kind (fs gs : list (list (Tensor R) -> result (list (Tensor R)))) ctxs args,
      Forall2 (fun f g => forall x, f x = g x) fs gs ->
      container_forward kind fs ctxs args = container_forward kind gs ctxs args
}.

(** *** Construction: new parameters are appended to the object store *)

Definition Build (A : Type) : Type := list (Tensor R) -> A * list (Tensor R).
Definition bret {A} (a : A) : Build A := fun st => (a, st).
Definition bbind {A B} (c : Build A) (k : A -> Build B) : Build B :=
  fun st => let '(a, st') := c st in k a st'.

Definition new_param (shape : list nat) : Build loc :=
  fun st => (length st, st ++ [init_param (length st) shape]).

(** [fl.Linear(in_features, out_features, bias)]: a weight, and a bias
    when asked for. *)
Definition Linear_init (in_features out_features : nat) (bias : bool) : Build Linear :=
  bbind (new_param [out_features; in_features]) (fun w =>
  if bias then
    bbind (new_param [out_features]) (fun b =>
    bret (mkLinear in_features out_features w (Some b)))
  else bret (mkLinear in_features out_features w None)).

(** [HistogramCrossAttention] (lines 184-215): the context entry its two
    [UseContext] layers read, the two projections of its [Distribute], the
    head configuration of its [ScaledDotProductAttention], and the scale of
    its [Multiply]. *)
Record HistogramCrossAttention : Type := mkHistogramCrossAttention {
  hca_context : string;
  hca_key : string;
  Distribute_1_Linear : Linear;
  Distribute_2_Linear : Linear;
  hca_num_heads : nat;
  hca_is_causal : bool;
  hca_scale : R
}.

Definition HistogramCrossAttention_init (text_cross_attention : Attention) (scale : R)
    : Build HistogramCrossAttention :=
  bbind (Linear_init 4 (inner_dim text_cross_attention) (use_bias text_cross_attention)) (fun k =>
  bbind (Linear_init 4 (inner_dim text_cross_attention) (use_bias text_cross_attention)) (fun v =>
  bret (mkHistogramCrossAttention "ip_adapter" "palette_embedding" k v
          (num_heads text_cross_attention) (is_causal text_cross_attention) scale))).

(** Modelled from the spec: the cross-attention branch of
    [image_prompt.CrossAttentionAdapter], which is not part of these
    sources.  It is built like [HistogramCrossAttention]; the context key
    it reads and the input width of its projections are parameters. *)
Definition ImageCrossAttention_init (text_cross_attention : Attention) (scale : R)
    : Build HistogramCrossAttention :=
  bbind (Linear_init (image_in_features text_cross_attention)
           (inner_dim text_cross_attention) (use_bias text_cross_attention)) (fun k =>
  bbind (Linear_init (image_in_features text_cross_attention)
           (inner_dim text_cross_attention) (use_bias text_cross_attention)) (fun v =>
  bret (mkHistogramCrossAttention "ip_adapter" image_context_key k v
          (num_heads text_cross_attention) (is_causal text_cross_attention) scale))).

(** A cross-attention adapter: its class, the layer it adapts (the
    structural copy shares the weights of the target), the branch summed
    with the attention of the copy, and its scale. *)
Record CrossAttentionAdapter : Type := mkCrossAttentionAdapter {
  adapter_type : string;
  target : Attention;
  histogram_cross_attention : HistogramCrossAttention;
  _scale : R
}.

(** [HistogramCrossAttentionAdapter.__init__] (lines 227-250). *)
Definition HistogramCrossAttentionAdapter_init (target : Attention) (scale : R)
    : Build CrossAttentionAdapter :=
  bbind (HistogramCrossAttention_init target scale) (fun branch =>
  bret (mkCrossAttentionAdapter "HistogramCrossAttentionAdapter" target branch scale)).

(** Modelled from the spec: [image_prompt.CrossAttentionAdapter(target,
    scale)], the class the orchestrator instantiates; per the spec a
    sub-adapter copies the structure of its target and sums the attention
    of the copy with a new branch that reads the shared context. *)
Definition CrossAttentionAdapter_init (target : Attention) (scale : R)
    : Build CrossAttentionAdapter :=
  bbind (ImageCrossAttention_init target scale) (fun branch =>
  bret (mkCrossAttentionAdapter "CrossAttentionAdapter" target branch scale)).

Definition image_key_projection (ad : CrossAttentionAdapter) : Linear :=
  Distribute_1_Linear (histogram_cross_attention ad).
Definition image_value_projection (ad : CrossAttentionAdapter) : Linear :=
  Distribute_2_Linear (histogram_cross_attention ad).

(** The [weights] property of a sub-adapter (lines 278-280). *)
Definition adapter_weights (ad : CrossAttentionAdapter) : list loc :=
  [weight (image_key_projection ad); weight (image_value_projection ad)].

(** A sub-adapter as [CrossAttentionAdapter_init] builds it over a store
    of [n] tensors. *)
Definition built_over (n m : nat) (a : Attention) (ad : CrossAttentionAdapter) : Prop :=
  target ad = a
  /\ adapter_type ad = "CrossAttentionAdapter"
  /\ hca_context (histogram_cross_attention ad) = "ip_adapter"
  /\ hca_key (histogram_cross_attention ad) = image_context_key
  /\ hca_num_heads (histogram_cross_attention ad) = num_heads a
  /\ hca_is_causal (histogram_cross_attention ad) = is_causal a
  /\ in_features (image_key_projection ad) = image_in_features a
  /\ in_features (image_value_projection ad) = image_in_features a
  /\ out_features (image_key_projection ad) = inner_dim a
  /\ out_features (image_value_projection ad) = inner_dim a
  /\ (use_bias a = false -> bias (image_key_projection ad) = None
                            /\ bias (image_value_projection ad) = None)
  /\ n <= weight (image_key_projection ad) < m
  /\ n <= weight (image_value_projection ad) < m.

(** *** SD1HistogramAdapter (lines 286-339) *)

Record SD1HistogramAdapter : Type := mkSD1HistogramAdapter {
  sd_target : Module Attention;
  _histogram_encoder : list HistogramEncoder;
  sub_adapters : list CrossAttentionAdapter
}.

Fixpoint build_all {A B} (f : A -> Build B) (l : list A) : Build (list B) :=
  match l with
  | [] => bret []
  | a :: l' => bbind (f a) (fun b => bbind (build_all f l') (fun bs => bret (b :: bs)))
  end.

(** [SD1HistogramAdapter.__init__] (lines 290-306). *)
Definition SD1HistogramAdapter_init (target : Module Attention)
    (histogram_encoder : HistogramEncoder) (scale : R) : Build SD1HistogramAdapter :=
  bbind (build_all (fun cross_attn => CrossAttentionAdapter_init cross_attn scale)
           (List.filter not_SelfAttention (layers_Attention target))) (fun subs =>
  bret (mkSD1HistogramAdapter target [histogram_encoder] subs)).

(** The [weights] property (lines 308-313). *)
Definition weights (self : SD1HistogramAdapter) : list loc :=
  flat_map adapter_weights (sub_adapters self).

(** [zero_init] (lines 315-318). *)
Definition zero_init (self : SD1HistogramAdapter) (st : list (Tensor R)) : list (Tensor R) :=
  fold_left (fun st w => alter Layers.zeros_ w st) (weights self) st.

(** The [histogram_encoder] property (lines 337-339). *)
Definition histogram_encoder (self : SD1HistogramAdapter) : option HistogramEncoder :=
  head (_histogram_encoder self).

(** [set_histogram_embedding] (lines 334-335). *)
Definition set_histogram_embedding (histogram_embedding : Tensor R)
    (ctxs : gmap string (gmap string (Tensor R))) : gmap string (gmap string (Tensor R)) :=
  Context.set_context "ip_adapter" {["clip_image_embedding" := histogram_embedding]} ctxs.

(** *** The forward pass *)

Definition read (st : list (Tensor R)) (l : loc) : result (Tensor R) :=
  match st !! l with
  | Some t => Ok t
  | None => Raise (RuntimeError "parameter is not in the store")
  end.

Definition read_bias (st : list (Tensor R)) (b : option loc) : result (option (Tensor R)) :=
  match b with
  | None => Ok None
  | Some l => let* t := read st l in Ok (Some t)
  end.

Fixpoint read_all (st : list (Tensor R)) (ls : list loc) : result (list (Tensor R)) :=
  match ls with
  | [] => Ok []
  | l :: ls' => let* t := read st l in let* ts := read_all st ls' in Ok (t :: ts)
  end.

Definition Linear_forward (st : list (Tensor R)) (lin : Linear) (x : Tensor R)
    : result (Tensor R) :=
  let* W := read st (weight lin) in
  let* b := read_bias st (bias lin) in
  Layers.Linear_apply (in_features lin) (out_features lin) W b x.

(** Modelled from the spec: the inputs of an attention layer.  A
    self-attention layer feeds its one input to the three projections, a
    cross-attention layer takes query, key and value inputs. *)
Definition attention_inputs (a : Attention) (args : list (Tensor R))
    : result (Tensor R * Tensor R * Tensor R) :=
  if isinstance a "SelfAttention" then
    match args with
    | [x] => Ok (x, x, x)
    | _ => Raise (RuntimeError "SelfAttention takes one input")
    end
  else
    match args with
    | [q; k; v] => Ok (q, k, v)
    | _ => Raise (RuntimeError "Attention takes three inputs")
    end.

(** The [Distribute] of the three projections of an attention layer. *)
Definition Attention_projections (st : list (Tensor R)) (a : Attention)
    (args : list (Tensor R)) : result (Tensor R * Tensor R * Tensor R) :=
  let* qkv := attention_inputs a args in
  let* q := Linear_forward st (query_projection a) (fst (fst qkv)) in
  let* k := Linear_forward st (key_projection a) (snd (fst qkv)) in
  let* v := Linear_forward st (value_projection a) (snd qkv) in
  Ok (q, k, v).

(** Modelled from the spec: the forward pass of [fl.Attention]. *)
Definition Attention_forward (st : list (Tensor R)) (a : Attention)
    (args : list (Tensor R)) : result (list (Tensor R)) :=
  let* qkv := Attention_projections st a args in
  let* o := Layers.ScaledDotProductAttention attention_weights (num_heads a) (is_causal a)
              (fst (fst qkv)) (snd (fst qkv)) (snd qkv) in
  let* y := Linear_forward st (out_projection a) o in
  Ok [y].

(** The forward pass of [HistogramCrossAttention] on the projected query,
    key and value (lines 187-215): [Distribute(Identity, Chain(UseContext,
    Linear), Chain(UseContext, Linear))], [ScaledDotProductAttention],
    [Multiply(scale)]. *)
Definition HistogramCrossAttention_forward (st : list (Tensor R))
    (ctxs : gmap string (gmap string (Tensor R))) (h : HistogramCrossAttention)
    (q k v : Tensor R) : result (Tensor R) :=
  let* e1 := Context.UseContext (hca_context h) (hca_key h) ctxs in
  let* k' := Linear_forward st (Distribute_1_Linear h) e1 in
  let* e2 := Context.UseContext (hca_context h) (hca_key h) ctxs in
  let* v' := Linear_forward st (Distribute_2_Linear h) e2 in
  let* o := Layers.ScaledDotProductAttention attention_weights (hca_num_heads h)
              (hca_is_causal h) q k' v' in
  Ok (Layers.Multiply (hca_scale h) o).

(** The forward pass of a sub-adapter (lines 234-250): the copy of the
    target with its [ScaledDotProductAttention] replaced by
    [Sum(scaled_dot_product, histogram_cross_attention)]. *)
Definition CrossAttentionAdapter_forward (st : list (Tensor R))
    (ctxs : gmap string (gmap string (Tensor R))) (ad : CrossAttentionAdapter)
    (args : list (Tensor R)) : result (list (Tensor R)) :=
  let* qkv := Attention_projections st (target ad) args in
  let* o1 := Layers.ScaledDotProductAttention attention_weights
               (num_heads (target ad)) (is_causal (target ad))
               (fst (fst qkv)) (snd (fst qkv)) (snd qkv) in
  let* o2 := HistogramCrossAttention_forward st ctxs (histogram_cross_attention ad)
               (fst (fst qkv)) (snd (fst qkv)) (snd qkv) in
  let* o := Layers.tensor_add o1 o2 in
  let* y := Linear_forward st (out_projection (target ad)) o in
  Ok [y].

(** An attention layer of the network after injection: left as it was, or
    replaced by the sub-adapter that adapts it. *)
Inductive Layer : Type :=
| Plain (a : Attention)
| Adapted (ad : CrossAttentionAdapter).

Definition Layer_forward (st : list (Tensor R))
    (ctxs : gmap string (gmap string (Tensor R))) (l : Layer)
    (args : list (Tensor R)) : result (list (Tensor R)) :=
  match l with
  | Plain a => Attention_forward st a args
  | Adapted ad => CrossAttentionAdapter_forward st ctxs ad args
  end.

(** The forward pass of a network, given that of its attention layers. *)
Fixpoint forward_with {P} (pf : P -> list (Tensor R) -> result (list (Tensor R)))
    (st : list (Tensor R)) (ctxs : gmap string (gmap string (Tensor R)))
    (m : Module P) (args : list (Tensor R)) : result (list (Tensor R)) :=
  match m with
  | Leaf kind params => let* ws := read_all st params in leaf_forward kind ws ctxs args
  | Chain ms =>
      (fix chain (ms : list (Module P)) (args : list (Tensor R)) :=
         match ms with
         | [] => Ok args
         | m' :: ms' => let* out := forward_with pf st ctxs m' args in chain ms' out
         end) ms args
  | Container kind ms => container_forward kind (map (forward_with pf st ctxs) ms) ctxs args
  | Attn p => pf p args
  end.

(** The network as built, and the network after injection. *)
Definition forward (st : list (Tensor R)) (ctxs : gmap string (gmap string (Tensor R)))
    (m : Module Attention) : list (Tensor R) -> result (list (Tensor R)) :=
  forward_with (Attention_forward st) st ctxs m.

Definition forward_injected (st : list (Tensor R))
    (ctxs : gmap string (gmap string (Tensor R)))
    (m : Module Layer) : list (Tensor R) -> result (list (Tensor R)) :=
  forward_with (Layer_forward st ctxs) st ctxs m.

(** Modelled from the spec: [Adapter.inject] of a sub-adapter, which puts
    the adapter in the place of its target in the network. *)
Definition put_adapter (ad : CrossAttentionAdapter) (l : Layer) : Layer :=
  match l with
  | Plain a => if decide (a = target ad) then Adapted ad else l
  | Adapted _ => l
  end.

Definition inject_adapter (ad : CrossAttentionAdapter) (m : Module Layer) : Module Layer :=
  replace_layers (put_adapter ad) m.

(** [SD1HistogramAdapter.inject] (lines 320-323): every sub-adapter is
    injected, then the adapter itself, a [Chain] around its target. *)
Definition inject (self : SD1HistogramAdapter) : Module Layer :=
  Chain [fold_left (fun net ad => inject_adapter ad net) (sub_adapters self)
           (replace_layers Plain (sd_target self))].

End Model.
End SD.

(** ** A small network over the integers *)

Module Example.
Import SD.

#[export] Instance Zscalars : Scalars :=
  {| R := Z; r0 := 0%Z; radd := Z.add; rmul := Z.mul |}.

(** Containers run their layers in sequence. *)
Fixpoint in_sequence (fs : list (list (Tensor Z) -> result (list (Tensor Z))))
    (args : list (Tensor Z)) : result (list (Tensor Z)) :=
  match fs with
  | [] => Ok args
  | f :: fs' => let* out := f args in in_sequence fs' out
  end.

(** Uniform attention weights, parameters initialised to ones, leaves that
    hand their single input to the three inputs of the next layer, and the
    image-prompt branch reading ["clip_image_embedding"]. *)
#[export] Instance Zframework : Framework :=
  {| attention_weights := fun _ _ _ _ _ _ _ => 1%Z;
     init_param := fun _ shape => mkTensor shape (replicate (numel_of shape) 1%Z);
     leaf_forward := fun _ _ _ args =>
       match args with
       | [x] => Ok [x; x; x]
       | _ => Ok args
       end;
     container_forward := fun _ fs _ args => in_sequence fs args;
     image_context_key := "clip_image_embedding";
     image_in_features := key_embedding_dim |}.

Definition self_attention : Attention :=
  mkAttention ["SelfAttention"; "Attention"; "Chain"] 2 2 2 2 1 false false 0 1 2 3 0 0 0 0.

Definition cross_attention (use_bias : bool) : Attention :=
  mkAttention ["Attention"; "Chain"] 2 2 2 2 1 use_bias false 4 5 6 7 8 8 8 8.

(** A self-attention block followed by a cross-attention layer. *)
Definition unet (use_bias : bool) : Module Attention :=
  Chain [Container "Residual" [Attn self_attention]; Leaf "Parallel" [];
         Attn (cross_attention use_bias)].

Definition identity_matrix : Tensor Z := mkTensor [2; 2] [1; 0; 0; 1]%Z.

(** Eight weight matrices and one bias vector. *)
Definition store : list (Tensor Z) :=
  replicate 8 identity_matrix ++ [mkTensor [2] [0; 0]%Z].

Definition encoder : HistogramEncoder := mkHistogramEncoder [].

Definition embedding : Tensor Z := mkTensor [1; 2] [3; 4]%Z.

Definition input : list (Tensor Z) := [mkTensor [1; 2] [5; 6]%Z].

(** The adapter after [zero_init()] and [inject()]: the store and the
    adapted network. *)
Definition adapted_store (use_bias : bool) : list (Tensor Z) :=
  zero_init (fst (SD1HistogramAdapter_init (unet use_bias) encoder 1%Z store))
    (snd (SD1HistogramAdapter_init (unet use_bias) encoder 1%Z store)).

Definition adapted_unet (use_bias : bool) : Module Layer :=
  inject (fst (SD1HistogramAdapter_init (unet use_bias) encoder 1%Z store)).

End Example.

(** * Further functions of the sources *)

(** ** HistogramExtractor: pixels and their bins *)

Module ExtractorPixels.
Import HistogramExtractor.

(** Channel [c] of pixel [p] (row-major position) of image [i] of a
    [(B, C, H, W)] batch. *)
Definition channel (x : Tensor Q) (C HW i c p : nat) : Q :=
  getq (data x) ((i * C + c) * HW + p).

(** Whether the three channels of pixel [p] of image [i] all lie in the
    binning range [[0, S]]. *)
Definition pixel_counted (S : nat) (x : Tensor Q) (HW i p : nat) : bool :=
  match bin_of S (0%Q, nat_to_Q S)
          (channel x 3 HW i 0 p, channel x 3 HW i 1 p, channel x 3 HW i 2 p) with
  | Some _ => true
  | None => false
  end.

(** The number of pixels of image [i] that the histogram counts. *)
Definition counted_pixels (S : nat) (x : Tensor Q) (HW i : nat) : nat :=
  length (List.filter (pixel_counted S x HW i) (seq 0 HW)).

(** The (r, g, b) triple of pixel [p] of image [i], and the pixels of
    image [i] in row-major order. *)
Definition pixel (x : Tensor Q) (HW i p : nat) : Q * Q * Q :=
  (channel x 3 HW i 0 p, channel x 3 HW i 1 p, channel x 3 HW i 2 p).

Definition pixels (x : Tensor Q) (HW i : nat) : list (Q * Q * Q) :=
  map (pixel x HW i) (seq 0 HW).

(** Whether the red, green and blue channels of a pixel fall in the bins
    [r], [g] and [b] of their axes. *)
Definition pixel_in_bin (S r g b : nat) (s : Q * Q * Q) : bool :=
  match bin_index 0 (nat_to_Q S) S (fst (fst s)),
        bin_index 0 (nat_to_Q S) S (snd (fst s)),
        bin_index 0 (nat_to_Q S) S (snd s) with
  | Some r', Some g', Some b' => Nat.eqb r' r && Nat.eqb g' g && Nat.eqb b' b
  | _, _, _ => false
  end.

Definition pixels_in_bin (S : nat) (x : Tensor Q) (HW i r g b : nat) : nat :=
  length (List.filter (pixel_in_bin S r g b) (pixels x HW i)).

(** One image of two pixels, the second with a negative green channel. *)
Definition two_pixels : Tensor Q :=
  mkTensor [1; 3; 1; 2] (cons 0%Q (cons 1%Q (cons 1%Q (cons (-1)%Q (cons 2%Q (cons 0%Q nil)))))).

(** The same image with its two pixels exchanged. *)
Definition two_pixels_swapped : Tensor Q :=
  mkTensor [1; 3; 1; 2] (cons 1%Q (cons 0%Q (cons (-1)%Q (cons 1%Q (cons 0%Q (cons 2%Q nil)))))).

(** A [1 x 3 x 2 x 2] image: three pixels in bin (0, 1, 1) of a
    one-bit histogram, one in bin (1, 0, 0). *)
Definition four_pixels : Tensor Q :=
  mkTensor [1; 3; 2; 2]
    (cons 0%Q (cons (1 # 2)%Q (cons 2%Q (cons (1 # 4)%Q
    (cons 1%Q (cons (3 # 2)%Q (cons 0%Q (cons 2%Q
    (cons 1%Q (cons 2%Q (cons (1 # 2)%Q (cons (3 # 2)%Q nil)))))))))))).

(** One image of two pixels with channel values in [[0, 1)]. *)
Definition unit_image : Tensor Q :=
  mkTensor [1; 3; 1; 2]
    (cons (1 # 8)%Q (cons (7 # 8)%Q (cons (1 # 2)%Q (cons 0%Q (cons (3 # 4)%Q
    (cons (5 # 8)%Q nil)))))).

End ExtractorPixels.

(** ** HistogramDistance (histogram.py, lines 16-25) *)

Module HistogramDistance.

(** The position, in the row-major data of an operand whose shape
    (innermost axis first) is [x_rev], of the entry that broadcasting
    places at position [i] of a result of shape [s_rev]: an axis of size 1
    or a missing axis of the operand is repeated. *)
Fixpoint broadcast_index (s_rev x_rev : list nat) (i stride : nat) : nat :=
  match s_rev, x_rev with
  | d :: s', dx :: x' =>
      (if Nat.eqb dx 1 then 0 else (i mod d) * stride)
      + broadcast_index s' x' (i / d) (stride * dx)
  | _, _ => 0
  end.

Definition broadcast_get (s : list nat) (x : Tensor Q) (i : nat) : Q :=
  nth (broadcast_index (rev s) (rev (shape x)) i 1) (data x) 0%Q.

(** [torch.nn.functional.mse_loss(x, y)] with the default mean reduction:
    the operands are broadcast against each other and the squared
    differences averaged.  Torch yields NaN for operands without elements;
    [Qdiv] yields 0 there. *)
Definition mse_loss (x y : Tensor Q) : result Q :=
  match HistogramEncoder.broadcast_shapes (shape x) (shape y) with
  | None => Raise (RuntimeError "The size of tensor a must match the size of tensor b")
  | Some s =>
      Ok (Qsum (map (fun i => let e := (broadcast_get s x i - broadcast_get s y i)%Q in
                              (e * e)%Q)
                    (seq 0 (numel_of s)))
          / nat_to_Q (numel_of s))%Q
  end.

(** [HistogramDistance.kl_div] (lines 24-25). *)
Definition kl_div (x y : Tensor Q) : result Q := mse_loss x y.

(** [HistogramDistance(color_bits)(x, y)]: [Chain(Lambda(kl_div))]. *)
Definition forward (color_bits : nat) (x y : Tensor Q) : result Q := kl_div x y.

Definition even_histogram : Tensor Q :=
  mkTensor (cons 2 nil) (cons (1 # 2)%Q (cons (1 # 2)%Q nil)).
Definition skewed_histogram : Tensor Q :=
  mkTensor (cons 2 nil) (cons (1 # 4)%Q (cons (3 # 4)%Q nil)).

End HistogramDistance.

(** ** Scales and parameters of the adapters (histogram.py, lines 217-225,
    264-271 and 330-332) *)

Module AdapterScale.
Import SD.
Section AdapterScale.
Context {K : Scalars} {F : Framework}.

(** The [scale] setter of [HistogramCrossAttention] (lines 221-225): it
    sets the attribute and the scale of the [Multiply] layer, which the
    record holds as one field. *)
Definition HistogramCrossAttention_set_scale (value : R) (h : HistogramCrossAttention)
    : HistogramCrossAttention :=
  mkHistogramCrossAttention (hca_context h) (hca_key h) (Distribute_1_Linear h)
    (Distribute_2_Linear h) (hca_num_heads h) (hca_is_causal h) value.

(** The [scale] setter of a sub-adapter (lines 268-271). *)
Definition CrossAttentionAdapter_set_scale (value : R) (ad : CrossAttentionAdapter)
    : CrossAttentionAdapter :=
  mkCrossAttentionAdapter (adapter_type ad) (target ad)
    (HistogramCrossAttention_set_scale value (histogram_cross_attention ad)) value.

(** [SD1HistogramAdapter.set_scale] (lines 330-332). *)
Definition set_scale (scale : R) (self : SD1HistogramAdapter) : SD1HistogramAdapter :=
  mkSD1HistogramAdapter (sd_target self) (_histogram_encoder self)
    (map (CrossAttentionAdapter_set_scale scale) (sub_adapters self)).

(** The injected network holds the sub-adapters themselves: a scale set on
    a sub-adapter is the scale of its layer in the network. *)
Definition Layer_set_scale (scale : R) (l : Layer) : Layer :=
  match l with
  | Plain a => Plain a
  | Adapted ad => Adapted (CrossAttentionAdapter_set_scale scale ad)
  end.

(** The parameters of a [Linear], and those of the branch a sub-adapter
    adds to its target. *)
Definition Linear_params (lin : Linear) : list loc :=
  weight lin :: match bias lin with Some b => [b] | None => [] end.

Definition branch_params (ad : CrossAttentionAdapter) : list loc :=
  Linear_params (image_key_projection ad) ++ Linear_params (image_value_projection ad).

End AdapterScale.
End AdapterScale.

(** ** The small network with its adapter scaled *)

Module ScaleExample.
Import SD Example AdapterScale.

(** The adapter of the small network with bias, as built: the new
    projections hold ones. *)
Definition built_adapter : SD1HistogramAdapter :=
  fst (SD1HistogramAdapter_init (unet true) encoder 1%Z store).

Definition built_store : list (Tensor Z) :=
  snd (SD1HistogramAdapter_init (unet true) encoder 1%Z store).

(** The context with a palette embedding of four features under the key
    the branch of a [HistogramCrossAttentionAdapter] reads, and the three
    inputs of a cross-attention layer. *)
Definition palette_embedding : Tensor Z := mkTensor [1; 4] [1; 2; 3; 4]%Z.

Definition palette_context : gmap string (gmap string (Tensor Z)) :=
  {["ip_adapter" := {["palette_embedding" := palette_embedding]}]}.

(** The store after training: the two new weight matrices hold other
    values, the tensors of the network are as they were. *)
Definition trained_store : list (Tensor Z) :=
  store ++ [mkTensor [2; 4] [1; 2; 3; 4; 5; 6; 7; 8]%Z;
            mkTensor [2; 4] [2; 0; 1; 0; 0; 3; 0; 1]%Z].

Definition qkv_input : list (Tensor Z) :=
  [mkTensor [1; 2] [5; 6]%Z; mkTensor [1; 2] [1; 2]%Z; mkTensor [1; 2] [3; 4]%Z].

End ScaleExample.

(** ** The shapes through ViT3dEmbeddings (histogram.py, lines 59-122 and
    145-149) *)

Module EncoderShapes.

(** The layers below are followed on the shape of their input; [None]
    stands for a layer that raises. *)

(** Modelled from the spec: [fl.Reshape] with the sizes [dims] keeps the
    batch axis and views the other axes as [dims]; the element counts
    must agree. *)
Definition Reshape (dims : list nat) (s : list nat) : option (list nat) :=
  match s with
  | [] => None
  | b :: _ => if Nat.eqb (numel_of s) (numel_of (b :: dims)) then Some (b :: dims) else None
  end.

(** One axis of a convolution without padding: the kernel must fit. *)
Definition conv_out (d kernel_size stride : nat) : option nat :=
  if (Nat.eqb kernel_size 0 || Nat.eqb stride 0 || Nat.ltb d kernel_size)%bool then None
  else Some ((d - kernel_size) / stride + 1).

(** [fl.Conv3d(in_channels, out_channels, kernel_size=(k, k, k),
    stride=(s, s, s))] on a batch [(B, C, D, H, W)] or on one volume
    [(C, D, H, W)]. *)
Definition Conv3d (in_channels out_channels kernel_size stride : nat) (s : list nat)
    : option (list nat) :=
  match s with
  | [b; c; d; h; w] =>
      if Nat.eqb c in_channels then
        d' ← conv_out d kernel_size stride;
        h' ← conv_out h kernel_size stride;
        w' ← conv_out w kernel_size stride;
        Some [b; out_channels; d'; h'; w']
      else None
  | [c; d; h; w] =>
      if Nat.eqb c in_channels then
        d' ← conv_out d kernel_size stride;
        h' ← conv_out h kernel_size stride;
        w' ← conv_out w kernel_size stride;
        Some [out_channels; d'; h'; w']
      else None
  | _ => None
  end.

(** [Patch3dEncoder] (lines 59-83). *)
Definition Patch3dEncoder (in_channels out_channels patch_size : nat)
    : list nat -> option (list nat) :=
  Conv3d in_channels out_channels patch_size patch_size.

(** Modelled from the spec: [fl.Parameter] of the sizes [dims] yields its tensor once
    per batch element, whatever the input holds. *)
Definition fl_Parameter (dims : list nat) (s : list nat) : option (list nat) :=
  match s with
  | [] => None
  | b :: _ => Some (b :: dims)
  end.

(** Modelled from the spec: the learned class token, one token of
    [embedding_dim] features, and the learned positional encoding. *)
Definition ClassToken (embedding_dim : nat) : list nat -> option (list nat) :=
  fl_Parameter [1; embedding_dim].

Definition PositionalEncoder (max_sequence_length embedding_dim : nat)
    : list nat -> option (list nat) :=
  fl_Parameter [max_sequence_length; embedding_dim].

(** Modelled from the spec: [fl.Concatenate(f, g, dim=1)] joins the
    outputs of its two layers along axis 1; the other axes must agree. *)
Definition Concatenate_1 (f g : list nat -> option (list nat)) (s : list nat)
    : option (list nat) :=
  a ← f s;
  b ← g s;
  match a, b with
  | ba :: na :: ra, bb :: nb :: rb =>
      if decide (ba = bb /\ ra = rb) then Some (ba :: (na + nb) :: ra) else None
  | _, _ => None
  end.

(** Modelled from the spec: [fl.Residual(f)] adds the output of [f] to
    its input. *)
Definition Residual (f : list nat -> option (list nat)) (s : list nat)
    : option (list nat) :=
  o ← f s;
  HistogramEncoder.broadcast_shapes s o.

(** [ViT3dEmbeddings] (lines 86-122); the integer division by
    [patch_size] raises for zero. *)
Definition ViT3dEmbeddings (cube_size embedding_dim patch_size : nat) (s : list nat)
    : option (list nat) :=
  if Nat.eqb patch_size 0 then None
  else
    x ← Concatenate_1
           (ClassToken embedding_dim)
           (fun s => t ← Patch3dEncoder 1 embedding_dim patch_size s;
                     Reshape [(cube_size / patch_size) ^ 3; embedding_dim] t)
           s;
    Residual (PositionalEncoder ((cube_size / patch_size) ^ 3 + 1) embedding_dim) x.

(** The first two layers of [HistogramEncoder] (lines 145-149):
    [Reshape(1, cube_size, cube_size, cube_size)] and [ViT3dEmbeddings]. *)
Definition embeddings (color_bits embedding_dim patch_size : nat) (s : list nat)
    : option (list nat) :=
  let cube_size := 2 ^ color_bits in
  x ← Reshape [1; cube_size; cube_size; cube_size] s;
  ViT3dEmbeddings cube_size embedding_dim patch_size x.

End EncoderShapes.

(** ** Loading the weights of a sub-adapter (histogram.py, lines 273-280) *)

Module AdapterWeights.
Import SD.
Section AdapterWeights.
Context {K : Scalars} {F : Framework}.

(** [linear.weight = nn.Parameter(tensor)]: the layer gets a new
    parameter that holds the tensor; its dimensions and its bias stay. *)
Definition set_weight (lin : Linear) (tensor : Tensor R) : Build Linear :=
  fun st => (mkLinear (in_features lin) (out_features lin) (length st) (bias lin),
             st ++ [tensor]).

(** [load_weights] (lines 273-276); the move to the device and dtype of
    the adapter keeps the values. *)
Definition load_weights (self : CrossAttentionAdapter) (key_tensor value_tensor : Tensor R)
    : Build CrossAttentionAdapter :=
  bbind (set_weight (image_key_projection self) key_tensor) (fun k =>
  bbind (set_weight (image_value_projection self) value_tensor) (fun v =>
  let h := histogram_cross_attention self in
  bret (mkCrossAttentionAdapter (adapter_type self) (target self)
          (mkHistogramCrossAttention (hca_context h) (hca_key h) k v
             (hca_num_heads h) (hca_is_causal h) (hca_scale h))
          (_scale self)))).

End AdapterWeights.
End AdapterWeights.

(** * The trainer (training_utils/trainers/histogram.py) *)

Module Trainer.

(** ** BatchHistogramPrompt and BatchHistogramResults (lines 40-119) *)

Section Batches.
Context {ColorPalette : Type}.

Record BatchHistogramPrompt : Type := mkBatchHistogramPrompt {
  source_histograms_embeddings : Tensor Q;
  source_histograms : Tensor Q;
  source_prompts : list string;
  palettes : list ColorPalette;
  text_embeddings : Tensor Q;
  db_indexes : list Z
}.

Record BatchHistogramResults : Type := mkBatchHistogramResults {
  images : Tensor Q;
  result_histograms : Tensor Q;
  prompt : BatchHistogramPrompt
}.

(** [torch.stack]: the tensors, at least one and all of one shape, along
    a new leading axis. *)
Definition stack (tensors : list (Tensor Q)) : result (Tensor Q) :=
  match tensors with
  | [] => Raise (RuntimeError "stack expects a non-empty TensorList")
  | t :: ts =>
      if forallb (fun t' => bool_decide (shape t' = shape t)) ts then
        Ok (mkTensor (length tensors :: shape t) (flat_map data tensors))
      else Raise (RuntimeError "stack expects each tensor to be equal size")
  end.

(** [getattr(batch, name)] on the sequence the data loader hands to a
    collate function; [attributes] are the names its type provides. *)
Definition sequence_getattr (attributes : list string) (name : string) : result string :=
  if bool_decide (name ∈ attributes) then Ok name else Raise (AttributeError name).

(** [BatchHistogramPrompt.collate_fn] (lines 69-82).  The keyword
    arguments of the constructor call are evaluated in the order written,
    [text_embeddings] last; [iterate] is what iterating an attribute of
    the sequence yields. *)
Definition collate_fn (attributes : list string)
    (iterate : string -> result (list (Tensor Q)))
    (batch : list BatchHistogramPrompt) : result BatchHistogramPrompt :=
  let* source_histograms' := stack (map source_histograms batch) in
  let* source_histograms_embeddings' := stack (map source_histograms_embeddings batch) in
  let palettes' := flat_map palettes batch in
  let source_prompts' := flat_map source_prompts batch in
  let db_indexes' := flat_map db_indexes batch in
  let* attribute := sequence_getattr attributes "text_embeddings" in
  let* items := iterate attribute in
  let* text_embeddings' := stack items in
  Ok (mkBatchHistogramPrompt source_histograms_embeddings' source_histograms'
        source_prompts' palettes' text_embeddings' db_indexes').

(** [BatchHistogramResults.collate_fn] (lines 110-119): the collate
    function of the base class runs first. *)
Definition results_collate_fn (attributes : list string)
    (iterate : string -> result (list (Tensor Q)))
    (batch : list BatchHistogramResults) : result BatchHistogramResults :=
  let* histo := collate_fn attributes iterate (map prompt batch) in
  let* images' := stack (map images batch) in
  let* result_histograms' := stack (map result_histograms batch) in
  Ok (mkBatchHistogramResults images' result_histograms' histo).

End Batches.

(** The methods of a Python [list], the sequence a data loader collates. *)
Definition list_methods : list string :=
  ["append"; "clear"; "copy"; "count"; "extend"; "index"; "insert"; "pop"; "remove";
   "reverse"; "sort"].

(** One evaluation item: a one-bin histogram and a two-feature embedding. *)
Definition evaluation_item : @BatchHistogramPrompt unit :=
  mkBatchHistogramPrompt (mkTensor (cons 1 (cons 2 nil)) (cons 0%Q (cons 1%Q nil)))
    (mkTensor (cons 1 nil) (cons 1%Q nil)) (cons "a cat" nil) (cons tt nil)
    (mkTensor (cons 2 nil) (cons 0%Q (cons 0%Q nil))) (cons 7%Z nil).

(** ** SaveHistogram.on_checkpoint_save (lines 451-465) *)

Fixpoint zeros (n : nat) : string :=
  match n with
  | O => ""
  | S n' => String "0"%char (zeros n')
  end.

(** [format(i, "03d")] for a count: the decimal digits, padded with zeros
    on the left to three characters. *)
Definition format_03d (i : nat) : string :=
  zeros (3 - String.length (pretty i)) +:+ pretty i.

(** [f"unet.{i:03d}"] (line 461). *)
Definition checkpoint_key (i : nat) : string := "unet." +:+ format_03d i.

(** The dictionary comprehension of line 461: a later entry replaces an
    earlier one with the same key. *)
Definition tensors_of {A} (weights : list A) : gmap string A :=
  fold_left (fun tensors iw => <[checkpoint_key (fst iw) := snd iw]> tensors)
    (imap (fun i w => (i, w)) weights) ∅.

(** [on_checkpoint_save] up to the call that writes the file; [parent]
    is the [weights] of [trainer.unet.parent], if the model has a
    parent. *)
Definition on_checkpoint_save {A} (parent : option (list A)) : result (gmap string A) :=
  match parent with
  | None => Raise (ValueError "The model must have a parent.")
  | Some weights => Ok (tensors_of weights)
  end.

(** Reading a string of decimal digits. *)
Definition digit_value (c : ascii) : N := (N.of_nat (nat_of_ascii c) - 48)%N.

Fixpoint parse_from (s : string) (acc : N) : N :=
  match s with
  | EmptyString => acc
  | String c s' => parse_from s' (10 * acc + digit_value c)%N
  end.

End Trainer.

(** * The sub-adapters of an injected network *)

Module Injected.
Import SD.
Section Injected.
Context {K : Scalars}.



End Injected.
End Injected.

(** ** A network with a layer of a subclass of SelfAttention *)

Module SelectionExample.
Import SD Example.

(** A layer whose type is a subclass of [fl.SelfAttention]. *)
Definition self_attention_2d : Attention :=
  mkAttention ["SelfAttention2d"; "SelfAttention"; "Attention"; "Chain"]
    2 2 2 2 1 false false 0 1 2 3 0 0 0 0.

Definition unet_2d : Module Attention :=
  Chain [Attn self_attention; Attn self_attention_2d; Leaf "Parallel" [];
         Attn (cross_attention false)].

End SelectionExample.

(** * Properties *)

(** ** Sums and slices *)

Section ListFacts.

Lemma sum_list_indicator (k0 N : nat) :
  k0 < N ->
  sum_list (map (fun k => if Nat.eqb k0 k then 1 else 0) (seq 0 N)) = 1.
Proof.
  intros Hlt.
  assert (G : forall n s, sum_list (map (fun k => if Nat.eqb k0 k then 1 else 0) (seq s n))
                          = if (Nat.leb s k0 && Nat.ltb k0 (s + n))%bool then 1 else 0).
  { induction n as [|n IH]; intros s; simpl.
    - destruct (Nat.leb_spec s k0), (Nat.ltb_spec k0 (s + 0)); simpl; lia.
    - rewrite IH.
      destruct (Nat.eqb_spec k0 s), (Nat.leb_spec s k0), (Nat.leb_spec (S s) k0),
        (Nat.ltb_spec k0 (s + S n)), (Nat.ltb_spec k0 (S s + n)); simpl; lia. }
  rewrite G. simpl.
  destruct (Nat.ltb_spec k0 N); simpl; lia.
Qed.

Lemma sum_list_map_add {A} (f g : A -> nat) (l : list A) :
  sum_list (map (fun a => f a + g a) l) = sum_list (map f l) + sum_list (map g l).
Proof. induction l as [|a l IH]; simpl; lia. Qed.

Lemma flat_index_lt (a A b B : nat) : a < A -> b < B -> a * B + b < A * B.
Proof. intros Ha Hb. nia. Qed.

Lemma slice_concat_uniform {A} (n : nat) (ls : list (list A)) (i : nat) (l : list A) :
  Forall (fun l' => length l' = n) ls ->
  ls !! i = Some l ->
  take n (drop (i * n) (concat ls)) = l.
Proof.
  intros Hall. revert i.
  induction Hall as [|l0 ls Hl0 Hall IH]; intros i Hi; [discriminate|].
  destruct i as [|i]; simpl in *.
  - injection Hi as <-. rewrite drop_0, take_app_length'; auto.
  - rewrite drop_app_ge by lia.
    replace (n + i * n - length l0) with (i * n) by lia.
    now apply IH.
Qed.

Lemma Qsum_scaled (n : Q) (cs : list nat) :
  (Qsum (map (fun c => nat_to_Q c / n) cs) == nat_to_Q (sum_list cs) / n)%Q.
Proof.
  induction cs as [|c cs IH]; simpl.
  - unfold nat_to_Q. simpl. unfold Qdiv. ring.
  - rewrite IH. unfold nat_to_Q. rewrite Nat2Z.inj_add, inject_Z_plus.
    unfold Qdiv. ring.
Qed.

End ListFacts.

(** ** HistogramExtractor *)

Section ExtractorFacts.
Import HistogramExtractor.

Lemma nat_to_Q_pos (n : nat) : 0 < n -> (0 < nat_to_Q n)%Q.
Proof.
  intros H. unfold nat_to_Q. change 0%Q with (inject_Z 0).
  rewrite <- Zlt_Qlt. lia.
Qed.

Lemma getq_Forall (P : Q -> Prop) (d : list Q) (i : nat) :
  P 0%Q -> Forall P d -> P (getq d i).
Proof.
  intros H0 Hd. unfold getq.
  destruct (Nat.lt_ge_cases i (length d)) as [Hlt|Hge].
  - rewrite Forall_forall in Hd. apply Hd, list_elem_of_In, nth_In, Hlt.
  - now rewrite nth_overflow.
Qed.

Lemma in_range_0 (S : nat) : in_range S 0%Q.
Proof.
  split; [apply Qle_refl|]. unfold nat_to_Q. change 0%Q with (inject_Z 0).
  rewrite <- Zle_Qle. lia.
Qed.

Lemma bin_index_in_range (S : nat) (v : Q) :
  0 < S -> in_range S v ->
  exists k, bin_index 0 (nat_to_Q S) S v = Some k /\ k < S.
Proof.
  intros HS [Hlo Hhi]. unfold bin_index.
  destruct (Qlt_le_dec v 0) as [Hc|_]; [exfalso; exact (Qlt_not_le _ _ Hc Hlo)|].
  destruct (Qlt_le_dec (nat_to_Q S) v) as [Hc|_]; [exfalso; exact (Qlt_not_le _ _ Hc Hhi)|].
  pose proof (nat_to_Q_pos S HS) as Hpos.
  assert (He : ((v - 0) * nat_to_Q S / (nat_to_Q S - 0) == v)%Q).
  { field. intros E. rewrite E in Hpos. exact (Qlt_irrefl _ Hpos). }
  rewrite (Qfloor_comp _ _ He).
  assert (H0 : (0 <= Qfloor v)%Z).
  { rewrite <- (Qfloor_Z 0). apply Qfloor_resp_le. exact Hlo. }
  assert (H1 : (Qfloor v <= Z.of_nat S)%Z).
  { rewrite <- (Qfloor_Z (Z.of_nat S)). apply Qfloor_resp_le. exact Hhi. }
  eexists. split; [reflexivity|].
  destruct (Nat.eqb_spec (Z.to_nat (Qfloor v)) S); lia.
Qed.

Lemma bin_of_in_range (S : nat) (s : Q * Q * Q) :
  0 < S ->
  in_range S (fst (fst s)) -> in_range S (snd (fst s)) -> in_range S (snd s) ->
  exists k, bin_of S (0%Q, nat_to_Q S) s = Some k /\ k < S * S * S.
Proof.
  intros HS Hr Hg Hb. destruct s as [[r g] b]. simpl in *.
  destruct (bin_index_in_range S r HS Hr) as (i & -> & Hi).
  destruct (bin_index_in_range S g HS Hg) as (j & -> & Hj).
  destruct (bin_index_in_range S b HS Hb) as (k & -> & Hk).
  eexists. split; [reflexivity|]. nia.
Qed.

(** Every sample that has a bin is counted in exactly one bin. *)
Lemma histogramdd_total (samples : list (Q * Q * Q)) (bins : nat) (range : Q * Q) :
  Forall (fun s => exists k, bin_of bins range s = Some k /\ k < bins * bins * bins) samples ->
  sum_list (torch_histogramdd samples bins range) = length samples.
Proof.
  unfold torch_histogramdd. induction 1 as [|s ss (k0 & Hk0 & Hlt) _ IH]; simpl.
  - induction (seq 0 (bins * bins * bins)); simpl; auto.
  - change (S (length ss)) with (1 + length ss).
    rewrite <- IH, <- (sum_list_indicator k0 (bins * bins * bins) Hlt), <- sum_list_map_add.
    f_equal. apply map_ext. intros k. unfold falls_in. rewrite Hk0.
    destruct (Nat.eqb k0 k); reflexivity.
Qed.

Lemma length_torch_histogramdd samples bins range :
  length (torch_histogramdd samples bins range) = bins * bins * bins.
Proof. unfold torch_histogramdd. now rewrite length_map, length_seq. Qed.

Lemma Permute_0231_in_range (S B C H W : nat) (d : list Q) :
  Forall (in_range S) d ->
  exists y, Permute_0231 (mkTensor [B; C; H; W] d) = Ok (mkTensor [B; H; W; C] y)
            /\ Forall (in_range S) y.
Proof.
  intros Hd. eexists. split; [reflexivity|]. simpl.
  rewrite Forall_forall. intros v Hv.
  apply list_elem_of_In in Hv.
  repeat (apply in_flat_map in Hv; destruct Hv as (? & _ & Hv)).
  apply in_map_iff in Hv. destruct Hv as (c & <- & _).
  apply getq_Forall; [apply in_range_0 | exact Hd].
Qed.

Lemma samples_of_in_range (S : nat) (d : list Q) (n i : nat) :
  0 < S -> Forall (in_range S) d ->
  Forall (fun s => exists k, bin_of S (0%Q, nat_to_Q S) s = Some k /\ k < S * S * S)
         (samples_of d n i).
Proof.
  intros HS Hd. unfold samples_of. rewrite Forall_map, Forall_forall. intros p _.
  apply bin_of_in_range; simpl; auto; apply getq_Forall; auto using in_range_0.
Qed.

Lemma normalize_nonneg (n : nat) (cs : list nat) :
  Forall (fun v => (0 <= v)%Q) (normalize n cs).
Proof.
  unfold normalize. rewrite Forall_map, Forall_forall. intros c _.
  assert (Hnn : forall m, (0 <= nat_to_Q m)%Q).
  { intros m. unfold nat_to_Q. change 0%Q with (inject_Z 0). rewrite <- Zle_Qle. lia. }
  apply Qmult_le_0_compat; [apply Hnn | apply Qinv_le_0_compat, Hnn].
Qed.

(** C3.  For every image batch (shape [(B, 3, H, W)], at least one image
    and one pixel) whose channel values lie in the binning range
    [[0, 2^color_bits]], [HistogramExtractor] returns a tensor of shape
    [(B, S, S, S)], [S = 2^color_bits], with non-negative entries, whose
    bins sum to 1 for each batch element (hence to 1 within 1e-4). *)
Theorem extractor_histogram_is_distribution (color_bits B H W : nat) (d : list Q) :
  0 < B -> 0 < H * W ->
  Forall (in_range (color_size color_bits)) d ->
  exists t,
    forward color_bits (mkTensor [B; 3; H; W] d) = Ok t
    /\ shape t = [B; color_size color_bits; color_size color_bits; color_size color_bits]
    /\ Forall (fun v => (0 <= v)%Q) (data t)
    /\ forall i, i < B ->
         (Qsum (batch_slice (numel_of (tail (shape t))) t i) == 1)%Q
         /\ (Qabs (Qsum (batch_slice (numel_of (tail (shape t))) t i) - 1) < 1 / 10000)%Q.
Proof.
  intros HB Hpix Hd. unfold forward.
  set (S := color_size color_bits) in *.
  assert (HS : 0 < S) by (subst S; apply Nat.neq_0_lt_0, Nat.pow_nonzero; lia).
  destruct (Permute_0231_in_range S B 3 H W d Hd) as (y & -> & Hy).
  unfold rbind, histogramdd. cbn [shape data Nat.eqb negb]. fold S.
  replace (Nat.eqb B 0) with false by (symmetry; apply Nat.eqb_neq; lia).
  eexists. split; [reflexivity|]. cbn [shape data tail].
  split; [reflexivity|]. split.
  - apply Forall_concat. rewrite Forall_map, Forall_forall. intros i _.
    apply normalize_nonneg.
  - intros i Hi.
    match goal with |- (?x == 1)%Q /\ _ => assert (Hsum : (x == 1)%Q) end.
    { unfold batch_slice. cbn [data].
      rewrite (slice_concat_uniform _ _ i
                 (normalize (H * W)
                    (torch_histogramdd (samples_of y (H * W) i) S (0%Q, nat_to_Q S)))).
      - unfold normalize. rewrite Qsum_scaled.
        rewrite histogramdd_total by (apply samples_of_in_range; auto).
        unfold samples_of. rewrite length_map, length_seq.
        field. intros E. pose proof (nat_to_Q_pos (H * W) Hpix) as Hp.
        rewrite E in Hp. exact (Qlt_irrefl _ Hp).
      - rewrite Forall_map, Forall_forall. intros j _.
        unfold normalize. rewrite length_map, length_torch_histogramdd.
        simpl. lia.
      - rewrite list_lookup_fmap, lookup_seq_lt by lia. reflexivity. }
    split; [exact Hsum|]. rewrite Hsum. reflexivity.
Qed.

Lemma extractor_histogram_is_distribution_witness :
  exists t,
    forward 1 (mkTensor [1; 3; 1; 1] [0; 1; 2]%Q) = Ok t
    /\ shape t = [1; color_size 1; color_size 1; color_size 1]
    /\ Forall (fun v => (0 <= v)%Q) (data t)
    /\ forall i, i < 1 ->
         (Qsum (batch_slice (numel_of (tail (shape t))) t i) == 1)%Q
         /\ (Qabs (Qsum (batch_slice (numel_of (tail (shape t))) t i) - 1) < 1 / 10000)%Q.
Proof.
  apply (extractor_histogram_is_distribution 1 1 1 1 [0; 1; 2]%Q); [lia | lia |].
  unfold in_range, color_size, nat_to_Q.
  repeat (apply List.Forall_cons; [split; unfold Qle; simpl; lia|]).
  apply List.Forall_nil.
Defined.

(** *** Images of one colour *)

Lemma getq_replicate (v : Q) (n i : nat) : i < n -> getq (replicate n v) i = v.
Proof.
  intros Hi. unfold getq. rewrite nth_lookup, lookup_replicate_2 by lia. reflexivity.
Qed.

Lemma Permute_0231_constant (B H W : nat) (v : Q) :
  exists y, Permute_0231 (constant_image B H W v) = Ok (mkTensor [B; H; W; 3] y)
            /\ forall o, o < B * (H * W) * 3 -> getq y o = v.
Proof.
  eexists. split; [reflexivity|]. cbn [data constant_image].
  assert (G : forall y n, Forall (fun q => q = v) y -> length y = n ->
                          forall o, o < n -> getq y o = v).
  { intros y n Hy Hn o Ho. unfold getq.
    rewrite Forall_forall in Hy. apply Hy, list_elem_of_In, nth_In. lia. }
  apply G.
  - rewrite Forall_forall. intros q Hq. apply list_elem_of_In in Hq.
    apply in_flat_map in Hq. destruct Hq as (b & Hb & Hq).
    apply in_flat_map in Hq. destruct Hq as (h & Hh & Hq).
    apply in_flat_map in Hq. destruct Hq as (w & Hw & Hq).
    apply in_map_iff in Hq. destruct Hq as (c & <- & Hc).
    apply in_seq in Hb, Hh, Hw, Hc. apply getq_replicate.
    repeat apply flat_index_lt; lia.
  - assert (L : forall {A} (f : nat -> list A) m n,
                (forall a, length (f a) = m) -> length (flat_map f (seq 0 n)) = n * m).
    { intros A f m n Hf. generalize 0. induction n as [|n IH]; intros s; simpl; auto.
      rewrite length_app, Hf, IH. reflexivity. }
    rewrite (L _ _ (H * (W * 3))); [lia|]. intros b.
    rewrite (L _ _ (W * 3)); [lia|]. intros h.
    rewrite (L _ _ 3); [lia|]. intros w.
    now rewrite length_map, length_seq.
Qed.

Lemma histogramdd_replicate (s : Q * Q * Q) (n bins : nat) (range : Q * Q) (k : nat) :
  k < bins * bins * bins ->
  nth k (torch_histogramdd (replicate n s) bins range) 0
  = if falls_in bins range k s then n else 0.
Proof.
  intros Hk. unfold torch_histogramdd.
  rewrite (nth_indep _ 0 ((fun k0 => length (List.filter (falls_in bins range k0) (replicate n s))) 0))
    by now rewrite length_map, length_seq.
  rewrite (map_nth (fun k0 => length (List.filter (falls_in bins range k0) (replicate n s)))),
    seq_nth by lia.
  simpl. induction n as [|n IH]; simpl.
  - now destruct (falls_in bins range k s).
  - destruct (falls_in bins range k s); simpl; auto.
Qed.

(** The histogram of a batch of one-colour images: for every image, all the
    mass sits in the bin of that colour. *)
Lemma constant_image_histogram (color_bits B H W : nat) (v : Q) (k0 : nat) :
  0 < B -> 0 < H * W ->
  bin_of (color_size color_bits) (0%Q, nat_to_Q (color_size color_bits)) (v, v, v) = Some k0 ->
  exists t,
    forward color_bits (constant_image B H W v) = Ok t
    /\ shape t = [B; color_size color_bits; color_size color_bits; color_size color_bits]
    /\ forall i k, i < B -> k < numel_of (tail (shape t)) ->
         (getq (data t) (i * numel_of (tail (shape t)) + k)
          == if Nat.eqb k0 k then 1 else 0)%Q.
Proof.
  intros HB Hpix Hbin. unfold forward.
  set (S := color_size color_bits) in *.
  destruct (Permute_0231_constant B H W v) as (y & -> & Hy).
  unfold rbind, histogramdd. cbn [shape data Nat.eqb negb]. fold S.
  replace (Nat.eqb B 0) with false by (symmetry; apply Nat.eqb_neq; lia).
  eexists. split; [reflexivity|]. cbn [shape data tail].
  split; [reflexivity|].
  intros i k Hi Hk.
  assert (HN : numel_of [S; S; S] = S * S * S) by (simpl; lia).
  rewrite HN in *.
  assert (Hsamples : samples_of y (H * W) i = replicate (H * W) (v, v, v)).
  { unfold samples_of. apply list_eq. intros p.
    rewrite list_lookup_fmap.
    destruct (Nat.lt_ge_cases p (H * W)) as [Hp|Hp].
    - rewrite lookup_seq_lt, lookup_replicate_2 by lia. simpl.
      assert (Hip : i * (H * W) + p < B * (H * W)) by (apply flat_index_lt; lia).
      rewrite !Hy by lia. reflexivity.
    - rewrite lookup_seq_ge, lookup_ge_None_2 by (rewrite ?length_replicate; lia).
      reflexivity. }
  set (hist := fun i0 => normalize (H * W)
                 (torch_histogramdd (samples_of y (H * W) i0) S (0%Q, nat_to_Q S))).
  assert (Hslice : take (S * S * S) (drop (i * (S * S * S)) (concat (map hist (seq 0 B))))
                   = hist i).
  { apply slice_concat_uniform.
    - rewrite Forall_map, Forall_forall. intros j _. unfold hist, normalize.
      now rewrite length_map, length_torch_histogramdd.
    - rewrite list_lookup_fmap, lookup_seq_lt by lia. reflexivity. }
  assert (Hget : getq (concat (map hist (seq 0 B))) (i * (S * S * S) + k)
                 = getq (hist i) k).
  { unfold getq. rewrite !nth_lookup, <- Hslice, lookup_take_lt, lookup_drop by lia.
    reflexivity. }
  rewrite Hget. unfold hist, normalize, getq.
  rewrite Hsamples.
  rewrite (nth_indep _ 0%Q ((fun c => nat_to_Q c / nat_to_Q (H * W))%Q 0))
    by now rewrite length_map, length_torch_histogramdd.
  rewrite (map_nth (fun c => (nat_to_Q c / nat_to_Q (H * W))%Q)).
  rewrite histogramdd_replicate by lia.
  unfold falls_in. rewrite Hbin.
  pose proof (nat_to_Q_pos (H * W) Hpix) as Hp.
  destruct (Nat.eqb k0 k).
  - field. intros E. rewrite E in Hp. exact (Qlt_irrefl _ Hp).
  - unfold nat_to_Q at 1. simpl. unfold Qdiv. ring.
Qed.

(** C6.  The extractor test's images, colour resolution [color_bits = 3]
    ([S = 8]), one 224 x 224 image.  The all-zero image has mass 1 in bin
    (0,0,0).  The all-one image, the maximum of the normalized range, has
    mass 1 in bin (1,1,1) and none in the highest bin (7,7,7): the channel
    values are binned over [[0, 8]] as they are. *)
Theorem extractor_uniform_images_bins :
  (exists t, forward 3 (constant_image 1 224 224 0) = Ok t
             /\ (hist_at 8 t 0 0 0 0 == 1)%Q)
  /\ (exists t, forward 3 (constant_image 1 224 224 1) = Ok t
              /\ (hist_at 8 t 0 1 1 1 == 1)%Q
              /\ (hist_at 8 t 0 7 7 7 == 0)%Q).
Proof.
  assert (Hpix : 0 < 224 * 224) by lia.
  split.
  - destruct (constant_image_histogram 3 1 224 224 0 0) as (t & Ht & Hs & Hbins);
      [lia | exact Hpix | reflexivity |].
    exists t. split; [exact Ht|].
    rewrite Hs in Hbins. unfold hist_at.
    apply (Hbins 0 0); [lia | vm_compute; lia].
  - destruct (constant_image_histogram 3 1 224 224 1 73) as (t & Ht & Hs & Hbins);
      [lia | exact Hpix | reflexivity |].
    exists t. split; [exact Ht|].
    rewrite Hs in Hbins. unfold hist_at. split.
    + apply (Hbins 0 73); [lia | vm_compute; lia].
    + apply (Hbins 0 511); [lia | vm_compute; lia].
Qed.

End ExtractorFacts.

(** ** The entry points of HistogramExtractor *)

Section ExtractorClassFacts.
Import HistogramExtractorClass.

(** C8.  [HistogramExtractor] binds [__init__] and [histogramdd] only:
    unless the framework's base classes provide it, looking up
    [images_to_histograms], as the trainer and the tests do, raises
    [AttributeError]; the only entry point is the batched call on a
    tensor. *)
Theorem images_to_histograms_missing (inherited : list string) :
  "images_to_histograms" ∉ inherited ->
  getattr inherited "images_to_histograms" = Raise (AttributeError "images_to_histograms")
  /\ getattr inherited "histogramdd" = Ok "histogramdd".
Proof.
  intros Hnot. unfold getattr. split.
  - rewrite bool_decide_eq_false_2; [reflexivity|].
    rewrite !elem_of_app. intros [Hin|[Hin|Hin]]; [| |contradiction];
      unfold instance_attributes, class_body in Hin;
      repeat (apply elem_of_cons in Hin; destruct Hin as [Hin|Hin]; [discriminate|]);
      now apply elem_of_nil in Hin.
  - rewrite bool_decide_eq_true_2; [reflexivity|].
    rewrite !elem_of_app. right. left. unfold class_body. apply elem_of_cons. right.
    apply elem_of_cons. now left.
Qed.

Lemma images_to_histograms_missing_witness :
  getattr ["forward"; "layers"; "walk"; "structural_copy"] "images_to_histograms"
  = Raise (AttributeError "images_to_histograms").
Proof.
  apply (images_to_histograms_missing ["forward"; "layers"; "walk"; "structural_copy"]).
  intros Hin.
  repeat (apply elem_of_cons in Hin; destruct Hin as [Hin|Hin]; [discriminate|]).
  now apply elem_of_nil in Hin.
Defined.

End ExtractorClassFacts.

(** ** HistogramEncoder.compute_histogram_embedding *)

Section EncoderFacts.
Import HistogramEncoder.

Lemma numel_of_one (s : list nat) : numel_of s = 1 <-> Forall (fun n => n = 1) s.
Proof.
  induction s as [|n s IH]; simpl.
  - split; auto.
  - rewrite List.Forall_cons_iff, <- IH. split; [apply Nat.eq_mul_1 | intros [-> ->]; auto].
Qed.

Lemma numel_of_rev (s : list nat) : numel_of (rev s) = numel_of s.
Proof.
  induction s as [|n s IH]; simpl; auto.
  unfold numel_of in *. rewrite fold_right_app. simpl.
  rewrite <- IH. generalize (rev s). intros l.
  induction l as [|m l IHl]; simpl; lia.
Qed.

Lemma broadcast_rev_one (s1 s2 s : list nat) :
  broadcast_rev s1 s2 = Some s -> Forall (fun n => n = 1) s -> Forall (fun n => n = 1) s1.
Proof.
  revert s2 s. induction s1 as [|a s1 IH]; intros s2 s Hb Hs; [constructor|].
  destruct s2 as [|b s2]; simpl in Hb.
  - now injection Hb as <-.
  - destruct (Nat.eqb_spec a b) as [->|Hab];
      [|destruct (Nat.eqb_spec a 1) as [->|Ha]; [|destruct (Nat.eqb_spec b 1) as [->|Hb1]]];
      try discriminate;
      destruct (broadcast_rev s1 s2) as [s'|] eqn:E; try discriminate;
      injection Hb as <-; apply List.Forall_cons_iff in Hs; destruct Hs as [H1 Hs];
      constructor; eauto.
Qed.

(** Comparing a tensor of several elements with any tensor has no truth
    value. *)
Lemma tensor_eq_truth_ambiguous (x y : Tensor Q) :
  numel x <> 1 -> is_ok (tensor_eq_truth x y) = false.
Proof.
  intros Hx. unfold tensor_eq_truth, broadcast_shapes.
  destruct (broadcast_rev (rev (shape x)) (rev (shape y))) as [s|] eqn:E; simpl; [|reflexivity].
  destruct (Nat.eqb_spec (numel_of (rev s)) 1) as [H1|_].
  - exfalso. apply Hx. unfold numel. rewrite <- numel_of_rev. apply numel_of_one.
    apply (broadcast_rev_one _ _ _ E). apply numel_of_one. now rewrite <- numel_of_rev.
  - now destruct (Nat.eqb (numel_of (rev s)) 0).
Qed.

(** C4.  With a negative histogram supplied, the embedding of a histogram
    of more than one element is never returned: the guard
    [if x == negative_histogram] asks for the truth value of a
    multi-element tensor and raises. *)
Theorem compute_histogram_embedding_supplied_negative_raises
    (encoder : Tensor Q -> option (Tensor Q)) (x negative_histogram : Tensor Q) :
  1 < numel x ->
  is_ok (compute_histogram_embedding encoder x (Some negative_histogram)) = false.
Proof.
  intros Hx. unfold compute_histogram_embedding, call.
  destruct (encoder x) as [c|]; [|reflexivity]. cbn [rbind eq_truth].
  pose proof (tensor_eq_truth_ambiguous x negative_histogram ltac:(lia)) as Hamb.
  destruct (tensor_eq_truth x negative_histogram); [discriminate|reflexivity].
Qed.

Lemma compute_histogram_embedding_supplied_negative_raises_witness :
  1 < numel (mkTensor [1; 2; 2; 2] (replicate 8 (1 # 8)))
  /\ is_ok (compute_histogram_embedding Some
              (mkTensor [1; 2; 2; 2] (replicate 8 (1 # 8)))
              (Some (mkTensor [1; 2; 2; 2] (replicate 8 (3 # 8))))) = false.
Proof.
  assert (H : 1 < numel (mkTensor [1; 2; 2; 2] (replicate 8 (1 # 8)))) by (vm_compute; lia).
  split; [exact H|].
  exact (compute_histogram_embedding_supplied_negative_raises Some _ _ H).
Defined.

Lemma cat0_not_ValueError (a b : Tensor Q) (msg : string) :
  cat0 a b <> Raise (ValueError msg).
Proof.
  unfold cat0. destruct (shape a) as [|n sa], (shape b) as [|m sb]; try discriminate.
  destruct (decide (sa = sb)); discriminate.
Qed.

Lemma call_not_ValueError encoder (x : Tensor Q) (msg : string) :
  call encoder x <> Raise (ValueError msg).
Proof. unfold call. destruct (encoder x); discriminate. Qed.

Lemma tensor_eq_truth_not_ValueError (x y : Tensor Q) (msg : string) :
  tensor_eq_truth x y <> Raise (ValueError msg).
Proof.
  unfold tensor_eq_truth. destruct (broadcast_shapes (shape x) (shape y)); [|discriminate].
  destruct (Nat.eqb (numel_of l) 1); [discriminate|].
  destruct (Nat.eqb (numel_of l) 0); discriminate.
Qed.

(** C7.  [compute_histogram_embedding] raises its [ValueError] exactly when
    the input has zero elements and no negative histogram is supplied (the
    encoder having run on the input first); an empty input without a
    negative histogram never returns an embedding, and a non-empty input
    never raises this error. *)
Theorem compute_histogram_embedding_empty_guard
    (encoder : Tensor Q -> option (Tensor Q)) (x : Tensor Q)
    (negative_histogram : option (Tensor Q)) :
  (compute_histogram_embedding encoder x negative_histogram
     = Raise (ValueError empty_tensor_msg)
   <-> numel x = 0 /\ negative_histogram = None /\ is_Some (encoder x))
  /\ (numel x = 0 -> negative_histogram = None ->
      is_ok (compute_histogram_embedding encoder x negative_histogram) = false)
  /\ (numel x <> 0 -> forall msg,
      compute_histogram_embedding encoder x negative_histogram <> Raise (ValueError msg)).
Proof.
  assert (Hval : forall msg,
            compute_histogram_embedding encoder x negative_histogram = Raise (ValueError msg) ->
            numel x = 0 /\ negative_histogram = None /\ is_Some (encoder x)).
  { intros msg. unfold compute_histogram_embedding.
    pose proof (call_not_ValueError encoder x msg) as Hcall.
    unfold call in *. destruct (encoder x) as [c|]; [clear Hcall|intros E; now elim Hcall].
    cbn [rbind]. destruct negative_histogram as [y|]; cbn [eq_truth rbind].
    - pose proof (tensor_eq_truth_not_ValueError x y msg) as Hy.
      destruct (tensor_eq_truth x y) as [[|]|e]; cbn [rbind].
      + intros E. now apply cat0_not_ValueError in E.
      + pose proof (call_not_ValueError encoder y msg) as Hcy. unfold call in *.
        destruct (encoder y); cbn [rbind]; intros E;
          [now apply cat0_not_ValueError in E | now elim Hcy].
      + intros E. injection E as ->. now elim Hy.
    - destruct (Nat.eqb_spec (numel x) 0) as [H0|H0]; cbn [rbind].
      + intros _. repeat split; auto.
      + pose proof (call_not_ValueError encoder (uniform_fallback x) msg) as Hcy.
        unfold call in *.
        destruct (encoder (uniform_fallback x)); cbn [rbind]; intros E;
          [now apply cat0_not_ValueError in E | now elim Hcy]. }
  split; [split; [apply Hval|]|split].
  - intros (H0 & -> & c & Hc). unfold compute_histogram_embedding, call.
    rewrite Hc. cbn [rbind eq_truth]. rewrite H0. reflexivity.
  - intros H0 ->. unfold compute_histogram_embedding, call.
    destruct (encoder x); [|reflexivity]. cbn [rbind eq_truth]. rewrite H0. reflexivity.
  - intros Hne msg E. apply Hval in E. tauto.
Qed.

Lemma compute_histogram_embedding_empty_guard_witness :
  compute_histogram_embedding Some (mkTensor [0; 2; 2; 2] []) None
  = Raise (ValueError empty_tensor_msg).
Proof.
  apply (compute_histogram_embedding_empty_guard Some (mkTensor [0; 2; 2; 2] []) None).
  repeat split; eauto.
Defined.

Lemma Qsum_replicate (n : nat) (q : Q) : (Qsum (replicate n q) == nat_to_Q n * q)%Q.
Proof.
  induction n as [|n IH].
  - simpl. unfold nat_to_Q. simpl. ring.
  - cbn [replicate Qsum fold_right]. fold (Qsum (replicate n q)). rewrite IH.
    unfold nat_to_Q. rewrite Nat2Z.inj_succ, <- Z.add_1_l, inject_Z_plus. ring.
Qed.

Lemma slice_replicate {A} (n i B : nat) (a : A) :
  i < B -> take n (drop (i * n) (replicate (B * n) a)) = replicate n a.
Proof.
  intros Hi. rewrite drop_replicate, take_replicate. f_equal. nia.
Qed.

Lemma uniform_fallback_data (x : Tensor Q) :
  data (uniform_fallback x)
  = replicate (numel x) ((0 + 1) * 1 / nat_to_Q (numel x))%Q.
Proof.
  unfold uniform_fallback, zeros_like. cbn [data shape].
  generalize (nat_to_Q (numel x)). intros q.
  induction (numel x) as [|n IH]; simpl; [reflexivity|]. now rewrite IH.
Qed.

Lemma nat_to_Q_mul (a b : nat) : (nat_to_Q (a * b) == nat_to_Q a * nat_to_Q b)%Q.
Proof. unfold nat_to_Q. now rewrite Nat2Z.inj_mul, inject_Z_mult. Qed.

Lemma nat_to_Q_nonzero (n : nat) : n <> 0 -> ~ (nat_to_Q n == 0)%Q.
Proof.
  intros Hn E. pose proof (nat_to_Q_pos n ltac:(lia)) as Hp.
  rewrite E in Hp. exact (Qlt_irrefl _ Hp).
Qed.

Lemma slice_mass (B N : nat) :
  B <> 0 -> N <> 0 ->
  (nat_to_Q N * ((0 + 1) * 1 / nat_to_Q (B * N)) == 1 / nat_to_Q B)%Q.
Proof.
  intros HB HN. rewrite nat_to_Q_mul. field.
  split; apply nat_to_Q_nonzero; assumption.
Qed.

Lemma fallback_slice (x : Tensor Q) (B S i : nat) :
  shape x = [B; S; S; S] -> i < B ->
  (Qsum (batch_slice (S * S * S) (uniform_fallback x) i)
   == nat_to_Q (S * S * S) * ((0 + 1) * 1 / nat_to_Q (B * (S * S * S))))%Q.
Proof.
  intros Hs Hi. unfold batch_slice. rewrite uniform_fallback_data.
  unfold numel. rewrite Hs. cbn [numel_of fold_right].
  replace (B * (S * (S * (S * 1)))) with (B * (S * S * S)) by lia.
  rewrite slice_replicate, Qsum_replicate by lia. reflexivity.
Qed.

(** C9.  Without a negative histogram and for a non-empty input [x], the
    embedding is the encoding of the fallback tensor concatenated with the
    encoding of [x]; the fallback has the shape of [x] and every entry
    equal to [1 / x.numel()], the batch axis counted; for a batch of [B]
    histograms of [S^3] bins each batch element of the fallback has total
    mass [1 / B], which is 1 exactly when [B = 1]. *)
Theorem uniform_fallback_mass (encoder : Tensor Q -> option (Tensor Q)) (x : Tensor Q) :
  numel x <> 0 ->
  compute_histogram_embedding encoder x None
    = (let* conditional_embedding := call encoder x in
       let* negative_embedding := call encoder (uniform_fallback x) in
       cat0 negative_embedding conditional_embedding)
  /\ shape (uniform_fallback x) = shape x
  /\ length (data (uniform_fallback x)) = numel x
  /\ Forall (fun v => (v == 1 / nat_to_Q (numel x))%Q) (data (uniform_fallback x))
  /\ forall B S, shape x = [B; S; S; S] ->
       forall i, i < B ->
         (Qsum (batch_slice (S * S * S) (uniform_fallback x) i) == 1 / nat_to_Q B)%Q
         /\ ((Qsum (batch_slice (S * S * S) (uniform_fallback x) i) == 1)%Q <-> B = 1).
Proof.
  intros Hne. rewrite uniform_fallback_data. repeat split.
  - unfold compute_histogram_embedding. destruct (call encoder x); [|reflexivity].
    cbn [rbind eq_truth]. now destruct (Nat.eqb_spec (numel x) 0).
  - now rewrite length_replicate.
  - apply Forall_replicate. unfold Qdiv. ring.
  - rewrite (fallback_slice x B S i) by assumption.
    apply slice_mass; unfold numel in Hne; rewrite H in Hne; simpl in Hne; nia.
  - rewrite (fallback_slice x B S i) by assumption.
    rewrite slice_mass by (unfold numel in Hne; rewrite H in Hne; simpl in Hne; nia).
    intros E.
    assert (HBn : ~ (nat_to_Q B == 0)%Q) by (apply nat_to_Q_nonzero; lia).
    assert (HB : (nat_to_Q B == 1)%Q).
    { transitivity (nat_to_Q B * (1 / nat_to_Q B))%Q; [rewrite E; ring | field; exact HBn]. }
    unfold nat_to_Q, Qeq in HB. simpl in HB. lia.
  - intros ->. rewrite (fallback_slice x 1 S i) by assumption.
    rewrite slice_mass by (unfold numel in Hne; rewrite H in Hne; simpl in Hne; nia).
    reflexivity.
Qed.

Lemma uniform_fallback_mass_witness :
  Forall (fun v => (v == 1 / nat_to_Q 16)%Q)
         (data (uniform_fallback (mkTensor [2; 2; 2; 2] (replicate 16 (1 # 8))))).
Proof.
  apply (uniform_fallback_mass Some (mkTensor [2; 2; 2; 2] (replicate 16 (1 # 8)))).
  vm_compute. lia.
Defined.

End EncoderFacts.

(** ** The adapters: construction *)

Section BuildFacts.
Import SD.
Context {K : Scalars} {F : Framework}.

Lemma new_param_spec (shape : list nat) (st : list (Tensor R)) :
  new_param shape st = (length st, st ++ [init_param (length st) shape]).
Proof. reflexivity. Qed.

(** What building a [Linear] does to the store. *)
Lemma Linear_init_spec (i o : nat) (b : bool) (st : list (Tensor R)) :
  exists ext,
    snd (Linear_init i o b st) = st ++ ext
    /\ weight (fst (Linear_init i o b st)) = length st
    /\ length st < length (st ++ ext)
    /\ in_features (fst (Linear_init i o b st)) = i
    /\ out_features (fst (Linear_init i o b st)) = o
    /\ (b = false -> bias (fst (Linear_init i o b st)) = None).
Proof.
  unfold Linear_init, bbind, bret, new_param. destruct b; simpl.
  - eexists [_; _]. rewrite <- app_assoc. simpl.
    repeat split; auto; [rewrite length_app; simpl; lia | discriminate].
  - eexists [_]. repeat split; auto. rewrite length_app. simpl. lia.
Qed.

Lemma built_over_mono (n m n' m' : nat) (a : Attention) (ad : CrossAttentionAdapter) :
  n' <= n -> m <= m' -> built_over n m a ad -> built_over n' m' a ad.
Proof.
  unfold built_over. intros Hn Hm (?&?&?&?&?&?&?&?&?&?&Hb&?&?).
  repeat split; auto; try lia; now apply Hb.
Qed.

Lemma CrossAttentionAdapter_init_spec (a : Attention) (scale : R) (st : list (Tensor R)) :
  exists ext,
    snd (CrossAttentionAdapter_init a scale st) = st ++ ext
    /\ built_over (length st) (length (st ++ ext)) a
         (fst (CrossAttentionAdapter_init a scale st)).
Proof.
  unfold CrossAttentionAdapter_init, ImageCrossAttention_init, bbind, bret.
  destruct (Linear_init_spec (image_in_features a) (inner_dim a) (use_bias a) st)
    as (e1 & Hs1 & Hw1 & Hl1 & Hi1 & Ho1 & Hb1).
  destruct (Linear_init (image_in_features a) (inner_dim a) (use_bias a) st) as [k st1].
  simpl in *. subst st1.
  destruct (Linear_init_spec (image_in_features a) (inner_dim a) (use_bias a) (st ++ e1))
    as (e2 & Hs2 & Hw2 & Hl2 & Hi2 & Ho2 & Hb2).
  destruct (Linear_init (image_in_features a) (inner_dim a) (use_bias a) (st ++ e1)) as [v st2].
  simpl in *. subst st2.
  exists (e1 ++ e2). rewrite app_assoc. split; [reflexivity|].
  unfold built_over, image_key_projection, image_value_projection. simpl.
  rewrite !length_app in *.
  repeat split; auto; lia.
Qed.

Lemma build_all_spec (scale : R) (l : list Attention) (st : list (Tensor R)) :
  exists ext,
    snd (build_all (fun a => CrossAttentionAdapter_init a scale) l st) = st ++ ext
    /\ Forall2 (built_over (length st) (length (st ++ ext))) l
         (fst (build_all (fun a => CrossAttentionAdapter_init a scale) l st)).
Proof.
  revert st. induction l as [|a l IH]; intros st; simpl.
  - exists []. split; [now rewrite app_nil_r | constructor].
  - unfold bbind, bret.
    destruct (CrossAttentionAdapter_init_spec a scale st) as (e1 & Hs1 & Hb1).
    destruct (CrossAttentionAdapter_init a scale st) as [ad st1]. simpl in *. subst st1.
    destruct (IH (st ++ e1)) as (e2 & Hs2 & Hb2).
    destruct (build_all _ l (st ++ e1)) as [ads st2]. simpl in *. subst st2.
    exists (e1 ++ e2). rewrite app_assoc. split; [reflexivity|].
    constructor.
    + eapply built_over_mono; [| |exact Hb1]; rewrite ?length_app; lia.
    + eapply Forall2_impl; [exact Hb2|]. intros a' ad'.
      apply built_over_mono; rewrite ?length_app; lia.
Qed.

(** What [SD1HistogramAdapter.__init__] builds. *)
Lemma SD1HistogramAdapter_init_spec (target : Module Attention) (enc : HistogramEncoder)
    (scale : R) (st : list (Tensor R)) :
  exists ext,
    snd (SD1HistogramAdapter_init target enc scale st) = st ++ ext
    /\ sd_target (fst (SD1HistogramAdapter_init target enc scale st)) = target
    /\ _histogram_encoder (fst (SD1HistogramAdapter_init target enc scale st)) = [enc]
    /\ Forall2 (built_over (length st) (length (st ++ ext)))
         (List.filter not_SelfAttention (layers_Attention target))
         (sub_adapters (fst (SD1HistogramAdapter_init target enc scale st))).
Proof.
  unfold SD1HistogramAdapter_init, bbind, bret.
  destruct (build_all_spec scale (List.filter not_SelfAttention (layers_Attention target)) st)
    as (ext & Hs & Hb).
  destruct (build_all _ _ st) as [subs st1]. simpl in *.
  exists ext. auto.
Qed.

End BuildFacts.

(** ** The orchestrator: selection, context key, weights *)

Section OrchestratorFacts.
Import SD.
Context {K : Scalars} {F : Framework}.

Lemma Forall2_built_over_targets (n m : nat) (l : list Attention)
    (subs : list CrossAttentionAdapter) :
  Forall2 (built_over n m) l subs -> map target subs = l.
Proof.
  induction 1 as [|a ad l subs Hb _ IH]; simpl; [reflexivity|].
  destruct Hb as (-> & _). now rewrite IH.
Qed.

Lemma Forall2_built_over_Forall (n m : nat) (P : CrossAttentionAdapter -> Prop)
    (l : list Attention) (subs : list CrossAttentionAdapter) :
  (forall a ad, built_over n m a ad -> P ad) ->
  Forall2 (built_over n m) l subs -> Forall P subs.
Proof. intros HP. induction 1; constructor; eauto. Qed.

(** C5, as amended.  The constructor builds one sub-adapter for each
    attention layer of the target whose type is not exactly
    [fl.SelfAttention], in traversal order, and none for a layer of that
    type: a layer of the target has a sub-adapter exactly when its type is
    not [fl.SelfAttention], whatever its base classes.  The sub-adapters
    are those [CrossAttentionAdapter(target=cross_attn, scale=scale)]
    builds, the class imported from image_prompt: their branches read the
    context entry and have the input width of that class. *)
Theorem sub_adapters_selection (net : Module Attention) (enc : HistogramEncoder)
    (scale : R) (st : list (Tensor R)) :
  let self := fst (SD1HistogramAdapter_init net enc scale st) in
  map target (sub_adapters self) = List.filter not_SelfAttention (layers_Attention net)
  /\ (forall a, In a (layers_Attention net) ->
        (In a (map target (sub_adapters self)) <-> type_name a <> Some "SelfAttention"))
  /\ sub_adapters self
     = fst (build_all (fun cross_attn => CrossAttentionAdapter_init cross_attn scale)
              (List.filter not_SelfAttention (layers_Attention net)) st)
  /\ Forall (fun ad =>
               hca_context (histogram_cross_attention ad) = "ip_adapter"
               /\ hca_key (histogram_cross_attention ad) = image_context_key
               /\ in_features (image_key_projection ad) = image_in_features (target ad)
               /\ in_features (image_value_projection ad) = image_in_features (target ad))
            (sub_adapters self).
Proof.
  destruct (SD1HistogramAdapter_init_spec net enc scale st) as (ext & _ & _ & _ & Hsubs).
  cbv zeta. pose proof (Forall2_built_over_targets _ _ _ _ Hsubs) as Hmap.
  split; [exact Hmap|]. split; [|split].
  - intros a Ha. rewrite Hmap, filter_In. unfold not_SelfAttention. split.
    + intros [_ Hsel] E. rewrite bool_decide_eq_true_2 in Hsel by exact E. discriminate.
    + intros Hty. split; [exact Ha|]. now rewrite bool_decide_eq_false_2.
  - unfold SD1HistogramAdapter_init, bbind, bret.
    destruct (build_all (fun cross_attn => CrossAttentionAdapter_init cross_attn scale)
                (List.filter not_SelfAttention (layers_Attention net)) st) as [subs st1].
    reflexivity.
  - eapply Forall2_built_over_Forall; [|exact Hsubs].
    intros a ad (Ht & _ & Hc & Hk & _ & _ & Hik & Hiv & _). subst a. auto.
Qed.

Lemma zero_init_lookup_ne (ws : list loc) (st : list (Tensor R)) (l : loc) :
  l ∉ ws ->
  fold_left (fun st w => alter Layers.zeros_ w st) ws st !! l = st !! l.
Proof.
  revert st. induction ws as [|w ws IH]; intros st Hl; simpl; [reflexivity|].
  apply not_elem_of_cons in Hl. destruct Hl as [Hne Hl].
  rewrite IH by exact Hl. apply list_lookup_alter_ne. congruence.
Qed.

Lemma weights_new (n m : nat) (l : list Attention) (subs : list CrossAttentionAdapter)
    (w : loc) :
  Forall2 (built_over n m) l subs -> w ∈ flat_map adapter_weights subs -> n <= w < m.
Proof.
  induction 1 as [|a ad l subs Hb _ IH]; simpl; intros Hw.
  - now apply elem_of_nil in Hw.
  - destruct Hb as (_&_&_&_&_&_&_&_&_&_&_&Hk&Hv).
    rewrite !elem_of_cons in Hw. destruct Hw as [->| [->|Hw]]; auto.
Qed.

(** C10.  [weights] lists the weight tensors of the key and value
    projections of the sub-adapters, all of them created by the
    constructor; [zero_init] changes no other tensor of the store.  The
    tensors that existed before the adapter was built, the parameters of
    the target network and of the histogram encoder among them, are not in
    the list and are left as they were; the encoder is held in a
    one-element list. *)
Theorem zero_init_frame (net : Module Attention) (enc : HistogramEncoder) (scale : R)
    (st0 : list (Tensor R)) :
  let self := fst (SD1HistogramAdapter_init net enc scale st0) in
  let st1 := snd (SD1HistogramAdapter_init net enc scale st0) in
  _histogram_encoder self = [enc]
  /\ weights self
     = flat_map (fun ad => [weight (image_key_projection ad);
                            weight (image_value_projection ad)]) (sub_adapters self)
  /\ (forall l, l ∈ weights self -> length st0 <= l < length st1)
  /\ (forall l, l ∉ weights self -> zero_init self st1 !! l = st1 !! l)
  /\ (forall l, l < length st0 ->
        (l ∉ weights self) /\ zero_init self st1 !! l = st0 !! l)
  /\ (Forall (fun l => l < length st0) (parameters net ++ encoder_parameters enc) ->
      Forall (fun l => (l ∉ weights self) /\ zero_init self st1 !! l = st0 !! l)
             (parameters net ++ encoder_parameters enc)).
Proof.
  destruct (SD1HistogramAdapter_init_spec net enc scale st0) as (ext & Hst & _ & Henc & Hsubs).
  cbv zeta. rewrite Hst.
  set (self := fst (SD1HistogramAdapter_init net enc scale st0)) in *.
  assert (Hnew : forall l, l ∈ weights self -> length st0 <= l < length (st0 ++ ext)).
  { intros l Hl. eapply weights_new; [exact Hsubs | exact Hl]. }
  assert (Hframe : forall l, l ∉ weights self ->
                     zero_init self (st0 ++ ext) !! l = (st0 ++ ext) !! l).
  { intros l Hl. apply zero_init_lookup_ne, Hl. }
  assert (Hold : forall l, l < length st0 ->
                   (l ∉ weights self) /\ zero_init self (st0 ++ ext) !! l = st0 !! l).
  { intros l Hl.
    assert (Hnot : l ∉ weights self) by (intros Hin; apply Hnew in Hin; lia).
    split; [exact Hnot|]. rewrite Hframe by exact Hnot. now apply lookup_app_l. }
  split; [exact Henc|]. split; [reflexivity|]. split; [exact Hnew|].
  split; [exact Hframe|]. split; [exact Hold|].
  intros Hwf. eapply List.Forall_impl; [|exact Hwf]. exact Hold.
Qed.

End OrchestratorFacts.

(** ** Layers fed with zeros *)

Section LayerFacts.
Import Layers.
Context {K : Scalars} {L : ScalarLaws K}.

Lemma mat_get_all_zero (d : list R) (cols i j : nat) :
  Forall (fun x => x = r0) d -> mat_get d cols i j = r0.
Proof.
  intros Hd. unfold mat_get.
  destruct (Nat.lt_ge_cases (i * cols + j) (length d)) as [Hlt|Hge].
  - rewrite Forall_forall in Hd. apply Hd, list_elem_of_In, nth_In, Hlt.
  - now apply nth_overflow.
Qed.

Lemma rsum_zero (n : nat) (f : nat -> R) : (forall t, f t = r0) -> rsum n f = r0.
Proof.
  intros Hf. unfold rsum. induction (seq 0 n) as [|t l IH]; simpl; [reflexivity|].
  now rewrite Hf, radd_0_r.
Qed.

Lemma flat_map_rows {A} (f : nat -> nat -> A) (a : A) (n o : nat) :
  (forall i j, f i j = a) ->
  flat_map (fun i => map (fun j => f i j) (seq 0 o)) (seq 0 n) = replicate (n * o) a.
Proof.
  intros Hf.
  assert (Hrow : forall i (l : list nat), map (fun j => f i j) l = replicate (length l) a).
  { intros i l. induction l as [|j l IH]; simpl; [reflexivity|]. now rewrite Hf, IH. }
  assert (Hall : forall l : list nat,
            flat_map (fun i => map (fun j => f i j) (seq 0 o)) l = replicate (length l * o) a).
  { intros l. induction l as [|i l IH]; simpl; [reflexivity|].
    now rewrite Hrow, length_seq, IH, replicate_add. }
  now rewrite Hall, length_seq.
Qed.

Lemma length_rows {A} (f : nat -> nat -> A) (n o : nat) :
  length (flat_map (fun i => map (fun j => f i j) (seq 0 o)) (seq 0 n)) = n * o.
Proof.
  assert (Hall : forall l : list nat,
            length (flat_map (fun i => map (fun j => f i j) (seq 0 o)) l) = length l * o).
  { intros l. induction l as [|i l IH]; simpl; [reflexivity|].
    now rewrite length_app, length_map, length_seq, IH. }
  now rewrite Hall, length_seq.
Qed.

(** A [Linear] without bias whose weight is zero maps every input to zeros. *)
Lemma Linear_apply_zero (i o n : nat) (W x : Tensor R) :
  all_zero W -> shape x = [n; i] ->
  Linear_apply i o W None x = Ok (mkTensor [n; o] (replicate (n * o) r0)).
Proof.
  intros HW Hx. unfold Linear_apply. rewrite Hx, Nat.eqb_refl.
  do 2 f_equal. apply flat_map_rows. intros r j.
  apply rsum_zero. intros t. rewrite (mat_get_all_zero (data W)) by exact HW.
  apply rmul_0_r.
Qed.

Lemma Linear_apply_shape (i o : nat) (W : Tensor R) (b : option (Tensor R))
    (x y : Tensor R) :
  Linear_apply i o W b x = Ok y ->
  exists n, shape x = [n; i] /\ shape y = [n; o] /\ length (data y) = n * o.
Proof.
  unfold Linear_apply.
  destruct (shape x) as [|n [|d [|? ?]]]; try discriminate.
  destruct (Nat.eqb_spec d i) as [->|]; [|discriminate].
  intros E. injection E as <-. exists n. simpl. repeat split. apply length_rows.
Qed.

(** Attention over values that are all zero yields zeros. *)
Lemma ScaledDotProductAttention_zero weights (h : nat) (c : bool)
    (q k : Tensor R) (n d m dv : nat) :
  shape q = [n; d] -> shape k = [m; d] ->
  h <> 0 -> d mod h = 0 -> dv mod h = 0 ->
  ScaledDotProductAttention weights h c q k (mkTensor [m; dv] (replicate (m * dv) r0))
  = Ok (mkTensor [n; dv] (replicate (n * dv) r0)).
Proof.
  intros Hq Hk Hh Hd Hdv. unfold ScaledDotProductAttention. rewrite Hq, Hk. cbn [shape data].
  rewrite !Nat.eqb_refl, Hd, Hdv. simpl.
  destruct (Nat.eqb_spec h 0) as [|_]; [contradiction|]. simpl.
  do 2 f_equal. apply flat_map_rows. intros r j.
  apply rsum_zero. intros t. rewrite mat_get_all_zero; [apply rmul_0_r|].
  apply Forall_replicate. reflexivity.
Qed.

Lemma ScaledDotProductAttention_shape weights (h : nat) (c : bool)
    (q k v o : Tensor R) :
  ScaledDotProductAttention weights h c q k v = Ok o ->
  exists n d m dv,
    shape q = [n; d] /\ shape k = [m; d] /\ shape v = [m; dv]
    /\ h <> 0 /\ d mod h = 0 /\ dv mod h = 0
    /\ shape o = [n; dv] /\ length (data o) = n * dv.
Proof.
  unfold ScaledDotProductAttention.
  destruct (shape q) as [|n [|d [|? ?]]]; try discriminate.
  destruct (shape k) as [|m [|d' [|? ?]]]; try discriminate.
  destruct (shape v) as [|m' [|dv [|? ?]]]; try discriminate.
  destruct (Nat.eqb_spec d d') as [<-|]; [|discriminate].
  destruct (Nat.eqb_spec m m') as [<-|]; [|discriminate].
  destruct (Nat.eqb_spec h 0) as [|Hh]; [discriminate|].
  destruct (Nat.eqb_spec (d mod h) 0) as [Hd|]; [|discriminate].
  destruct (Nat.eqb_spec (dv mod h) 0) as [Hdv|]; [|discriminate].
  simpl. intros E. injection E as <-. exists n, d, m, dv. simpl.
  repeat split; auto. apply length_rows.
Qed.

Lemma Multiply_zero (s : R) (n o : nat) :
  Multiply s (mkTensor [n; o] (replicate (n * o) r0))
  = mkTensor [n; o] (replicate (n * o) r0).
Proof.
  unfold Multiply. cbn [shape data]. f_equal.
  induction (n * o) as [|p IH]; simpl; [reflexivity|]. now rewrite rmul_0_l, IH.
Qed.

(** Summing with zeros of the same shape changes nothing. *)
Lemma tensor_add_zero (a : Tensor R) (p : nat) :
  length (data a) = p ->
  tensor_add a (mkTensor (shape a) (replicate p r0)) = Ok a.
Proof.
  intros Hlen. unfold tensor_add. cbn [shape data].
  destruct (decide (shape a = shape a)) as [_|]; [|contradiction].
  destruct a as [s d]. cbn [shape data] in *. do 2 f_equal. subst p.
  induction d as [|x d IH]; simpl; [reflexivity|]. now rewrite radd_0_r, IH.
Qed.

Lemma zeros__all_zero (w : Tensor R) : all_zero (zeros_ w).
Proof.
  unfold all_zero, zeros_. cbn [data]. rewrite Forall_map. apply Forall_forall. reflexivity.
Qed.

End LayerFacts.

(** ** A sub-adapter whose projections are zero *)

Section AdapterFacts.
Import Layers SD.
Context {K : Scalars} {L : ScalarLaws K} {F : Framework}.

Lemma Linear_forward_shape (st : list (Tensor R)) (lin : Linear) (x y : Tensor R) :
  Linear_forward st lin x = Ok y ->
  exists n, shape y = [n; out_features lin] /\ length (data y) = n * out_features lin.
Proof.
  unfold Linear_forward. destruct (read st (weight lin)) as [W|]; [|discriminate].
  cbn [rbind]. destruct (read_bias st (bias lin)) as [b|]; [|discriminate].
  cbn [rbind]. intros E. apply Linear_apply_shape in E.
  destruct E as (n & _ & Hs & Hl). eauto.
Qed.

Lemma Linear_forward_zero (st : list (Tensor R)) (lin : Linear) (W x : Tensor R)
    (n : nat) :
  st !! weight lin = Some W -> all_zero W -> bias lin = None ->
  shape x = [n; in_features lin] ->
  Linear_forward st lin x
  = Ok (mkTensor [n; out_features lin] (replicate (n * out_features lin) r0)).
Proof.
  intros HW Hz Hb Hx. unfold Linear_forward, read. rewrite HW, Hb. cbn [rbind read_bias].
  now apply Linear_apply_zero.
Qed.

Lemma Attention_projections_shape (st : list (Tensor R)) (a : Attention)
    (args : list (Tensor R)) (q k v : Tensor R) :
  Attention_projections st a args = Ok (q, k, v) ->
  exists n, shape q = [n; inner_dim a].
Proof.
  unfold Attention_projections.
  destruct (attention_inputs a args) as [[[xq xk] xv]|]; [|discriminate]. cbn [rbind fst snd].
  destruct (Linear_forward st (query_projection a) xq) as [q'|] eqn:Eq; [|discriminate].
  cbn [rbind].
  destruct (Linear_forward st (key_projection a) xk) as [k'|]; [|discriminate]. cbn [rbind].
  destruct (Linear_forward st (value_projection a) xv) as [v'|]; [|discriminate]. cbn [rbind].
  intros E. injection E as <- <- <-.
  apply Linear_forward_shape in Eq. destruct Eq as (n & Hs & _). eauto.
Qed.

(** With zero key and value projections and no bias, the branch adds
    zeros to the attention of the copy: the sub-adapter computes what its
    target computes. *)
Lemma CrossAttentionAdapter_forward_noop (st : list (Tensor R))
    (ctxs : gmap string (gmap string (Tensor R))) (ad : CrossAttentionAdapter)
    (args : list (Tensor R)) (e Wk Wv : Tensor R) (m : nat) :
  hca_num_heads (histogram_cross_attention ad) = num_heads (target ad) ->
  out_features (image_key_projection ad) = inner_dim (target ad) ->
  out_features (image_value_projection ad) = inner_dim (target ad) ->
  bias (image_key_projection ad) = None ->
  bias (image_value_projection ad) = None ->
  st !! weight (image_key_projection ad) = Some Wk -> all_zero Wk ->
  st !! weight (image_value_projection ad) = Some Wv -> all_zero Wv ->
  Context.UseContext (hca_context (histogram_cross_attention ad))
    (hca_key (histogram_cross_attention ad)) ctxs = Ok e ->
  shape e = [m; in_features (image_key_projection ad)] ->
  shape e = [m; in_features (image_value_projection ad)] ->
  CrossAttentionAdapter_forward st ctxs ad args = Attention_forward st (target ad) args.
Proof.
  intros Hheads Hok Hov Hbk Hbv HWk Hzk HWv Hzv Hctx Hek Hev.
  unfold CrossAttentionAdapter_forward, Attention_forward.
  destruct (Attention_projections st (target ad) args) as [[[q k] v]|err] eqn:Eproj;
    [|reflexivity].
  cbn [rbind fst snd].
  destruct (Attention_projections_shape _ _ _ _ _ _ Eproj) as (n & Hq).
  destruct (ScaledDotProductAttention attention_weights (num_heads (target ad))
              (is_causal (target ad)) q k v) as [o1|err] eqn:Eatt; [|reflexivity].
  cbn [rbind].
  destruct (ScaledDotProductAttention_shape _ _ _ _ _ _ _ Eatt)
    as (n' & d & m' & dv & Hq' & Hk' & Hv' & Hh & Hd & Hdv & Ho1 & Hlen).
  rewrite Hq in Hq'. injection Hq' as <- <-.
  unfold HistogramCrossAttention_forward. rewrite Hctx. cbn [rbind].
  unfold image_key_projection, image_value_projection in *.
  rewrite (Linear_forward_zero st _ Wk e m HWk Hzk Hbk Hek). cbn [rbind].
  rewrite (Linear_forward_zero st _ Wv e m HWv Hzv Hbv Hev). cbn [rbind].
  rewrite Hok, Hov, Hheads.
  rewrite (ScaledDotProductAttention_zero attention_weights _ _ q _ n (inner_dim (target ad)) m
             (inner_dim (target ad))); auto.
  cbn [rbind]. rewrite Multiply_zero.
  (* the attention of the copy has the shape of the zeros *)
  assert (Hdv' : dv = inner_dim (target ad)).
  { unfold Attention_projections in Eproj.
    destruct (attention_inputs (target ad) args) as [[[xq xk] xv]|]; [|discriminate].
    cbn [rbind fst snd] in Eproj.
    destruct (Linear_forward st (query_projection (target ad)) xq); [|discriminate].
    cbn [rbind] in Eproj.
    destruct (Linear_forward st (key_projection (target ad)) xk); [|discriminate].
    cbn [rbind] in Eproj.
    destruct (Linear_forward st (value_projection (target ad)) xv) as [v'|] eqn:Ev;
      [|discriminate].
    cbn [rbind] in Eproj. injection Eproj as _ _ <-.
    apply Linear_forward_shape in Ev. destruct Ev as (nv & Hsv & _).
    rewrite Hsv in Hv'. now injection Hv' as _ <-. }
  subst dv. rewrite <- Ho1.
  rewrite (tensor_add_zero o1 _ Hlen). reflexivity.
Qed.

End AdapterFacts.

(** ** Networks *)

Section ModuleInduction.
Import SD.
Context {P : Type} (Q : Module P -> Prop).
Hypothesis HLeaf : forall kind params, Q (Leaf kind params).
Hypothesis HChain : forall ms, Forall Q ms -> Q (Chain ms).
Hypothesis HContainer : forall kind ms, Forall Q ms -> Q (Container kind ms).
Hypothesis HAttn : forall p, Q (Attn p).

Fixpoint Module_induction (m : Module P) : Q m :=
  match m with
  | Leaf kind params => HLeaf kind params
  | Chain ms =>
      HChain ms ((fix all (ms : list (Module P)) : Forall Q ms :=
                    match ms with
                    | [] => @List.Forall_nil _ Q
                    | m' :: ms' => @List.Forall_cons _ Q m' ms' (Module_induction m') (all ms')
                    end) ms)
  | Container kind ms =>
      HContainer kind ms ((fix all (ms : list (Module P)) : Forall Q ms :=
                             match ms with
                             | [] => @List.Forall_nil _ Q
                             | m' :: ms' => @List.Forall_cons _ Q m' ms' (Module_induction m') (all ms')
                             end) ms)
  | Attn p => HAttn p
  end.

End ModuleInduction.

Section NetworkFacts.
Import Layers SD.
Context {K : Scalars} {L : ScalarLaws K} {F : Framework} {FL : FrameworkLaws}.

Lemma replace_layers_compose {A B C} (f : A -> B) (g : B -> C) (m : Module A) :
  replace_layers g (replace_layers f m) = replace_layers (fun a => g (f a)) m.
Proof.
  induction m as [kind params|ms IH|kind ms IH|p] using Module_induction; simpl; auto.
  - f_equal. rewrite map_map. apply map_ext_Forall, IH.
  - f_equal. rewrite map_map. apply map_ext_Forall, IH.
Qed.

(** Injecting the sub-adapters one after the other puts, in the place of
    each attention layer, what the adapters make of it in turn. *)
Lemma inject_all_layers (subs : list CrossAttentionAdapter) (f : Attention -> Layer)
    (net : Module Attention) :
  fold_left (fun m ad => inject_adapter ad m) subs (replace_layers f net)
  = replace_layers (fun a => fold_left (fun l ad => put_adapter ad l) subs (f a)) net.
Proof.
  revert f. induction subs as [|ad subs IH]; intros f; simpl; [reflexivity|].
  unfold inject_adapter at 2. rewrite replace_layers_compose. apply IH.
Qed.

Lemma put_adapters_Adapted (subs : list CrossAttentionAdapter) (ad : CrossAttentionAdapter) :
  fold_left (fun l ad' => put_adapter ad' l) subs (Adapted ad) = Adapted ad.
Proof. induction subs as [|ad' subs IH]; simpl; auto. Qed.

Lemma put_adapters_Plain (subs : list CrossAttentionAdapter) (a : Attention) :
  fold_left (fun l ad => put_adapter ad l) subs (Plain a) = Plain a
  \/ exists ad, In ad subs /\ target ad = a
                /\ fold_left (fun l ad => put_adapter ad l) subs (Plain a) = Adapted ad.
Proof.
  induction subs as [|ad subs IH]; simpl; [now left|].
  destruct (decide (a = target ad)) as [->|Hne].
  - right. exists ad. rewrite put_adapters_Adapted. auto.
  - destruct IH as [IH|(ad' & Hin & Ht & IH)]; [now left|].
    right. exists ad'. auto.
Qed.

Lemma read_all_agree (st st' : list (Tensor R)) (ls : list loc) :
  Forall (fun l => st' !! l = st !! l) ls -> read_all st' ls = read_all st ls.
Proof.
  induction 1 as [|l ls Hl _ IH]; simpl; [reflexivity|].
  unfold read. now rewrite Hl, IH.
Qed.

Lemma Linear_forward_agree (st st' : list (Tensor R)) (lin : Linear) (x : Tensor R) :
  st' !! weight lin = st !! weight lin ->
  (forall b, bias lin = Some b -> st' !! b = st !! b) ->
  Linear_forward st' lin x = Linear_forward st lin x.
Proof.
  intros Hw Hb. unfold Linear_forward, read. rewrite Hw.
  destruct (bias lin) as [b|]; simpl; [|reflexivity].
  unfold read. now rewrite (Hb b eq_refl).
Qed.

(** An attention layer computes the same in two stores that agree on its
    parameters. *)
Lemma Attention_forward_agree (st st' : list (Tensor R)) (a : Attention)
    (args : list (Tensor R)) :
  Forall (fun l => st' !! l = st !! l) (Attention_params a) ->
  Attention_forward st' a args = Attention_forward st a args.
Proof.
  intros Hp. unfold Attention_params in Hp.
  apply Forall_app in Hp. destruct Hp as [Hw Hb].
  repeat (apply List.Forall_cons_iff in Hw; destruct Hw as [? Hw]).
  assert (Hlin : forall lin x,
            In lin [query_projection a; key_projection a; value_projection a; out_projection a] ->
            Linear_forward st' lin x = Linear_forward st lin x).
  { intros lin x Hin. apply Linear_forward_agree.
    - simpl in Hin. destruct Hin as [<-|[<-|[<-|[<-|[]]]]]; assumption.
    - intros b Hbias. destruct (use_bias a) eqn:Hub.
      + repeat (apply List.Forall_cons_iff in Hb; destruct Hb as [? Hb]).
        simpl in Hin. destruct Hin as [<-|[<-|[<-|[<-|[]]]]];
          simpl in Hbias; rewrite Hub in Hbias; injection Hbias as <-; assumption.
      + simpl in Hin. destruct Hin as [<-|[<-|[<-|[<-|[]]]]];
          simpl in Hbias; rewrite Hub in Hbias; discriminate. }
  unfold Attention_forward, Attention_projections.
  destruct (attention_inputs a args) as [[[xq xk] xv]|]; [|reflexivity]. cbn [rbind fst snd].
  rewrite !Hlin by (simpl; auto).
  destruct (Linear_forward st (query_projection a) xq); [|reflexivity]. cbn [rbind].
  destruct (Linear_forward st (key_projection a) xk); [|reflexivity]. cbn [rbind].
  destruct (Linear_forward st (value_projection a) xv); [|reflexivity]. cbn [rbind fst snd].
  destruct (ScaledDotProductAttention _ _ _ _ _ _); [|reflexivity]. cbn [rbind].
  now rewrite Hlin by (simpl; auto).
Qed.

Lemma rbind_Ok {A} (r : result A) : rbind r Ok = r.
Proof. now destruct r. Qed.

(** Two networks of the same shape compute the same when their stores
    agree on the parameters and their attention layers compute the same. *)
Lemma forward_with_replace {Q} (pf : Q -> list (Tensor R) -> result (list (Tensor R)))
    (g : Attention -> Q) (st st' : list (Tensor R))
    (ctxs : gmap string (gmap string (Tensor R))) (net : Module Attention) :
  Forall (fun l => st' !! l = st !! l) (parameters net) ->
  Forall (fun a => forall args, pf (g a) args = Attention_forward st a args)
         (layers_Attention net) ->
  forall args,
    forward_with pf st' ctxs (replace_layers g net) args
    = forward_with (Attention_forward st) st ctxs net args.
Proof.
  induction net as [kind params|ms IH|kind ms IH|a] using Module_induction;
    intros Hpar Hatt args; simpl in *.
  - now rewrite (read_all_agree st st' params Hpar).
  - revert args. induction IH as [|m ms Hm _ IHms]; intros args; simpl; [reflexivity|].
    apply Forall_app in Hpar, Hatt. destruct Hpar as [Hp1 Hp2], Hatt as [Ha1 Ha2].
    rewrite (Hm Hp1 Ha1).
    destruct (forward_with (Attention_forward st) st ctxs m args); cbn [rbind]; auto.
  - apply container_forward_ext.
    induction IH as [|m ms Hm _ IHms]; simpl; constructor.
    + apply Forall_app in Hpar, Hatt. destruct Hpar as [Hp1 _], Hatt as [Ha1 _].
      intros x. now apply Hm.
    + apply Forall_app in Hpar, Hatt. destruct Hpar as [_ Hp2], Hatt as [_ Ha2].
      now apply IHms.
  - apply List.Forall_cons_iff in Hatt. destruct Hatt as [Ha _]. apply Ha.
Qed.

Lemma Attention_params_in_net (net : Module Attention) (a : Attention) (l : loc) :
  In a (layers_Attention net) -> In l (Attention_params a) -> In l (parameters net).
Proof.
  induction net as [kind params|ms IH|kind ms IH|a'] using Module_induction; simpl.
  - contradiction.
  - intros Ha Hl. apply in_flat_map in Ha. destruct Ha as (m & Hm & Ha).
    apply in_flat_map. exists m. split; [exact Hm|].
    rewrite Forall_forall in IH. apply IH; auto. now apply list_elem_of_In.
  - intros Ha Hl. apply in_flat_map in Ha. destruct Ha as (m & Hm & Ha).
    apply in_flat_map. exists m. split; [exact Hm|].
    rewrite Forall_forall in IH. apply IH; auto. now apply list_elem_of_In.
  - intros [<-|[]] Hl. exact Hl.
Qed.

Lemma zero_fold_keeps (ws : list loc) (st : list (Tensor R)) (w : loc) (t : Tensor R) :
  st !! w = Some t -> all_zero t ->
  exists t', fold_left (fun st w => alter zeros_ w st) ws st !! w = Some t' /\ all_zero t'.
Proof.
  revert st t. induction ws as [|w0 ws IH]; intros st t Ht Hz; simpl; [eauto|].
  destruct (decide (w0 = w)) as [->|Hne].
  - apply (IH _ (zeros_ t)); [|apply zeros__all_zero].
    now rewrite list_lookup_alter_eq, Ht.
  - apply (IH _ t); [|exact Hz]. now rewrite list_lookup_alter_ne.
Qed.

(** After [zero_init], every tensor of [weights] holds zeros. *)
Lemma zero_fold_zeroes (ws : list loc) (st : list (Tensor R)) (w : loc) :
  In w ws -> w < length st ->
  exists t, fold_left (fun st w => alter zeros_ w st) ws st !! w = Some t /\ all_zero t.
Proof.
  revert st. induction ws as [|w0 ws IH]; intros st Hin Hlt; simpl; [contradiction|].
  destruct (decide (w0 = w)) as [->|Hne].
  - destruct (lookup_lt_is_Some_2 st w Hlt) as [t Ht].
    apply (zero_fold_keeps ws _ w (zeros_ t)); [|apply zeros__all_zero].
    now rewrite list_lookup_alter_eq, Ht.
  - destruct Hin as [->|Hin]; [contradiction|].
    apply IH; [exact Hin|]. now rewrite length_alter.
Qed.

Lemma In_Forall2_r {A B} (P : A -> B -> Prop) (l : list A) (k : list B) (b : B) :
  Forall2 P l k -> In b k -> exists a, In a l /\ P a b.
Proof.
  induction 1 as [|a b' l k Hab _ IH]; simpl; [contradiction|].
  intros [->|Hin]; [eauto|]. destruct (IH Hin) as (a' & Ha' & HP). eauto.
Qed.

(** C2, as amended.  Let the adapter be built over a store that holds the
    parameters of the network, zero-initialised and injected.  If the
    context holds, under the key its sub-adapters read, an embedding whose
    width is the input width of their projections, and the adapted
    attention layers are built without bias, then for every input the
    adapted network returns what the network returned before injection. *)
Theorem zero_init_inject_noop (net : Module Attention) (enc : HistogramEncoder)
    (scale : R) (st0 : list (Tensor R)) (ctxs : gmap string (gmap string (Tensor R)))
    (e : Tensor R) (m : nat) (args : list (Tensor R)) :
  Forall (fun l => l < length st0) (parameters net) ->
  Forall (fun a => use_bias a = false /\ shape e = [m; image_in_features a])
         (List.filter not_SelfAttention (layers_Attention net)) ->
  Context.UseContext "ip_adapter" image_context_key ctxs = Ok e ->
  let self := fst (SD1HistogramAdapter_init net enc scale st0) in
  let st1 := snd (SD1HistogramAdapter_init net enc scale st0) in
  forward_injected (zero_init self st1) ctxs (inject self) args
  = forward st0 ctxs net args.
Proof.
  intros Hwf Hsel Hctx. cbv zeta.
  destruct (SD1HistogramAdapter_init_spec net enc scale st0) as (ext & Hst & Htarget & _ & Hsubs).
  rewrite Hst.
  set (self := fst (SD1HistogramAdapter_init net enc scale st0)) in *.
  set (st2 := zero_init self (st0 ++ ext)).
  assert (Hnew : forall l, In l (weights self) -> length st0 <= l < length (st0 ++ ext)).
  { intros l Hl. eapply weights_new; [exact Hsubs | now apply list_elem_of_In]. }
  assert (Hold : forall l, l < length st0 -> st2 !! l = st0 !! l).
  { intros l Hl. unfold st2, zero_init. rewrite zero_init_lookup_ne.
    - now apply lookup_app_l.
    - intros Hin. apply list_elem_of_In, Hnew in Hin. lia. }
  assert (Hzero : forall l, In l (weights self) -> exists t, st2 !! l = Some t /\ all_zero t).
  { intros l Hl. apply zero_fold_zeroes; [exact Hl|]. now apply Hnew. }
  unfold forward_injected, inject, forward. rewrite Htarget.
  change (forward_with (Layer_forward st2 ctxs) st2 ctxs (Chain [?X]) args)
    with (rbind (forward_with (Layer_forward st2 ctxs) st2 ctxs X args) Ok).
  rewrite rbind_Ok, inject_all_layers.
  apply forward_with_replace.
  - eapply List.Forall_impl; [|exact Hwf]. exact Hold.
  - apply Forall_forall. intros a Ha args'. apply list_elem_of_In in Ha.
    assert (Hparams : Forall (fun l => st2 !! l = st0 !! l) (Attention_params a)).
    { apply Forall_forall. intros l Hl. apply Hold.
      rewrite Forall_forall in Hwf. apply Hwf, list_elem_of_In.
      eapply Attention_params_in_net; [exact Ha | now apply list_elem_of_In]. }
    destruct (put_adapters_Plain (sub_adapters self) a) as [->|(ad & Hin & Ht & ->)];
      cbn [Layer_forward].
    + now apply Attention_forward_agree.
    + rewrite <- (Attention_forward_agree st0 st2 a args' Hparams), <- Ht.
      destruct (In_Forall2_r _ _ _ ad Hsubs Hin) as (a' & Ha' & Hb).
      destruct Hb as (Hta & _ & Hc & Hk & Hh & _ & Hik & Hiv & Hok & Hov & Hbias & _ & _).
      assert (Haa : a' = target ad) by congruence. rewrite Haa in *.
      rewrite Forall_forall in Hsel.
      destruct (Hsel (target ad)) as [Hub He]; [now apply list_elem_of_In|].
      destruct (Hbias Hub) as [Hbk Hbv].
      destruct (Hzero (weight (image_key_projection ad))) as (Wk & HWk & Hzk).
      { unfold weights. apply in_flat_map. exists ad. split; [exact Hin|]. simpl. auto. }
      destruct (Hzero (weight (image_value_projection ad))) as (Wv & HWv & Hzv).
      { unfold weights. apply in_flat_map. exists ad. split; [exact Hin|]. simpl. auto. }
      apply (CrossAttentionAdapter_forward_noop st2 ctxs ad args' e Wk Wv m); auto;
        congruence.
Qed.

End NetworkFacts.

(** ** The zero-initialised adapter on a small network *)

Section ExampleFacts.
Import SD Example.

#[local] Instance Zlaws : ScalarLaws Zscalars.
Proof. split; simpl; intros; lia. Qed.

#[local] Instance Zframework_laws : FrameworkLaws (F := Zframework).
Proof.
  split. intros kind fs gs ctxs args Hfg. simpl.
  revert args. induction Hfg as [|f g fs gs Hfg _ IH]; intros args; simpl; [reflexivity|].
  rewrite Hfg. destruct (g args); simpl; auto.
Qed.

Lemma zero_init_inject_noop_witness :
  forward_injected (adapted_store false) (set_histogram_embedding embedding ∅)
    (adapted_unet false) input
  = forward store (set_histogram_embedding embedding ∅) (unet false) input.
Proof.
  apply (@zero_init_inject_noop Zscalars Zlaws Zframework Zframework_laws
           (unet false) encoder 1%Z store
           (set_histogram_embedding (K := Zscalars) embedding ∅) embedding 1 input).
  - simpl. repeat (apply List.Forall_cons; [simpl; lia|]). apply List.Forall_nil.
  - simpl. apply List.Forall_cons; [split; reflexivity | apply List.Forall_nil].
  - reflexivity.
Defined.

(** C2, as stated, fails on the small network: after [zero_init()] and
    [inject()], the adapted network raises on an input the network
    computes on when the context holds no embedding; and when the adapted
    layer is built with bias, its output differs although an embedding is
    present (the biases of the new projections are not in [weights]). *)
Lemma zero_init_inject_not_noop :
  (forward store ∅ (unet false) input = Ok [mkTensor [1; 2] [5; 6]%Z]
   /\ forward_injected (adapted_store false) ∅ (adapted_unet false) input
      = Raise (AssertionError "context is unset"))
  /\ (forward store (set_histogram_embedding embedding ∅) (unet true) input
      = Ok [mkTensor [1; 2] [5; 6]%Z]
      /\ forward_injected (adapted_store true) (set_histogram_embedding embedding ∅)
           (adapted_unet true) input
         = Ok [mkTensor [1; 2] [6; 7]%Z]).
Proof. repeat split; vm_compute; reflexivity. Qed.

End ExampleFacts.

(** ** The embedding the injected sub-adapters read *)

Section EmbeddingFacts.
Import Layers SD Injected.
Context {K : Scalars} {F : Framework}.




End EmbeddingFacts.

Section EmbeddingExample.
Import Layers SD Injected Example.


End EmbeddingExample.

(** ** The selection on a network with a subclass of SelfAttention *)

Section SelectionExampleFacts.
Import SD Example SelectionExample.

(** C5, as stated, fails on a small network: the layer of a subclass of
    [fl.SelfAttention], a self-attention layer, gets a sub-adapter; and
    the sub-adapters the constructor builds are not those
    [HistogramCrossAttentionAdapter] builds for the same layers over the
    same store, whose branches read another context entry through
    projections of another input width. *)
Lemma sub_adapters_selection_as_stated_fails :
  (isinstance self_attention_2d "SelfAttention" = true
   /\ In self_attention_2d
        (map target (sub_adapters (fst (SD1HistogramAdapter_init unet_2d encoder 1%Z store)))))
  /\ map (fun ad => (hca_key (histogram_cross_attention ad),
                     in_features (image_key_projection ad)))
         (sub_adapters (fst (SD1HistogramAdapter_init unet_2d encoder 1%Z store)))
     <> map (fun ad => (hca_key (histogram_cross_attention ad),
                        in_features (image_key_projection ad)))
          (fst (build_all (fun a => HistogramCrossAttentionAdapter_init a 1%Z)
                  (List.filter not_SelfAttention (layers_Attention unet_2d)) store)).
Proof.
  split; [split|].
  - reflexivity.
  - vm_compute. left. reflexivity.
  - vm_compute. intros E. discriminate E.
Qed.

End SelectionExampleFacts.

(** * Properties of further functions *)

(** ** HistogramExtractor: accepted inputs and dropped pixels *)

Section ExtractorMore.
Import HistogramExtractor ExtractorPixels.

(** X1.  The extractor returns a histogram exactly for a four-dimensional
    batch with three channels and at least one image; every other input
    raises. *)
Theorem extractor_accepts (color_bits : nat) (x : Tensor Q) :
  is_ok (forward color_bits x) = true
  <-> exists B H W, shape x = [B; 3; H; W] /\ B <> 0.
Proof.
  unfold forward, Permute_0231, histogramdd.
  destruct (shape x) as [|B [|C [|H [|W [|? ?]]]]]; cbn [rbind shape is_ok];
    try (split; [discriminate | intros (?&?&?&E&_); discriminate]).
  destruct (Nat.eqb_spec C 3) as [->|HC]; cbn [negb].
  - destruct (Nat.eqb_spec B 0) as [->|HB]; cbn [is_ok].
    + split; [discriminate | intros (?&?&?&E&Hne); congruence].
    + split; [intros _; eauto | reflexivity].
  - split; [discriminate | intros (?&?&?&E&_); congruence].
Qed.

Lemma nth_flat_map_uniform {A} (f : nat -> list A) (n N i j : nat) (d : A) :
  (forall a, length (f a) = n) -> i < N -> j < n ->
  nth (i * n + j) (flat_map f (seq 0 N)) d = nth j (f i) d.
Proof.
  intros Hlen.
  assert (G : forall N s i, i < N ->  j < n ->
                nth (i * n + j) (flat_map f (seq s N)) d = nth j (f (s + i)) d).
  { clear N i. induction N as [|N IH]; intros s i Hi Hj; [lia|]. simpl.
    destruct i as [|i].
    - rewrite app_nth1 by (rewrite Hlen; lia). simpl. now rewrite Nat.add_0_r.
    - rewrite app_nth2 by (rewrite Hlen; simpl; lia). rewrite Hlen.
      replace (S i * n + j - n) with (i * n + j) by (simpl; lia).
      rewrite IH by lia. f_equal. f_equal. lia. }
  intros Hi Hj. now rewrite G.
Qed.

Lemma length_flat_map_uniform {A} (f : nat -> list A) (n : nat) (l : list nat) :
  (forall a, length (f a) = n) -> length (flat_map f l) = length l * n.
Proof.
  intros Hlen. induction l as [|a l IH]; simpl; [reflexivity|].
  now rewrite length_app, Hlen, IH.
Qed.

(** [Permute(0, 2, 3, 1)] puts the channels last: entry [[b, h, w, c]] of
    the result is entry [[b, c, h, w]] of the input. *)
Lemma Permute_0231_read (x y : Tensor Q) (B C H W b h w c : nat) :
  shape x = [B; C; H; W] -> Permute_0231 x = Ok y ->
  b < B -> h < H -> w < W -> c < C ->
  getq (data y) (((b * H + h) * W + w) * C + c)
  = getq (data x) (((b * C + c) * H + h) * W + w).
Proof.
  intros Hs Hy Hb Hh Hw Hc. unfold Permute_0231 in Hy. rewrite Hs in Hy.
  injection Hy as <-. cbn [data]. generalize (data x). intros d. unfold getq at 1.
  replace (((b * H + h) * W + w) * C + c) with (b * (H * (W * C)) + (h * (W * C) + (w * C + c)))
    by lia.
  assert (L3 : forall b' h' w', length (map (fun c' => getq d (((b' * C + c') * H + h') * W + w'))
                                   (seq 0 C)) = C).
  { intros. now rewrite length_map, length_seq. }
  assert (L2 : forall b' h', length (flat_map (fun w' => map (fun c' =>
                 getq d (((b' * C + c') * H + h') * W + w')) (seq 0 C)) (seq 0 W)) = W * C).
  { intros. rewrite (length_flat_map_uniform _ C) by (intros; apply L3).
    now rewrite length_seq. }
  assert (L1 : forall b', length (flat_map (fun h' => flat_map (fun w' => map (fun c' =>
                 getq d (((b' * C + c') * H + h') * W + w')) (seq 0 C)) (seq 0 W)) (seq 0 H))
               = H * (W * C)).
  { intros. rewrite (length_flat_map_uniform _ (W * C)) by (intros; apply L2).
    now rewrite length_seq. }
  assert (Hwc : w * C + c < W * C) by (apply flat_index_lt; lia).
  assert (Hhwc : h * (W * C) + (w * C + c) < H * (W * C)) by (apply flat_index_lt; lia).
  rewrite (nth_flat_map_uniform _ (H * (W * C)) B b) by (auto; lia).
  rewrite (nth_flat_map_uniform _ (W * C) H h) by (auto; lia).
  rewrite (nth_flat_map_uniform _ C W w) by (auto; lia).
  rewrite (nth_indep _ 0%Q ((fun c' => getq d (((b * C + c') * H + h) * W + w)) 0))
    by (rewrite length_map, length_seq; lia).
  rewrite (map_nth (fun c' => getq d (((b * C + c') * H + h) * W + w))).
  now rewrite seq_nth by lia.
Qed.

Lemma Permute_0231_samples (x y : Tensor Q) (B H W i : nat) :
  shape x = [B; 3; H; W] -> Permute_0231 x = Ok y -> i < B ->
  samples_of (data y) (H * W) i
  = map (fun p => (channel x 3 (H * W) i 0 p, channel x 3 (H * W) i 1 p,
                   channel x 3 (H * W) i 2 p))
        (seq 0 (H * W)).
Proof.
  intros Hs Hy Hi.
  unfold samples_of. apply map_ext_in. intros p Hp. apply in_seq in Hp.
  assert (HW : 0 < W) by nia.
  assert (Hh : p / W < H) by (apply Nat.Div0.div_lt_upper_bound; lia).
  assert (Hw : p mod W < W) by (apply Nat.mod_upper_bound; lia).
  assert (Hp' : p = p / W * W + p mod W) by (rewrite Nat.mul_comm; apply Nat.div_mod_eq).
  assert (R : forall c, c < 3 ->
            getq (data y) ((i * (H * W) + p) * 3 + c) = channel x 3 (H * W) i c p).
  { intros c Hc. unfold channel.
    replace ((i * (H * W) + p) * 3 + c) with (((i * H + p / W) * W + p mod W) * 3 + c) by nia.
    rewrite (Permute_0231_read x y B 3 H W i (p / W) (p mod W) c) by auto.
    f_equal. nia. }
  rewrite <- (R 0), <- (R 1), <- (R 2) by lia.
  now rewrite Nat.add_0_r.
Qed.

Lemma bin_index_bound (S : nat) (v : Q) (k : nat) :
  0 < S -> bin_index 0 (nat_to_Q S) S v = Some k -> k < S.
Proof.
  intros HS Hk.
  assert (Hr : in_range S v).
  { unfold bin_index in Hk.
    destruct (Qlt_le_dec v 0) as [|Hlo]; [discriminate|].
    destruct (Qlt_le_dec (nat_to_Q S) v) as [|Hhi]; [discriminate|]. now split. }
  destruct (bin_index_in_range S v HS Hr) as (k' & Hk' & Hlt). congruence.
Qed.

Lemma bin_of_bound (S : nat) (s : Q * Q * Q) (k : nat) :
  0 < S -> bin_of S (0%Q, nat_to_Q S) s = Some k -> k < S * S * S.
Proof.
  intros HS. destruct s as [[r g] b]. unfold bin_of. cbn [fst snd].
  destruct (bin_index 0 (nat_to_Q S) S r) as [i|] eqn:Er; [|discriminate].
  destruct (bin_index 0 (nat_to_Q S) S g) as [j|] eqn:Eg; [|discriminate].
  destruct (bin_index 0 (nat_to_Q S) S b) as [l|] eqn:Eb; [|discriminate].
  intros E. injection E as <-.
  apply bin_index_bound in Er, Eg, Eb; auto. nia.
Qed.

(** The counts of all bins add up to the number of samples that have a
    bin: a sample with a coordinate out of range is in no bin. *)
Lemma histogramdd_counted (S : nat) (samples : list (Q * Q * Q)) :
  0 < S ->
  sum_list (torch_histogramdd samples S (0%Q, nat_to_Q S))
  = length (List.filter (fun s => match bin_of S (0%Q, nat_to_Q S) s with
                                  | Some _ => true | None => false end) samples).
Proof.
  intros HS. unfold torch_histogramdd. induction samples as [|s ss IH]; simpl.
  - induction (seq 0 (S * S * S)); simpl; auto.
  - destruct (bin_of S (0%Q, nat_to_Q S) s) as [k0|] eqn:Hk0.
    + cbn [length]. change (Datatypes.S (length ?l)) with (1 + length l).
      rewrite <- IH, <- (sum_list_indicator k0 (S * S * S)), <- sum_list_map_add
        by (eapply bin_of_bound; eauto).
      f_equal. apply map_ext. intros k. unfold falls_in. rewrite Hk0.
      destruct (Nat.eqb k0 k); reflexivity.
    + rewrite <- IH. f_equal. apply map_ext. intros k. unfold falls_in. now rewrite Hk0.
Qed.

(** X2.  For each image of a batch, the bins of its histogram add up to
    the fraction of its pixels whose three channels all lie in
    [[0, 2^color_bits]]: a pixel with a channel outside the range is
    dropped, and the total mass is between 0 and 1. *)
Theorem extractor_mass_is_counted_fraction (color_bits B H W : nat) (x : Tensor Q) :
  shape x = [B; 3; H; W] -> 0 < B -> 0 < H * W ->
  exists t,
    forward color_bits x = Ok t
    /\ forall i, i < B ->
         (Qsum (batch_slice (numel_of (tail (shape t))) t i)
          == nat_to_Q (counted_pixels (color_size color_bits) x (H * W) i)
             / nat_to_Q (H * W))%Q
         /\ counted_pixels (color_size color_bits) x (H * W) i <= H * W.
Proof.
  intros Hx HB Hpix. unfold forward.
  set (S := color_size color_bits) in *.
  assert (HS : 0 < S) by (subst S; apply Nat.neq_0_lt_0, Nat.pow_nonzero; lia).
  destruct (Permute_0231 x) as [[ys y]|] eqn:Hy;
    [|unfold Permute_0231 in Hy; rewrite Hx in Hy; discriminate Hy].
  assert (Hys : ys = [B; H; W; 3])
    by (unfold Permute_0231 in Hy; rewrite Hx in Hy; now injection Hy as <- _).
  subst ys.
  unfold rbind, histogramdd. cbn [shape data Nat.eqb negb]. fold S.
  replace (Nat.eqb B 0) with false by (symmetry; apply Nat.eqb_neq; lia).
  eexists. split; [reflexivity|]. cbn [shape data tail].
  intros i Hi.
  pose proof (Permute_0231_samples _ _ B H W i Hx Hy Hi) as Hs. cbn [data] in Hs.
  split.
  - unfold batch_slice. cbn [data].
    rewrite (slice_concat_uniform _ _ i
               (normalize (H * W)
                  (torch_histogramdd (samples_of y (H * W) i) S (0%Q, nat_to_Q S)))).
    + unfold normalize. rewrite Qsum_scaled, histogramdd_counted by exact HS.
      rewrite Hs. unfold counted_pixels.
      rewrite <- (length_map (fun p => (channel x 3 (H * W) i 0 p,
                        channel x 3 (H * W) i 1 p, channel x 3 (H * W) i 2 p))
                  (List.filter (pixel_counted S x (H * W) i) (seq 0 (H * W)))).
      rewrite List.filter_map_swap. reflexivity.
    + rewrite Forall_map, Forall_forall. intros j _.
      unfold normalize. rewrite length_map, length_torch_histogramdd. simpl. lia.
    + rewrite list_lookup_fmap, lookup_seq_lt by lia. reflexivity.
  - unfold counted_pixels.
    etransitivity; [apply List.filter_length_le|]. now rewrite length_seq.
Qed.

Lemma extractor_mass_is_counted_fraction_witness :
  exists t,
    forward 1 two_pixels = Ok t
    /\ forall i, i < 1 ->
         (Qsum (batch_slice (numel_of (tail (shape t))) t i)
          == nat_to_Q (counted_pixels (color_size 1) two_pixels (1 * 2) i)
             / nat_to_Q (1 * 2))%Q
         /\ counted_pixels (color_size 1) two_pixels (1 * 2) i <= 1 * 2.
Proof.
  apply (extractor_mass_is_counted_fraction 1 1 1 2 two_pixels); [reflexivity | lia | lia].
Defined.

Lemma bin_position_eqb (S r g b r' g' b' : nat) :
  r < S -> g < S -> b < S -> r' < S -> g' < S -> b' < S ->
  Nat.eqb ((r' * S + g') * S + b') ((r * S + g) * S + b)
  = (Nat.eqb r' r && Nat.eqb g' g && Nat.eqb b' b)%bool.
Proof.
  intros. destruct (Nat.eqb_spec r' r) as [->|Hr]; cbn [andb].
  - destruct (Nat.eqb_spec g' g) as [->|Hg]; cbn [andb].
    + destruct (Nat.eqb_spec b' b) as [->|Hb]; [apply Nat.eqb_refl|].
      apply Nat.eqb_neq. lia.
    + apply Nat.eqb_neq. nia.
  - apply Nat.eqb_neq. nia.
Qed.

Lemma falls_in_pixel_in_bin (S r g b : nat) (s : Q * Q * Q) :
  0 < S -> r < S -> g < S -> b < S ->
  falls_in S (0%Q, nat_to_Q S) ((r * S + g) * S + b) s = pixel_in_bin S r g b s.
Proof.
  intros HS Hr Hg Hb. destruct s as [[cr cg] cb].
  unfold falls_in, bin_of, pixel_in_bin. cbn [fst snd].
  destruct (bin_index 0 (nat_to_Q S) S cr) as [r'|] eqn:Er; [|reflexivity].
  destruct (bin_index 0 (nat_to_Q S) S cg) as [g'|] eqn:Eg; [|reflexivity].
  destruct (bin_index 0 (nat_to_Q S) S cb) as [b'|] eqn:Eb; [|reflexivity].
  apply bin_index_bound in Er, Eg, Eb; auto.
  now apply bin_position_eqb.
Qed.

(** X3.  Every entry of the histogram of an image is the number of its
    pixels whose red, green and blue channels fall in the bins of the
    entry, divided by the number of pixels of the image. *)
Theorem extractor_bin_counts (color_bits B H W : nat) (x : Tensor Q) :
  shape x = [B; 3; H; W] -> 0 < B -> 0 < H * W ->
  exists t,
    forward color_bits x = Ok t
    /\ shape t = [B; color_size color_bits; color_size color_bits; color_size color_bits]
    /\ forall i r g b,
         i < B -> r < color_size color_bits -> g < color_size color_bits ->
         b < color_size color_bits ->
         hist_at (color_size color_bits) t i r g b
         = (nat_to_Q (pixels_in_bin (color_size color_bits) x (H * W) i r g b)
            / nat_to_Q (H * W))%Q.
Proof.
  intros Hx HB Hpix. unfold forward.
  set (S := color_size color_bits) in *.
  assert (HS : 0 < S) by (subst S; apply Nat.neq_0_lt_0, Nat.pow_nonzero; lia).
  destruct (Permute_0231 x) as [[ys y]|] eqn:Hy;
    [|unfold Permute_0231 in Hy; rewrite Hx in Hy; discriminate Hy].
  assert (Hys : ys = [B; H; W; 3])
    by (unfold Permute_0231 in Hy; rewrite Hx in Hy; now injection Hy as <- _).
  subst ys.
  unfold rbind, histogramdd. cbn [shape data Nat.eqb negb]. fold S.
  replace (Nat.eqb B 0) with false by (symmetry; apply Nat.eqb_neq; lia).
  eexists. split; [reflexivity|]. split; [reflexivity|].
  intros i r g b Hi Hr Hg Hb. unfold hist_at, getq. cbn [data].
  rewrite <- flat_map_concat_map.
  replace (((i * S + r) * S + g) * S + b) with (i * (S * S * S) + ((r * S + g) * S + b))
    by (rewrite !Nat.mul_add_distr_r, <- !Nat.mul_assoc, !Nat.add_assoc; reflexivity).
  assert (Hk : (r * S + g) * S + b < S * S * S) by (repeat apply flat_index_lt; assumption).
  rewrite (nth_flat_map_uniform _ (S * S * S) B i)
    by (auto; intros a; unfold normalize;
        rewrite length_map, length_torch_histogramdd; reflexivity).
  pose proof (Permute_0231_samples _ _ B H W i Hx Hy Hi) as Hs. cbn [data] in Hs.
  rewrite Hs. unfold normalize, torch_histogramdd.
  rewrite map_map.
  rewrite (nth_indep _ 0%Q ((fun k => (nat_to_Q (length (List.filter
             (falls_in S (0%Q, nat_to_Q S) k)
             (map (fun p => (channel x 3 (H * W) i 0 p, channel x 3 (H * W) i 1 p,
                             channel x 3 (H * W) i 2 p)) (seq 0 (H * W)))))
             / nat_to_Q (H * W))%Q) 0))
    by (rewrite length_map, length_seq; exact Hk).
  rewrite (map_nth (fun k => (nat_to_Q (length (List.filter
             (falls_in S (0%Q, nat_to_Q S) k)
             (map (fun p => (channel x 3 (H * W) i 0 p, channel x 3 (H * W) i 1 p,
                             channel x 3 (H * W) i 2 p)) (seq 0 (H * W)))))
             / nat_to_Q (H * W))%Q)).
  rewrite seq_nth by exact Hk. cbn [Nat.add].
  unfold pixels_in_bin, pixels. do 3 f_equal.
  apply List.filter_ext. intros s. now apply falls_in_pixel_in_bin.
Qed.

Lemma extractor_bin_counts_witness :
  exists t,
    forward 1 four_pixels = Ok t
    /\ shape t = [1; color_size 1; color_size 1; color_size 1]
    /\ forall i r g b,
         i < 1 -> r < color_size 1 -> g < color_size 1 -> b < color_size 1 ->
         hist_at (color_size 1) t i r g b
         = (nat_to_Q (pixels_in_bin (color_size 1) four_pixels (2 * 2) i r g b)
            / nat_to_Q (2 * 2))%Q.
Proof.
  apply (extractor_bin_counts 1 1 2 2 four_pixels); [reflexivity | lia | lia].
Defined.

Lemma filter_length_Permutation {A} (f : A -> bool) (l l' : list A) :
  Permutation l l' -> length (List.filter f l) = length (List.filter f l').
Proof.
  induction 1 as [|a l l' _ IH|a a' l|l l' l'' _ IH1 _ IH2]; simpl.
  - reflexivity.
  - destruct (f a); simpl; now rewrite IH.
  - destruct (f a), (f a'); reflexivity.
  - now rewrite IH1.
Qed.

(** X4.  The histogram of an image does not depend on the order of its
    pixels: two batches whose images hold the same pixels, in any order,
    have the same histograms. *)
Theorem extractor_pixel_order (color_bits B H W : nat) (x x' : Tensor Q) :
  shape x = [B; 3; H; W] -> shape x' = [B; 3; H; W] ->
  (forall i, i < B -> Permutation (pixels x (H * W) i) (pixels x' (H * W) i)) ->
  forward color_bits x = forward color_bits x'.
Proof.
  intros Hx Hx' Hperm. unfold forward.
  destruct (Permute_0231 x) as [[ys y]|] eqn:Hy;
    [|unfold Permute_0231 in Hy; rewrite Hx in Hy; discriminate Hy].
  destruct (Permute_0231 x') as [[ys' y']|] eqn:Hy';
    [|unfold Permute_0231 in Hy'; rewrite Hx' in Hy'; discriminate Hy'].
  assert (Hys : ys = [B; H; W; 3])
    by (unfold Permute_0231 in Hy; rewrite Hx in Hy; now injection Hy as <- _).
  assert (Hys' : ys' = [B; H; W; 3])
    by (unfold Permute_0231 in Hy'; rewrite Hx' in Hy'; now injection Hy' as <- _).
  subst ys ys'.
  unfold rbind, histogramdd. cbn [shape data Nat.eqb negb].
  destruct (Nat.eqb B 0); [reflexivity|].
  do 3 f_equal. apply map_ext_in. intros i Hi. apply in_seq in Hi.
  pose proof (Permute_0231_samples _ _ B H W i Hx Hy ltac:(lia)) as Hs.
  pose proof (Permute_0231_samples _ _ B H W i Hx' Hy' ltac:(lia)) as Hs'.
  cbn [data] in Hs, Hs'. rewrite Hs, Hs'.
  f_equal. unfold torch_histogramdd. apply map_ext. intros k.
  apply filter_length_Permutation. apply (Hperm i). lia.
Qed.

Lemma extractor_pixel_order_witness :
  forward 1 two_pixels = forward 1 two_pixels_swapped.
Proof.
  apply (extractor_pixel_order 1 1 1 2 two_pixels two_pixels_swapped);
    [reflexivity | reflexivity |].
  intros i Hi. assert (i = 0) as -> by lia. apply perm_swap.
Defined.

Lemma bin_index_unit (S : nat) (v : Q) :
  0 < S -> (0 <= v)%Q -> (v < 1)%Q -> bin_index 0 (nat_to_Q S) S v = Some 0.
Proof.
  intros HS Hlo Hhi. unfold bin_index.
  pose proof (nat_to_Q_pos S HS) as Hpos.
  assert (H1S : (1 <= nat_to_Q S)%Q).
  { unfold nat_to_Q. change 1%Q with (inject_Z 1). rewrite <- Zle_Qle. lia. }
  destruct (Qlt_le_dec v 0) as [Hc|_]; [exfalso; exact (Qlt_not_le _ _ Hc Hlo)|].
  destruct (Qlt_le_dec (nat_to_Q S) v) as [Hc|_].
  { exfalso. apply (Qlt_irrefl v).
    eapply Qlt_le_trans; [exact Hhi|]. eapply Qle_trans; [exact H1S|].
    now apply Qlt_le_weak. }
  assert (He : ((v - 0) * nat_to_Q S / (nat_to_Q S - 0) == v)%Q).
  { field. intros E. rewrite E in Hpos. exact (Qlt_irrefl _ Hpos). }
  rewrite (Qfloor_comp _ _ He).
  assert (H0 : (0 <= Qfloor v)%Z).
  { rewrite <- (Qfloor_Z 0). apply Qfloor_resp_le. exact Hlo. }
  assert (H1 : (Qfloor v < 1)%Z).
  { rewrite Zlt_Qlt. eapply Qle_lt_trans; [apply Qfloor_le | exact Hhi]. }
  replace (Qfloor v) with 0%Z by lia. change (Z.to_nat 0) with 0.
  destruct (Nat.eqb_spec 0 S); [lia | reflexivity].
Qed.

Lemma histogramdd_bins_ext (S : nat) (range : Q * Q) (samples samples' : list (Q * Q * Q)) :
  map (bin_of S range) samples = map (bin_of S range) samples' ->
  torch_histogramdd samples S range = torch_histogramdd samples' S range.
Proof.
  intros E. unfold torch_histogramdd. apply map_ext. intros k.
  assert (G : forall l, length (List.filter (falls_in S range k) l)
                        = length (List.filter
                                    (fun o => match o with
                                              | Some k' => Nat.eqb k' k
                                              | None => false
                                              end) (map (bin_of S range) l))).
  { intros l. rewrite List.filter_map_swap, length_map. reflexivity. }
  now rewrite !G, E.
Qed.

Lemma unit_interval_bins (S B H W : nat) (x y : Tensor Q) (i : nat) :
  0 < S -> shape x = [B; 3; H; W] -> Permute_0231 x = Ok y -> i < B ->
  Forall (fun v => (0 <= v)%Q /\ (v < 1)%Q) (data x) ->
  map (bin_of S (0%Q, nat_to_Q S)) (samples_of (data y) (H * W) i)
  = map (fun _ => Some 0) (seq 0 (H * W)).
Proof.
  intros HS Hx Hy Hi Hunit.
  rewrite (Permute_0231_samples x y B H W i Hx Hy Hi), map_map.
  apply map_ext. intros p. unfold bin_of, channel. cbn [fst snd].
  assert (Hv : forall j, bin_index 0 (nat_to_Q S) S (getq (data x) j) = Some 0).
  { intros j.
    destruct (getq_Forall (fun v => (0 <= v)%Q /\ (v < 1)%Q) (data x) j) as [Hlo Hhi];
      [split; [apply Qle_refl | reflexivity] | exact Hunit |].
    now apply bin_index_unit. }
  now rewrite !Hv.
Qed.

(** X5.  The bins are one unit wide, whatever the colour resolution: two
    batches of one shape whose channel values all lie in [[0, 1)] have the
    same histograms, those of black images. *)
Theorem extractor_unit_interval (color_bits B H W : nat) (x x' : Tensor Q) :
  shape x = [B; 3; H; W] -> shape x' = [B; 3; H; W] ->
  Forall (fun v => (0 <= v)%Q /\ (v < 1)%Q) (data x) ->
  Forall (fun v => (0 <= v)%Q /\ (v < 1)%Q) (data x') ->
  forward color_bits x = forward color_bits x'.
Proof.
  intros Hx Hx' Hu Hu'. unfold forward.
  assert (HS : 0 < color_size color_bits)
    by (apply Nat.neq_0_lt_0, Nat.pow_nonzero; lia).
  destruct (Permute_0231 x) as [[ys y]|] eqn:Hy;
    [|unfold Permute_0231 in Hy; rewrite Hx in Hy; discriminate Hy].
  destruct (Permute_0231 x') as [[ys' y']|] eqn:Hy';
    [|unfold Permute_0231 in Hy'; rewrite Hx' in Hy'; discriminate Hy'].
  assert (Hys : ys = [B; H; W; 3])
    by (unfold Permute_0231 in Hy; rewrite Hx in Hy; now injection Hy as <- _).
  assert (Hys' : ys' = [B; H; W; 3])
    by (unfold Permute_0231 in Hy'; rewrite Hx' in Hy'; now injection Hy' as <- _).
  subst ys ys'.
  unfold rbind, histogramdd. cbn [shape data Nat.eqb negb].
  destruct (Nat.eqb B 0); [reflexivity|].
  do 3 f_equal. apply map_ext_in. intros i Hi. apply in_seq in Hi.
  f_equal. apply histogramdd_bins_ext.
  pose proof (unit_interval_bins _ B H W x _ i HS Hx Hy ltac:(lia) Hu) as E.
  pose proof (unit_interval_bins _ B H W x' _ i HS Hx' Hy' ltac:(lia) Hu') as E'.
  cbn [data] in E, E'. now rewrite E, E'.
Qed.

Lemma extractor_unit_interval_witness :
  forward 3 unit_image = forward 3 (constant_image 1 1 2 0).
Proof.
  apply (extractor_unit_interval 3 1 1 2 unit_image (constant_image 1 1 2 0));
    [reflexivity | reflexivity | |];
    repeat (apply List.Forall_cons; [split; [discriminate | reflexivity]|]);
    apply List.Forall_nil.
Defined.

End ExtractorMore.

(** ** HistogramDistance *)

Section DistanceFacts.
Import HistogramEncoder HistogramDistance.

Lemma broadcast_rev_same (s : list nat) : broadcast_rev s s = Some s.
Proof.
  induction s as [|a s IH]; simpl; [reflexivity|].
  now rewrite Nat.eqb_refl, IH.
Qed.

Lemma broadcast_shapes_same (s : list nat) : broadcast_shapes s s = Some s.
Proof. unfold broadcast_shapes. rewrite broadcast_rev_same. simpl. now rewrite rev_involutive. Qed.

Lemma broadcast_index_same (s : list nat) (i k : nat) :
  i < numel_of s -> broadcast_index s s i k = k * i.
Proof.
  revert i k. induction s as [|d s IH]; intros i k Hi.
  - unfold numel_of in Hi. simpl in *. assert (i = 0) as -> by lia. lia.
  - change (numel_of (d :: s)) with (d * numel_of s) in Hi.
    assert (Hd : d <> 0) by (intros ->; lia).
    assert (Hdiv : i / d < numel_of s).
    { apply Nat.Div0.div_lt_upper_bound. exact Hi. }
    cbn [broadcast_index]. rewrite IH by exact Hdiv.
    pose proof (Nat.div_mod_eq i d) as Hdm.
    destruct (Nat.eqb_spec d 1) as [->|_].
    + rewrite Nat.div_1_r. lia.
    + nia.
Qed.

Lemma Qsum_nonneg (l : list Q) : Forall (fun q => (0 <= q)%Q) l -> (0 <= Qsum l)%Q.
Proof.
  induction 1 as [|q l Hq _ IH]; simpl; [apply Qle_refl|].
  replace 0%Q with (0 + 0)%Q by reflexivity. now apply Qplus_le_compat.
Qed.

Lemma Qsum_zero (l : list Q) :
  Forall (fun q => (0 <= q)%Q) l ->
  ((Qsum l == 0)%Q <-> Forall (fun q => (q == 0)%Q) l).
Proof.
  induction 1 as [|q l Hq Hl IH]; simpl.
  - split; [constructor | reflexivity].
  - pose proof (Qsum_nonneg l Hl) as Hs. split.
    + intros E.
      assert (Hq0 : (q == 0)%Q).
      { apply Qle_antisym; [|exact Hq].
        rewrite <- E. rewrite <- (Qplus_0_r q) at 1. now apply Qplus_le_r. }
      constructor; [exact Hq0|]. apply IH. rewrite Hq0, Qplus_0_l in E. exact E.
    + intros Hall. apply List.Forall_cons_iff in Hall. destruct Hall as [Hq0 Hall].
      apply IH in Hall. now rewrite Hq0, Hall.
Qed.

Lemma Qsquare_nonneg (a : Q) : (0 <= a * a)%Q.
Proof.
  destruct (Qlt_le_dec a 0) as [Hneg|Hpos].
  - assert (E : (a * a == (- a) * (- a))%Q) by ring. rewrite E.
    apply Qmult_le_0_compat; apply (Qopp_le_compat a 0), Qlt_le_weak, Hneg.
  - now apply Qmult_le_0_compat.
Qed.

Lemma Qsum_map_Qeq {A} (f g : A -> Q) (l : list A) :
  (forall i, (f i == g i)%Q) -> (Qsum (map f l) == Qsum (map g l))%Q.
Proof.
  intros E. induction l as [|i l IH]; simpl; [reflexivity|]. now rewrite IH, (E i).
Qed.

Lemma Qsum_map_zero {A} (f : A -> Q) (l : list A) :
  (forall i, (f i == 0)%Q) -> (Qsum (map f l) == 0)%Q.
Proof.
  intros E. induction l as [|i l IH]; simpl; [reflexivity|]. rewrite IH, (E i). ring.
Qed.

(** The mean squared error of two tensors of one shape. *)
Lemma mse_loss_same_shape (x y : Tensor Q) :
  shape x = shape y ->
  mse_loss x y
  = Ok (Qsum (map (fun i => ((nth i (data x) 0 - nth i (data y) 0)
                             * (nth i (data x) 0 - nth i (data y) 0))%Q)
                  (seq 0 (numel x)))
        / nat_to_Q (numel x))%Q.
Proof.
  intros Hs. unfold mse_loss. rewrite <- Hs, broadcast_shapes_same. unfold numel.
  do 3 f_equal. apply map_ext_in. intros i Hi. apply in_seq in Hi.
  unfold broadcast_get. rewrite <- Hs.
  rewrite broadcast_index_same by (rewrite numel_of_rev; lia).
  now rewrite Nat.mul_1_l.
Qed.

(** X6.  For two tensors of one shape with at least one element, the
    distance is defined, not negative, the same in both directions, zero
    between a tensor and itself, and zero only when all entries agree. *)
Theorem HistogramDistance_metric (color_bits : nat) (x y : Tensor Q) :
  shape x = shape y -> numel x <> 0 ->
  exists d,
    forward color_bits x y = Ok d
    /\ (0 <= d)%Q
    /\ (exists d', forward color_bits y x = Ok d' /\ (d' == d)%Q)
    /\ (exists z, forward color_bits x x = Ok z /\ (z == 0)%Q)
    /\ ((d == 0)%Q <->
        forall i, i < numel x -> (nth i (data x) 0 == nth i (data y) 0)%Q).
Proof.
  intros Hs Hn. unfold forward, kl_div.
  rewrite (mse_loss_same_shape x y Hs), (mse_loss_same_shape y x (eq_sym Hs)),
    (mse_loss_same_shape x x eq_refl).
  assert (Hnum : numel y = numel x) by (unfold numel; now rewrite Hs).
  rewrite Hnum.
  pose proof (nat_to_Q_pos (numel x) ltac:(lia)) as Hpos.
  set (sq := fun i => ((nth i (data x) 0 - nth i (data y) 0)
                       * (nth i (data x) 0 - nth i (data y) 0))%Q).
  assert (Hnn : Forall (fun q => (0 <= q)%Q) (map sq (seq 0 (numel x)))).
  { rewrite Forall_map. apply Forall_forall. intros i _. apply Qsquare_nonneg. }
  eexists. split; [reflexivity|]. fold sq. split; [|split; [|split]].
  - apply Qle_shift_div_l; [exact Hpos|]. rewrite Qmult_0_l. now apply Qsum_nonneg.
  - eexists. split; [reflexivity|].
    unfold Qdiv. apply Qmult_comp; [|reflexivity].
    apply Qsum_map_Qeq. intros i. unfold sq. ring.
  - eexists. split; [reflexivity|].
    assert (E : (Qsum (map (fun i => ((nth i (data x) 0 - nth i (data x) 0)
                               * (nth i (data x) 0 - nth i (data x) 0))%Q) (seq 0 (numel x)))
                 == 0)%Q).
    { apply Qsum_map_zero. intros i. ring. }
    rewrite E. unfold Qdiv. ring.
  - assert (Hdiv : ((Qsum (map sq (seq 0 (numel x))) / nat_to_Q (numel x) == 0)%Q
                    <-> (Qsum (map sq (seq 0 (numel x))) == 0)%Q)).
    { split; intros E.
      - assert (Hne : ~ (nat_to_Q (numel x) == 0)%Q) by (apply nat_to_Q_nonzero; lia).
        rewrite <- (Qmult_div_r (Qsum (map sq (seq 0 (numel x)))) (nat_to_Q (numel x)) Hne).
        rewrite E. ring.
      - rewrite E. unfold Qdiv. ring. }
    rewrite Hdiv, (Qsum_zero _ Hnn), Forall_map, Forall_forall.
    split.
    + intros Hall i Hi. specialize (Hall i ltac:(apply list_elem_of_In, in_seq; lia)).
      unfold sq in Hall. apply Qmult_integral in Hall.
      assert (Hz : (nth i (data x) 0 - nth i (data y) 0 == 0)%Q) by tauto.
      revert Hz. generalize (nth i (data x) 0%Q) (nth i (data y) 0%Q). intros a b Hz.
      assert (E : (a == (a - b) + b)%Q) by ring. rewrite E, Hz. ring.
    + intros Hall i Hi. apply list_elem_of_In, in_seq in Hi. unfold sq.
      rewrite (Hall i ltac:(lia)). ring.
Qed.

Lemma HistogramDistance_metric_witness :
  exists d,
    forward 2 even_histogram skewed_histogram = Ok d
    /\ (0 <= d)%Q
    /\ (exists d', forward 2 skewed_histogram even_histogram = Ok d' /\ (d' == d)%Q)
    /\ (exists z, forward 2 even_histogram even_histogram = Ok z /\ (z == 0)%Q)
    /\ ((d == 0)%Q <->
        forall i, i < numel even_histogram ->
                  (nth i (data even_histogram) 0 == nth i (data skewed_histogram) 0)%Q).
Proof.
  apply (HistogramDistance_metric 2 even_histogram skewed_histogram);
    [reflexivity | vm_compute; lia].
Defined.

End DistanceFacts.

(** ** The scale of the adapters *)

Section ScaleFacts.
Import Layers SD AdapterScale.
Context {K : Scalars} {L : ScalarLaws K} {F : Framework} {FL : FrameworkLaws}.

Lemma CrossAttentionAdapter_init_set_scale (a : Attention) (scale0 scale : R)
    (st : list (Tensor R)) :
  CrossAttentionAdapter_init a scale st
  = (CrossAttentionAdapter_set_scale scale (fst (CrossAttentionAdapter_init a scale0 st)),
     snd (CrossAttentionAdapter_init a scale0 st)).
Proof.
  unfold CrossAttentionAdapter_init, ImageCrossAttention_init, bbind, bret.
  destruct (Linear_init (image_in_features a) (inner_dim a) (use_bias a) st) as [k st1].
  destruct (Linear_init (image_in_features a) (inner_dim a) (use_bias a) st1) as [v st2].
  reflexivity.
Qed.

Lemma build_all_set_scale (scale0 scale : R) (l : list Attention) (st : list (Tensor R)) :
  build_all (fun a => CrossAttentionAdapter_init a scale) l st
  = (map (CrossAttentionAdapter_set_scale scale)
         (fst (build_all (fun a => CrossAttentionAdapter_init a scale0) l st)),
     snd (build_all (fun a => CrossAttentionAdapter_init a scale0) l st)).
Proof.
  revert st. induction l as [|a l IH]; intros st; simpl; [reflexivity|].
  unfold bbind, bret.
  rewrite (CrossAttentionAdapter_init_set_scale a scale0 scale st).
  destruct (CrossAttentionAdapter_init a scale0 st) as [ad st1]. cbn [fst snd].
  rewrite (IH st1).
  destruct (build_all (fun a0 => CrossAttentionAdapter_init a0 scale0) l st1) as [ads st2].
  reflexivity.
Qed.

(** X7.  [set_scale] turns the adapter into the one the constructor builds
    with that scale: the scale given at construction is overwritten in
    every sub-adapter and in the [Multiply] of its branch, and nothing
    else changes, neither the store nor the list of weights. *)
Theorem set_scale_overrides (net : Module Attention) (enc : HistogramEncoder)
    (scale0 scale : R) (st0 : list (Tensor R)) :
  let self := fst (SD1HistogramAdapter_init net enc scale0 st0) in
  set_scale scale self = fst (SD1HistogramAdapter_init net enc scale st0)
  /\ snd (SD1HistogramAdapter_init net enc scale0 st0)
     = snd (SD1HistogramAdapter_init net enc scale st0)
  /\ weights (set_scale scale self) = weights self
  /\ Forall (fun ad => _scale ad = scale
                       /\ hca_scale (histogram_cross_attention ad) = scale)
            (sub_adapters (set_scale scale self)).
Proof.
  cbv zeta. unfold SD1HistogramAdapter_init, bbind, bret.
  rewrite (build_all_set_scale scale0 scale).
  destruct (build_all (fun a => CrossAttentionAdapter_init a scale0)
              (List.filter not_SelfAttention (layers_Attention net)) st0) as [subs st1].
  cbn [fst snd]. unfold set_scale, weights. cbn [sd_target _histogram_encoder sub_adapters].
  repeat split.
  - induction subs as [|ad subs IH]; simpl; [reflexivity|]. now rewrite IH.
  - rewrite Forall_map. apply Forall_forall. intros ad _. split; reflexivity.
Qed.

Lemma put_adapter_set_scale (scale : R) (ad : CrossAttentionAdapter) (l : Layer) :
  put_adapter (CrossAttentionAdapter_set_scale scale ad) (Layer_set_scale scale l)
  = Layer_set_scale scale (put_adapter ad l).
Proof.
  destruct l as [a|ad']; simpl; [|reflexivity].
  destruct (decide (a = target ad)); reflexivity.
Qed.

Lemma put_adapters_set_scale (scale : R) (subs : list CrossAttentionAdapter) (l : Layer) :
  fold_left (fun l ad => put_adapter ad l) (map (CrossAttentionAdapter_set_scale scale) subs)
    (Layer_set_scale scale l)
  = Layer_set_scale scale (fold_left (fun l ad => put_adapter ad l) subs l).
Proof.
  revert l. induction subs as [|ad subs IH]; intros l; simpl; [reflexivity|].
  now rewrite put_adapter_set_scale, IH.
Qed.

(** X8.  Setting the scale before injecting gives the network that
    injecting first and setting the scale of the injected sub-adapters
    gives: the layers that are replaced are the same, and each carries the
    new scale. *)
Theorem set_scale_inject_commute (scale : R) (self : SD1HistogramAdapter) :
  inject (set_scale scale self)
  = replace_layers (Layer_set_scale scale) (inject self).
Proof.
  unfold inject, set_scale. cbn [sd_target sub_adapters replace_layers map].
  do 2 f_equal. rewrite !inject_all_layers, replace_layers_compose.
  induction (sd_target self) as [kind params|ms IH|kind ms IH|a] using Module_induction;
    simpl.
  - reflexivity.
  - f_equal. apply map_ext_Forall, IH.
  - f_equal. apply map_ext_Forall, IH.
  - f_equal. apply (put_adapters_set_scale scale (sub_adapters self) (Plain a)).
Qed.

(** The parameters of a new [Linear] are new tensors of the store. *)
Lemma Linear_init_params (i o : nat) (b : bool) (st : list (Tensor R)) :
  Forall (fun l => length st <= l < length (snd (Linear_init i o b st)))
         (Linear_params (fst (Linear_init i o b st))).
Proof.
  unfold Linear_init, bbind, bret, new_param, Linear_params. destruct b; cbn.
  - repeat constructor; rewrite !length_app; simpl; lia.
  - repeat constructor; rewrite !length_app; simpl; lia.
Qed.

Lemma CrossAttentionAdapter_init_params (a : Attention) (scale : R) (st : list (Tensor R)) :
  Forall (fun l => length st <= l < length (snd (CrossAttentionAdapter_init a scale st)))
         (branch_params (fst (CrossAttentionAdapter_init a scale st))).
Proof.
  unfold CrossAttentionAdapter_init, ImageCrossAttention_init, bbind, bret, branch_params,
    image_key_projection, image_value_projection.
  pose proof (Linear_init_params (image_in_features a) (inner_dim a) (use_bias a) st) as H1.
  destruct (Linear_init_spec (image_in_features a) (inner_dim a) (use_bias a) st)
    as (e1 & Hs1 & _).
  destruct (Linear_init (image_in_features a) (inner_dim a) (use_bias a) st) as [k st1].
  cbn [fst snd] in *. subst st1.
  pose proof (Linear_init_params (image_in_features a) (inner_dim a) (use_bias a) (st ++ e1))
    as H2.
  destruct (Linear_init_spec (image_in_features a) (inner_dim a) (use_bias a) (st ++ e1))
    as (e2 & Hs2 & _).
  destruct (Linear_init (image_in_features a) (inner_dim a) (use_bias a) (st ++ e1))
    as [v st2].
  cbn [fst snd histogram_cross_attention Distribute_1_Linear Distribute_2_Linear] in *.
  subst st2. apply Forall_app. split.
  - eapply List.Forall_impl; [|exact H1]. intros l. cbv beta. rewrite !length_app. lia.
  - eapply List.Forall_impl; [|exact H2]. intros l. cbv beta. rewrite !length_app. lia.
Qed.

Lemma build_all_params (scale : R) (l : list Attention) (st : list (Tensor R)) :
  Forall (fun ad =>
            Forall (fun w => length st <= w
                             < length (snd (build_all (fun a => CrossAttentionAdapter_init a scale)
                                              l st)))
                   (branch_params ad))
         (fst (build_all (fun a => CrossAttentionAdapter_init a scale) l st)).
Proof.
  revert st. induction l as [|a l IH]; intros st; simpl; [constructor|].
  unfold bbind, bret.
  pose proof (CrossAttentionAdapter_init_params a scale st) as H1.
  destruct (CrossAttentionAdapter_init_spec a scale st) as (e1 & Hs1 & _).
  destruct (CrossAttentionAdapter_init a scale st) as [ad st1]. cbn [fst snd] in *. subst st1.
  pose proof (IH (st ++ e1)) as H2.
  destruct (build_all_spec scale l (st ++ e1)) as (e2 & Hs2 & _).
  destruct (build_all (fun a0 => CrossAttentionAdapter_init a0 scale) l (st ++ e1))
    as [ads st2].
  cbn [fst snd] in *. subst st2. constructor.
  - eapply List.Forall_impl; [|exact H1]. intros w. cbv beta. rewrite !length_app. lia.
  - eapply List.Forall_impl; [|exact H2]. intros ad' Had'.
    eapply List.Forall_impl; [|exact Had']. intros w. cbv beta. rewrite !length_app. lia.
Qed.

(** A [Linear] whose parameters are in the store maps a matrix of its
    input width to a matrix of its output width. *)
Lemma Linear_forward_total (st : list (Tensor R)) (lin : Linear) (x : Tensor R) (n : nat) :
  Forall (fun l => l < length st) (Linear_params lin) ->
  shape x = [n; in_features lin] ->
  exists y, Linear_forward st lin x = Ok y /\ shape y = [n; out_features lin].
Proof.
  intros Hp Hx. unfold Linear_params in Hp.
  apply List.Forall_cons_iff in Hp. destruct Hp as [Hw Hb].
  destruct (lookup_lt_is_Some_2 st _ Hw) as [W HW].
  unfold Linear_forward, read. rewrite HW. cbn [rbind].
  assert (Hbias : exists ob, read_bias st (bias lin) = Ok ob).
  { destruct (bias lin) as [b|]; cbn [read_bias]; [|eauto].
    apply List.Forall_cons_iff in Hb. destruct Hb as [Hb _].
    destruct (lookup_lt_is_Some_2 st _ Hb) as [t Ht].
    unfold read. rewrite Ht. cbn [rbind]. eauto. }
  destruct Hbias as (ob & ->). cbn [rbind].
  unfold Linear_apply. rewrite Hx, Nat.eqb_refl. eexists. split; reflexivity.
Qed.

Lemma ScaledDotProductAttention_total weights (h : nat) (c : bool)
    (q k v : Tensor R) (n d m dv : nat) :
  shape q = [n; d] -> shape k = [m; d] -> shape v = [m; dv] ->
  h <> 0 -> d mod h = 0 -> dv mod h = 0 ->
  exists o, ScaledDotProductAttention weights h c q k v = Ok o
            /\ shape o = [n; dv] /\ length (data o) = n * dv.
Proof.
  intros Hq Hk Hv Hh Hd Hdv. unfold ScaledDotProductAttention. rewrite Hq, Hk, Hv.
  rewrite !Nat.eqb_refl, Hd, Hdv.
  destruct (Nat.eqb_spec h 0) as [|_]; [contradiction|]. cbn.
  eexists. split; [reflexivity|]. cbn [shape data]. split; [reflexivity|].
  apply length_rows.
Qed.

(** Multiplying by a scale of zero leaves zeros. *)
Lemma Multiply_r0 (o : Tensor R) :
  Multiply r0 o = mkTensor (shape o) (replicate (length (data o)) r0).
Proof.
  unfold Multiply. f_equal. induction (data o) as [|a d IH]; simpl; [reflexivity|].
  now rewrite rmul_0_r, IH.
Qed.

(** With a scale of zero the branch adds zeros, whatever its weights: the
    sub-adapter computes what its target computes. *)
Lemma CrossAttentionAdapter_forward_scale_zero (st : list (Tensor R))
    (ctxs : gmap string (gmap string (Tensor R))) (ad : CrossAttentionAdapter)
    (args : list (Tensor R)) (e : Tensor R) (m : nat) :
  hca_scale (histogram_cross_attention ad) = r0 ->
  hca_num_heads (histogram_cross_attention ad) = num_heads (target ad) ->
  out_features (image_key_projection ad) = inner_dim (target ad) ->
  out_features (image_value_projection ad) = inner_dim (target ad) ->
  Forall (fun l => l < length st) (branch_params ad) ->
  Context.UseContext (hca_context (histogram_cross_attention ad))
    (hca_key (histogram_cross_attention ad)) ctxs = Ok e ->
  shape e = [m; in_features (image_key_projection ad)] ->
  shape e = [m; in_features (image_value_projection ad)] ->
  CrossAttentionAdapter_forward st ctxs ad args = Attention_forward st (target ad) args.
Proof.
  intros Hscale Hheads Hok Hov Hpar Hctx Hek Hev.
  unfold branch_params in Hpar. apply Forall_app in Hpar. destruct Hpar as [Hpk Hpv].
  unfold CrossAttentionAdapter_forward, Attention_forward.
  destruct (Attention_projections st (target ad) args) as [[[q k] v]|err] eqn:Eproj;
    [|reflexivity].
  cbn [rbind fst snd].
  destruct (Attention_projections_shape _ _ _ _ _ _ Eproj) as (n & Hq).
  destruct (ScaledDotProductAttention attention_weights (num_heads (target ad))
              (is_causal (target ad)) q k v) as [o1|err] eqn:Eatt; [|reflexivity].
  cbn [rbind].
  destruct (ScaledDotProductAttention_shape _ _ _ _ _ _ _ Eatt)
    as (n' & d & m' & dv & Hq' & Hk' & Hv' & Hh & Hd & Hdv & Ho1 & Hlen).
  rewrite Hq in Hq'. injection Hq' as <- <-.
  assert (Hdv' : dv = inner_dim (target ad)).
  { unfold Attention_projections in Eproj.
    destruct (attention_inputs (target ad) args) as [[[xq xk] xv]|]; [|discriminate].
    cbn [rbind fst snd] in Eproj.
    destruct (Linear_forward st (query_projection (target ad)) xq); [|discriminate].
    cbn [rbind] in Eproj.
    destruct (Linear_forward st (key_projection (target ad)) xk); [|discriminate].
    cbn [rbind] in Eproj.
    destruct (Linear_forward st (value_projection (target ad)) xv) as [v'|] eqn:Ev;
      [|discriminate].
    cbn [rbind] in Eproj. injection Eproj as _ _ <-.
    apply Linear_forward_shape in Ev. destruct Ev as (nv & Hsv & _).
    rewrite Hsv in Hv'. now injection Hv' as _ <-. }
  subst dv.
  unfold HistogramCrossAttention_forward. rewrite Hctx. cbn [rbind].
  unfold image_key_projection, image_value_projection in *.
  destruct (Linear_forward_total st _ e m Hpk Hek) as (k' & -> & Hks). cbn [rbind].
  destruct (Linear_forward_total st _ e m Hpv Hev) as (v' & -> & Hvs). cbn [rbind].
  rewrite Hok in Hks. rewrite Hov in Hvs. rewrite Hheads.
  destruct (ScaledDotProductAttention_total attention_weights (num_heads (target ad))
              (hca_is_causal (histogram_cross_attention ad)) q k' v' n
              (inner_dim (target ad)) m (inner_dim (target ad)) Hq Hks Hvs Hh Hd Hdv)
    as (o2 & -> & Ho2 & Hlen2).
  cbn [rbind]. rewrite Hscale, Multiply_r0, Ho2, <- Ho1.
  rewrite (tensor_add_zero o1 (length (data o2))) by congruence. reflexivity.
Qed.

(** X9.  A scale of zero switches the adapter off.  Let the adapter be
    built over a store that holds the parameters of the network, and let
    the new parameters then take any values while those of the network
    stay as they were.  After [set_scale(0)], if the context holds, under
    the key the sub-adapters read, an embedding of the input width of
    their projections, the injected network returns for every input what
    the network returned before injection, with or without bias. *)
Theorem set_scale_zero_disables (net : Module Attention) (enc : HistogramEncoder)
    (scale : R) (st0 st : list (Tensor R)) (ctxs : gmap string (gmap string (Tensor R)))
    (e : Tensor R) (m : nat) (args : list (Tensor R)) :
  Forall (fun l => l < length st0) (parameters net) ->
  Forall (fun a => shape e = [m; image_in_features a])
         (List.filter not_SelfAttention (layers_Attention net)) ->
  Context.UseContext "ip_adapter" image_context_key ctxs = Ok e ->
  length st = length (snd (SD1HistogramAdapter_init net enc scale st0)) ->
  (forall l, l < length st0 -> st !! l = st0 !! l) ->
  forward_injected st ctxs
    (inject (set_scale r0 (fst (SD1HistogramAdapter_init net enc scale st0)))) args
  = forward st0 ctxs net args.
Proof.
  intros Hwf Hsel Hctx Hlen Hold.
  destruct (SD1HistogramAdapter_init_spec net enc scale st0)
    as (ext & Hst & Htarget & _ & Hsubs).
  assert (Hparams : Forall (fun ad => Forall (fun w => w < length st) (branch_params ad))
                      (sub_adapters (fst (SD1HistogramAdapter_init net enc scale st0)))).
  { rewrite Hlen. unfold SD1HistogramAdapter_init, bbind, bret.
    pose proof (build_all_params scale
                  (List.filter not_SelfAttention (layers_Attention net)) st0) as Hb.
    destruct (build_all (fun a => CrossAttentionAdapter_init a scale)
                (List.filter not_SelfAttention (layers_Attention net)) st0) as [subs st1].
    cbn [fst snd sub_adapters] in *.
    eapply List.Forall_impl; [|exact Hb]. intros ad Had.
    eapply List.Forall_impl; [|exact Had]. intros w. cbv beta. lia. }
  set (self := fst (SD1HistogramAdapter_init net enc scale st0)) in *.
  unfold forward_injected, inject, forward, set_scale. cbn [sd_target sub_adapters].
  rewrite Htarget.
  change (forward_with (Layer_forward st ctxs) st ctxs (Chain [?X]) args)
    with (rbind (forward_with (Layer_forward st ctxs) st ctxs X args) Ok).
  rewrite rbind_Ok, inject_all_layers.
  apply forward_with_replace.
  - eapply List.Forall_impl; [|exact Hwf]. exact Hold.
  - apply Forall_forall. intros a Ha args'. apply list_elem_of_In in Ha.
    assert (Hagree : Forall (fun l => st !! l = st0 !! l) (Attention_params a)).
    { apply Forall_forall. intros l Hl. apply Hold.
      rewrite Forall_forall in Hwf. apply Hwf, list_elem_of_In.
      eapply Attention_params_in_net; [exact Ha | now apply list_elem_of_In]. }
    change (Plain a) with (Layer_set_scale r0 (Plain a)).
    rewrite put_adapters_set_scale.
    destruct (put_adapters_Plain (sub_adapters self) a) as [->|(ad & Hin & Ht & ->)];
      cbn [Layer_set_scale Layer_forward].
    + now apply Attention_forward_agree.
    + rewrite <- (Attention_forward_agree st0 st a args' Hagree), <- Ht.
      destruct (In_Forall2_r _ _ _ ad Hsubs Hin) as (a' & Ha' & Hb).
      destruct Hb as (Hta & _ & Hc & Hk & Hh & _ & Hik & Hiv & Hok & Hov & _ & _ & _).
      assert (Haa : a' = target ad) by congruence. rewrite Haa in *.
      rewrite Forall_forall in Hsel.
      pose proof (Hsel (target ad) ltac:(now apply list_elem_of_In)) as He.
      rewrite Forall_forall in Hparams.
      pose proof (Hparams ad ltac:(now apply list_elem_of_In)) as Hp.
      apply (CrossAttentionAdapter_forward_scale_zero st ctxs
               (CrossAttentionAdapter_set_scale r0 ad) args' e m); auto;
        cbn; unfold image_key_projection, image_value_projection in *; congruence.
Qed.

End ScaleFacts.

Section ScaleExampleFacts.
Import SD Example AdapterScale ScaleExample.

Lemma set_scale_zero_disables_witness :
  forward_injected built_store (set_histogram_embedding embedding ∅)
    (inject (set_scale (K := Zscalars) 0%Z built_adapter)) input
  = forward store (set_histogram_embedding embedding ∅) (unet true) input.
Proof.
  apply (@set_scale_zero_disables Zscalars Zlaws Zframework Zframework_laws
           (unet true) encoder 1%Z store built_store
           (set_histogram_embedding (K := Zscalars) embedding ∅) embedding 1 input).
  - simpl. repeat (apply List.Forall_cons; [simpl; lia|]). apply List.Forall_nil.
  - simpl. apply List.Forall_cons; [reflexivity | apply List.Forall_nil].
  - reflexivity.
  - reflexivity.
  - intros l Hl. do 9 (destruct l as [|l]; [reflexivity|]). simpl in Hl. lia.
Defined.

End ScaleExampleFacts.

(** ** zero_init on any adapter and store *)

Section ZeroInitFacts.
Import Layers SD AdapterScale.
Context {K : Scalars} {F : Framework}.

Lemma zeros__idempotent (t : Tensor R) : zeros_ (zeros_ t) = zeros_ t.
Proof. unfold zeros_. cbn [shape data]. now rewrite map_map. Qed.

Lemma zero_fold_lookup (ws : list loc) (st : list (Tensor R)) (l : loc) :
  fold_left (fun st w => alter zeros_ w st) ws st !! l
  = if bool_decide (l ∈ ws) then zeros_ <$> st !! l else st !! l.
Proof.
  revert st. induction ws as [|w ws IH]; intros st; simpl; [reflexivity|].
  rewrite IH. destruct (decide (l = w)) as [->|Hne].
  - rewrite list_lookup_alter_eq.
    rewrite (bool_decide_eq_true_2 (w ∈ w :: ws)) by apply list_elem_of_here.
    destruct (bool_decide (w ∈ ws)); [|reflexivity].
    destruct (st !! w) as [t|]; simpl; [|reflexivity]. now rewrite zeros__idempotent.
  - rewrite list_lookup_alter_ne by congruence.
    destruct (decide (l ∈ ws)) as [Hin|Hnin].
    + rewrite !bool_decide_eq_true_2; auto. now apply list_elem_of_further.
    + rewrite !bool_decide_eq_false_2; auto.
      intros Hc. apply elem_of_cons in Hc. destruct Hc; contradiction.
Qed.

Lemma zero_fold_length (ws : list loc) (st : list (Tensor R)) :
  length (fold_left (fun st w => alter zeros_ w st) ws st) = length st.
Proof.
  revert st. induction ws as [|w ws IH]; intros st; simpl; [reflexivity|].
  now rewrite IH, length_alter.
Qed.

(** X10.  [zero_init] keeps the length of the store and the shape of every
    tensor; it replaces the tensors listed by [weights] by zeros and
    leaves every other tensor as it was; calling it again changes
    nothing. *)
Theorem zero_init_effect (self : SD1HistogramAdapter) (st : list (Tensor R)) :
  length (zero_init self st) = length st
  /\ (forall l, zero_init self st !! l
                = if bool_decide (l ∈ weights self) then zeros_ <$> st !! l else st !! l)
  /\ (forall l t, zero_init self st !! l = Some t ->
        exists t0, st !! l = Some t0 /\ shape t = shape t0
                   /\ length (data t) = length (data t0)
                   /\ (l ∈ weights self -> all_zero t))
  /\ zero_init self (zero_init self st) = zero_init self st.
Proof.
  unfold zero_init. split; [apply zero_fold_length|].
  split; [intros l; apply zero_fold_lookup|]. split.
  - intros l t. rewrite zero_fold_lookup.
    destruct (decide (l ∈ weights self)) as [Hin|Hnin].
    + rewrite bool_decide_eq_true_2 by exact Hin.
      destruct (st !! l) as [t0|]; simpl; [|discriminate].
      intros E. injection E as <-. exists t0. unfold zeros_. cbn [shape data].
      rewrite length_map. repeat split; auto.
      intros _. unfold all_zero. cbn [data]. rewrite Forall_map.
      apply Forall_forall. reflexivity.
    + rewrite bool_decide_eq_false_2 by exact Hnin.
      intros E. exists t. repeat split; auto. contradiction.
  - apply list_eq. intros l. rewrite !zero_fold_lookup.
    destruct (bool_decide (l ∈ weights self)); [|reflexivity].
    destruct (st !! l) as [t|]; simpl; [|reflexivity]. now rewrite zeros__idempotent.
Qed.

End ZeroInitFacts.

(** ** HistogramCrossAttentionAdapter *)

Section HistogramAdapterFacts.
Import Layers SD AdapterScale.
Context {K : Scalars} {L : ScalarLaws K} {F : Framework}.

Lemma Linear_init_eq (i o : nat) (b : bool) (st : list (Tensor R)) :
  Linear_init i o b st
  = if b then
      (mkLinear i o (length st) (Some (S (length st))),
       st ++ [init_param (length st) [o; i]; init_param (S (length st)) [o]])
    else
      (mkLinear i o (length st) None, st ++ [init_param (length st) [o; i]]).
Proof.
  unfold Linear_init, bbind, bret, new_param. destruct b; [|reflexivity].
  rewrite <- app_assoc, length_app. simpl. now rewrite Nat.add_1_r.
Qed.

(** What [HistogramCrossAttentionAdapter.__init__] builds. *)
Lemma HistogramCrossAttentionAdapter_init_spec (a : Attention) (scale : R)
    (st : list (Tensor R)) :
  let ad := fst (HistogramCrossAttentionAdapter_init a scale st) in
  let st1 := snd (HistogramCrossAttentionAdapter_init a scale st) in
  let n := length st in
  let p := if use_bias a then 2 else 1 in
  target ad = a
  /\ adapter_type ad = "HistogramCrossAttentionAdapter"
  /\ _scale ad = scale
  /\ histogram_cross_attention ad
     = mkHistogramCrossAttention "ip_adapter" "palette_embedding"
         (mkLinear 4 (inner_dim a) n (with_bias (use_bias a) (n + 1)))
         (mkLinear 4 (inner_dim a) (n + p) (with_bias (use_bias a) (n + p + 1)))
         (num_heads a) (is_causal a) scale
  /\ st1 = st ++ (if use_bias a
                  then [init_param n [inner_dim a; 4]; init_param (n + 1) [inner_dim a];
                        init_param (n + 2) [inner_dim a; 4];
                        init_param (n + 3) [inner_dim a]]
                  else [init_param n [inner_dim a; 4]; init_param (n + 1) [inner_dim a; 4]]).
Proof.
  cbv zeta. unfold HistogramCrossAttentionAdapter_init, HistogramCrossAttention_init,
    bbind, bret.
  rewrite (Linear_init_eq 4 (inner_dim a) (use_bias a) st).
  destruct (use_bias a); cbn [fst snd with_bias].
  - rewrite Linear_init_eq. cbn [fst snd target adapter_type _scale histogram_cross_attention].
    rewrite <- app_assoc, !length_app. cbn [length app].
    replace (length st + 2) with (S (S (length st))) by lia.
    replace (length st + 1) with (S (length st)) by lia.
    replace (length st + 3) with (S (S (S (length st)))) by lia.
    replace (S (S (length st)) + 1) with (S (S (S (length st)))) by lia.
    repeat split; reflexivity.
  - rewrite Linear_init_eq. cbn [fst snd target adapter_type _scale histogram_cross_attention].
    rewrite <- app_assoc, !length_app. cbn [length app].
    replace (length st + 1) with (S (length st)) by lia.
    repeat split; reflexivity.
Qed.

(** X11.  A [HistogramCrossAttentionAdapter] adds two projections of input
    width 4 and of the inner width of its target to the store, after the
    tensors that were there.  Its parameters are new and distinct; its
    [weights] are the two weight matrices, created with the sizes
    (inner_dim, 4), which is their shape when a new parameter has the
    shape it is created with; they are all of its parameters exactly when
    the target uses no bias: the biases of the projections are never
    listed. *)
Theorem HistogramCrossAttentionAdapter_weights (a : Attention) (scale : R)
    (st : list (Tensor R)) :
  let ad := fst (HistogramCrossAttentionAdapter_init a scale st) in
  let st1 := snd (HistogramCrossAttentionAdapter_init a scale st) in
  (forall l, l < length st -> st1 !! l = st !! l)
  /\ length st1 = length st + length (branch_params ad)
  /\ NoDup (branch_params ad)
  /\ Forall (fun l => length st <= l < length st1) (branch_params ad)
  /\ adapter_weights ad ⊆ branch_params ad
  /\ length (adapter_weights ad) = 2
  /\ Forall (fun w => st1 !! w = Some (init_param w [inner_dim a; 4])) (adapter_weights ad)
  /\ ((forall l s, shape (init_param l s) = s) ->
      Forall (fun w => exists t, st1 !! w = Some t /\ shape t = [inner_dim a; 4])
             (adapter_weights ad))
  /\ (use_bias a = false <-> branch_params ad ⊆ adapter_weights ad)
  /\ (forall b, bias (image_key_projection ad) = Some b
                \/ bias (image_value_projection ad) = Some b ->
        b ∉ adapter_weights ad).
Proof.
  destruct (HistogramCrossAttentionAdapter_init_spec a scale st)
    as (_ & _ & _ & Hbranch & Hst).
  cbv zeta in *. rewrite Hst.
  unfold branch_params, adapter_weights, image_key_projection, image_value_projection,
    Linear_params.
  rewrite Hbranch. cbn [Distribute_1_Linear Distribute_2_Linear weight bias].
  set (n := length st).
  split; [intros l Hl; now apply lookup_app_l|].
  destruct (use_bias a); cbn [with_bias app length].
  - rewrite length_app. cbn [length]. fold n.
    split; [lia|]. split.
    { repeat (apply NoDup_cons; split; [rewrite ?elem_of_cons, elem_of_nil; lia|]).
      apply NoDup_nil_2. }
    split; [repeat constructor; lia|].
    split.
    { intros l. rewrite !elem_of_cons, !elem_of_nil. lia. }
    split; [reflexivity|]. split.
    { repeat constructor.
      - rewrite lookup_app_r by lia. now replace (n - length st) with 0 by lia.
      - rewrite lookup_app_r by lia. now replace (n + 2 - length st) with 2 by lia. }
    split.
    { intros Hshape. repeat constructor.
      - eexists. split; [|apply Hshape].
        rewrite lookup_app_r by lia. now replace (n - length st) with 0 by lia.
      - eexists. split; [|apply Hshape].
        rewrite lookup_app_r by lia. now replace (n + 2 - length st) with 2 by lia. }
    split.
    { split; [discriminate|]. intros Hsub. exfalso.
      specialize (Hsub (n + 1)). rewrite !elem_of_cons, !elem_of_nil in Hsub. lia. }
    intros b. rewrite !elem_of_cons, elem_of_nil. intros [E|E]; injection E as <-; lia.
  - rewrite length_app. cbn [length]. fold n.
    split; [lia|]. split.
    { repeat (apply NoDup_cons; split; [rewrite ?elem_of_cons, elem_of_nil; lia|]).
      apply NoDup_nil_2. }
    split; [repeat constructor; lia|].
    split; [reflexivity|]. split; [reflexivity|]. split.
    { repeat constructor.
      - rewrite lookup_app_r by lia. now replace (n - length st) with 0 by lia.
      - rewrite lookup_app_r by lia. now replace (n + 1 - length st) with 1 by lia. }
    split.
    { intros Hshape. repeat constructor.
      - eexists. split; [|apply Hshape].
        rewrite lookup_app_r by lia. now replace (n - length st) with 0 by lia.
      - eexists. split; [|apply Hshape].
        rewrite lookup_app_r by lia. now replace (n + 1 - length st) with 1 by lia. }
    split; [split; [reflexivity | reflexivity]|].
    intros b [E|E]; discriminate E.
Qed.

(** X12.  A [HistogramCrossAttentionAdapter] computes what its target
    computes, provided the context holds a palette embedding of four
    features under the key ["palette_embedding"] of ["ip_adapter"], in two
    cases: the target uses no bias and the two [weights] are zeroed, or
    the scale is set to zero, whatever the new parameters hold. *)
Theorem HistogramCrossAttentionAdapter_noop (a : Attention) (scale : R)
    (st0 : list (Tensor R)) (ctxs : gmap string (gmap string (Tensor R)))
    (e : Tensor R) (m : nat) (args : list (Tensor R)) :
  Forall (fun l => l < length st0) (Attention_params a) ->
  Context.UseContext "ip_adapter" "palette_embedding" ctxs = Ok e ->
  shape e = [m; 4] ->
  let ad := fst (HistogramCrossAttentionAdapter_init a scale st0) in
  let st1 := snd (HistogramCrossAttentionAdapter_init a scale st0) in
  (use_bias a = false ->
   CrossAttentionAdapter_forward
     (fold_left (fun st w => alter zeros_ w st) (adapter_weights ad) st1) ctxs ad args
   = Attention_forward st0 a args)
  /\ (forall st, length st = length st1 ->
        (forall l, l < length st0 -> st !! l = st0 !! l) ->
        CrossAttentionAdapter_forward st ctxs (CrossAttentionAdapter_set_scale r0 ad) args
        = Attention_forward st0 a args).
Proof.
  intros Hwf Hctx He.
  destruct (HistogramCrossAttentionAdapter_init_spec a scale st0)
    as (Htarget & _ & _ & Hbranch & Hst).
  cbv zeta in *.
  set (ad := fst (HistogramCrossAttentionAdapter_init a scale st0)) in *.
  set (st1 := snd (HistogramCrossAttentionAdapter_init a scale st0)) in *.
  set (n := length st0) in *.
  split.
  - intros Hub.
    set (st2 := fold_left (fun st w => alter zeros_ w st) (adapter_weights ad) st1).
    rewrite Hub in Hbranch, Hst. cbn [with_bias] in Hbranch.
    assert (Hws : adapter_weights ad = [n; n + 1]).
    { unfold adapter_weights, image_key_projection, image_value_projection.
      now rewrite Hbranch. }
    assert (Hlen1 : length st1 = n + 2) by (rewrite Hst, length_app; reflexivity).
    assert (Hold : forall l, l < n -> st2 !! l = st0 !! l).
    { intros l Hl. unfold st2. rewrite zero_fold_lookup, Hws.
      rewrite bool_decide_eq_false_2
        by (rewrite !elem_of_cons, elem_of_nil; lia).
      rewrite Hst. now apply lookup_app_l. }
    assert (Hzero : forall w, w ∈ adapter_weights ad ->
                      exists t, st2 !! w = Some t /\ all_zero t).
    { intros w Hw. unfold st2. rewrite zero_fold_lookup, bool_decide_eq_true_2 by exact Hw.
      rewrite Hws, !elem_of_cons, elem_of_nil in Hw.
      destruct (lookup_lt_is_Some_2 st1 w ltac:(lia)) as [t ->].
      exists (zeros_ t). split; [reflexivity | apply zeros__all_zero]. }
    destruct (Hzero n) as (Wk & HWk & Hzk); [rewrite Hws; apply list_elem_of_here|].
    destruct (Hzero (n + 1)) as (Wv & HWv & Hzv);
      [rewrite Hws; apply list_elem_of_further, list_elem_of_here|].
    rewrite <- (Attention_forward_agree st0 st2 a args).
    + rewrite <- Htarget at 1.
      apply (CrossAttentionAdapter_forward_noop st2 ctxs ad args e Wk Wv m);
        unfold image_key_projection, image_value_projection;
        rewrite ?Hbranch, ?Htarget; cbn; auto.
    + eapply List.Forall_impl; [|exact Hwf]. exact Hold.
  - intros st Hlen Hold.
    rewrite <- (Attention_forward_agree st0 st a args)
      by (eapply List.Forall_impl; [|exact Hwf]; exact Hold).
    change (Attention_forward st a args) with (id (Attention_forward st a) args).
    rewrite <- Htarget at 1. unfold id.
    change (target ad) with (target (CrossAttentionAdapter_set_scale r0 ad)).
    assert (Hlen1 : n + 2 <= length st1).
    { rewrite Hst, length_app. destruct (use_bias a); simpl; lia. }
    assert (Hlen2 : use_bias a = true -> n + 4 <= length st1).
    { intros Hub. rewrite Hst, length_app, Hub. simpl. lia. }
    apply (CrossAttentionAdapter_forward_scale_zero st ctxs
             (CrossAttentionAdapter_set_scale r0 ad) args e m);
      unfold branch_params, Linear_params, image_key_projection, image_value_projection;
      cbn [CrossAttentionAdapter_set_scale HistogramCrossAttention_set_scale
           histogram_cross_attention target hca_scale hca_num_heads hca_context hca_key
           Distribute_1_Linear Distribute_2_Linear];
      rewrite ?Hbranch, ?Htarget; cbn [Distribute_1_Linear Distribute_2_Linear hca_num_heads
           hca_context hca_key in_features out_features weight bias]; auto.
    destruct (use_bias a); cbn [with_bias app].
    + specialize (Hlen2 eq_refl). repeat constructor; lia.
    + repeat constructor; lia.
Qed.

End HistogramAdapterFacts.

Section HistogramAdapterExample.
Import Layers SD Example AdapterScale ScaleExample.

Lemma HistogramCrossAttentionAdapter_noop_witness :
  CrossAttentionAdapter_forward
    (fold_left (fun st w => alter zeros_ w st)
       (adapter_weights (fst (HistogramCrossAttentionAdapter_init (cross_attention false)
                                1%Z store)))
       (snd (HistogramCrossAttentionAdapter_init (cross_attention false) 1%Z store)))
    palette_context
    (fst (HistogramCrossAttentionAdapter_init (cross_attention false) 1%Z store)) qkv_input
  = Attention_forward store (cross_attention false) qkv_input.
Proof.
  apply (@HistogramCrossAttentionAdapter_noop Zscalars Zlaws Zframework
           (cross_attention false) 1%Z store palette_context palette_embedding 1 qkv_input).
  - simpl. repeat (apply List.Forall_cons; [simpl; lia|]). apply List.Forall_nil.
  - reflexivity.
  - reflexivity.
  - reflexivity.
Defined.

Lemma HistogramCrossAttentionAdapter_weights_witness :
  Forall (fun w => exists t,
            snd (HistogramCrossAttentionAdapter_init (cross_attention true) 1%Z store) !! w
            = Some t
            /\ shape t = [inner_dim (cross_attention true); 4])
         (adapter_weights
            (fst (HistogramCrossAttentionAdapter_init (cross_attention true) 1%Z store))).
Proof.
  apply (@HistogramCrossAttentionAdapter_weights Zscalars Zframework
           (cross_attention true) 1%Z store).
  intros l s. reflexivity.
Defined.

End HistogramAdapterExample.

(** ** The shapes through ViT3dEmbeddings *)

Section EncoderShapeFacts.
Import HistogramExtractor EncoderShapes.

(** The patches of a convolution whose stride is its kernel size. *)
Lemma conv_out_patches (d p : nat) :
  conv_out d p p = if (Nat.eqb p 0 || Nat.ltb d p)%bool then None else Some (d / p).
Proof.
  unfold conv_out. destruct (Nat.eqb_spec p 0) as [->|Hp]; [reflexivity|]. cbn [orb].
  destruct (Nat.ltb_spec d p) as [Hlt|Hge]; [reflexivity|].
  f_equal. replace d with (1 * p + (d - p)) at 2 by lia.
  rewrite Nat.div_add_l by exact Hp. lia.
Qed.

Lemma numel_of_cons (a : nat) (s : list nat) : numel_of (a :: s) = a * numel_of s.
Proof. reflexivity. Qed.

Lemma ViT3dEmbeddings_shape (c E p b : nat) :
  ViT3dEmbeddings c E p [b; 1; c; c; c]
  = if (Nat.eqb p 0 || Nat.ltb c p)%bool then None else Some [b; (c / p) ^ 3 + 1; E].
Proof.
  unfold ViT3dEmbeddings. destruct (Nat.eqb_spec p 0) as [->|Hp]; [reflexivity|]. cbn [orb].
  unfold Concatenate_1, ClassToken, fl_Parameter, Patch3dEncoder, Conv3d.
  cbn [mbind option_bind Nat.eqb]. rewrite conv_out_patches.
  replace (Nat.eqb p 0) with false by (symmetry; now apply Nat.eqb_neq). cbn [orb].
  destruct (Nat.ltb c p); [reflexivity|]. cbn [mbind option_bind].
  unfold Reshape.
  replace (Nat.eqb (numel_of [b; E; c / p; c / p; c / p])
             (numel_of [b; (c / p) ^ 3; E])) with true
    by (symmetry; apply Nat.eqb_eq; rewrite !numel_of_cons; simpl; ring).
  cbn [mbind option_bind].
  destruct (decide (b = b /\ [E] = [E])) as [_|Hne]; [|now elim Hne].
  unfold Residual, PositionalEncoder, fl_Parameter. cbn [mbind option_bind].
  replace (1 + (c / p) ^ 3) with ((c / p) ^ 3 + 1) by lia.
  apply broadcast_shapes_same.
Qed.

(** X13.  The reshape and the patch embeddings at the head of the encoder
    accept a tensor exactly when the patch size is positive and at most
    the cube size [2^color_bits] and the tensor holds a cube of values per
    batch element; the result then has one token per patch and one class
    token, each of [embedding_dim] features.  In particular they accept
    the histograms of the extractor of the same colour resolution. *)
Theorem embeddings_shape (color_bits embedding_dim patch_size : nat) (s out : list nat) :
  let cube_size := 2 ^ color_bits in
  (embeddings color_bits embedding_dim patch_size s = Some out
   <-> 0 < patch_size <= cube_size
       /\ exists b rest,
            s = b :: rest
            /\ numel_of s = b * (cube_size * cube_size * cube_size)
            /\ out = [b; (cube_size / patch_size) ^ 3 + 1; embedding_dim])
  /\ (forall x h, forward color_bits x = Ok h -> 0 < patch_size <= cube_size ->
        exists b, embeddings color_bits embedding_dim patch_size (shape h)
                  = Some [b; (cube_size / patch_size) ^ 3 + 1; embedding_dim]
                  /\ head (shape x) = Some b).
Proof.
  cbv zeta. set (c := 2 ^ color_bits).
  assert (Hmain : forall s out,
    embeddings color_bits embedding_dim patch_size s = Some out
    <-> 0 < patch_size <= c
        /\ exists b rest, s = b :: rest /\ numel_of s = b * (c * c * c)
                          /\ out = [b; (c / patch_size) ^ 3 + 1; embedding_dim]).
  { clear s out. intros s out. unfold embeddings. fold c. unfold Reshape at 1.
    destruct s as [|b rest].
    { cbn [mbind option_bind]. split; [discriminate|].
      intros (_ & b & rest & E & _). discriminate E. }
    assert (Hn : numel_of [b; 1; c; c; c] = b * (c * c * c))
      by (rewrite !numel_of_cons; simpl; ring).
    rewrite Hn.
    destruct (Nat.eqb_spec (numel_of (b :: rest)) (b * (c * c * c))) as [Heq|Hne];
      cbn [mbind option_bind].
    - rewrite ViT3dEmbeddings_shape.
      destruct (Nat.eqb_spec patch_size 0) as [Hp|Hp]; cbn [orb].
      + split; [discriminate|]. intros ([Hpos _] & _). lia.
      + destruct (Nat.ltb_spec c patch_size) as [Hlt|Hge].
        * split; [discriminate|]. intros ([_ Hle] & _). lia.
        * split.
          -- intros E. injection E as <-. split; [lia|]. exists b, rest. auto.
          -- intros (_ & b' & rest' & E & _ & ->). injection E as <- <-. reflexivity.
    - split; [discriminate|].
      intros (_ & b' & rest' & E & Hnum & _). injection E as <- <-. contradiction. }
  split; [apply Hmain|].
  intros x h Hfw Hp.
  unfold forward in Hfw.
  destruct (Permute_0231 x) as [y|] eqn:Hy; [|discriminate]. cbn [rbind] in Hfw.
  unfold Permute_0231 in Hy.
  destruct (shape x) as [|B [|C [|H [|W [|? ?]]]]] eqn:Hx; try discriminate.
  injection Hy as <-. unfold histogramdd in Hfw. cbn [shape] in Hfw.
  destruct (negb (Nat.eqb C 3)); [discriminate|].
  destruct (Nat.eqb B 0); [discriminate|].
  injection Hfw as <-. cbn [shape]. exists B. split; [|reflexivity].
  apply Hmain. split; [exact Hp|]. exists B, [color_size color_bits; color_size color_bits;
                                             color_size color_bits].
  unfold color_size. fold c. repeat split. rewrite !numel_of_cons. simpl. ring.
Qed.

End EncoderShapeFacts.

(** ** Saving and loading the weights of a sub-adapter *)

Section LoadWeightsFacts.
Import Layers SD AdapterWeights.
Context {K : Scalars} {F : Framework}.

(** A sub-adapter computes the same in two stores when its target reads
    the same parameters and the projections of its branch compute the
    same. *)
Lemma CrossAttentionAdapter_forward_agree (st st' : list (Tensor R))
    (ctxs : gmap string (gmap string (Tensor R))) (ad ad' : CrossAttentionAdapter)
    (args : list (Tensor R)) :
  target ad' = target ad ->
  hca_context (histogram_cross_attention ad') = hca_context (histogram_cross_attention ad) ->
  hca_key (histogram_cross_attention ad') = hca_key (histogram_cross_attention ad) ->
  hca_num_heads (histogram_cross_attention ad')
  = hca_num_heads (histogram_cross_attention ad) ->
  hca_is_causal (histogram_cross_attention ad')
  = hca_is_causal (histogram_cross_attention ad) ->
  hca_scale (histogram_cross_attention ad') = hca_scale (histogram_cross_attention ad) ->
  Forall (fun l => st' !! l = st !! l) (Attention_params (target ad)) ->
  (forall x, Linear_forward st' (image_key_projection ad') x
             = Linear_forward st (image_key_projection ad) x) ->
  (forall x, Linear_forward st' (image_value_projection ad') x
             = Linear_forward st (image_value_projection ad) x) ->
  CrossAttentionAdapter_forward st' ctxs ad' args
  = CrossAttentionAdapter_forward st ctxs ad args.
Proof.
  intros Ht Hc Hk Hh Hcausal Hs Hp Hkey Hval.
  assert (Hw := Hp). unfold Attention_params in Hw.
  apply Forall_app in Hw. destruct Hw as [Hw Hb].
  repeat (apply List.Forall_cons_iff in Hw; destruct Hw as [? Hw]).
  assert (Hlin : forall lin x,
            In lin [query_projection (target ad); key_projection (target ad);
                    value_projection (target ad); out_projection (target ad)] ->
            Linear_forward st' lin x = Linear_forward st lin x).
  { intros lin x Hin. apply Linear_forward_agree.
    - simpl in Hin. destruct Hin as [<-|[<-|[<-|[<-|[]]]]]; assumption.
    - intros b Hbias. destruct (use_bias (target ad)) eqn:Hub.
      + repeat (apply List.Forall_cons_iff in Hb; destruct Hb as [? Hb]).
        simpl in Hin. destruct Hin as [<-|[<-|[<-|[<-|[]]]]];
          simpl in Hbias; rewrite Hub in Hbias; injection Hbias as <-; assumption.
      + simpl in Hin. destruct Hin as [<-|[<-|[<-|[<-|[]]]]];
          simpl in Hbias; rewrite Hub in Hbias; discriminate. }
  unfold CrossAttentionAdapter_forward, Attention_projections. rewrite Ht.
  destruct (attention_inputs (target ad) args) as [[[xq xk] xv]|]; [|reflexivity].
  cbn [rbind fst snd].
  rewrite !Hlin by (simpl; auto).
  destruct (Linear_forward st (query_projection (target ad)) xq); [|reflexivity].
  cbn [rbind].
  destruct (Linear_forward st (key_projection (target ad)) xk); [|reflexivity]. cbn [rbind].
  destruct (Linear_forward st (value_projection (target ad)) xv); [|reflexivity].
  cbn [rbind fst snd].
  destruct (ScaledDotProductAttention _ _ _ _ _ _); [|reflexivity]. cbn [rbind].
  unfold HistogramCrossAttention_forward. rewrite Hc, Hk, Hh, Hcausal, Hs.
  destruct (Context.UseContext _ _ ctxs) as [e|]; [|reflexivity]. cbn [rbind].
  unfold image_key_projection, image_value_projection in *.
  rewrite Hkey, Hval.
  destruct (Linear_forward st (Distribute_1_Linear (histogram_cross_attention ad)) e);
    [|reflexivity].
  cbn [rbind].
  destruct (Linear_forward st (Distribute_2_Linear (histogram_cross_attention ad)) e);
    [|reflexivity].
  cbn [rbind].
  destruct (ScaledDotProductAttention _ _ _ _ _ _); [|reflexivity]. cbn [rbind].
  destruct (tensor_add _ _); [|reflexivity]. cbn [rbind].
  now rewrite Hlin by (simpl; auto).
Qed.

(** Loading tensors into a sub-adapter without bias makes it compute, over
    its store, what it computes over a store where its weights hold these
    tensors. *)
Lemma load_weights_agree (ad : CrossAttentionAdapter)
    (st st0 : list (Tensor R)) (key_tensor value_tensor : Tensor R)
    (ctxs : gmap string (gmap string (Tensor R))) (args : list (Tensor R)) :
  read_all st (adapter_weights ad) = Ok [key_tensor; value_tensor] ->
  bias (image_key_projection ad) = None ->
  bias (image_value_projection ad) = None ->
  Forall (fun l => l < length st0 /\ st0 !! l = st !! l) (Attention_params (target ad)) ->
  let ad1 := fst (load_weights ad key_tensor value_tensor st0) in
  let st1 := snd (load_weights ad key_tensor value_tensor st0) in
  read_all st1 (adapter_weights ad1) = Ok [key_tensor; value_tensor]
  /\ (forall l, l < length st0 -> st1 !! l = st0 !! l)
  /\ CrossAttentionAdapter_forward st1 ctxs ad1 args
     = CrossAttentionAdapter_forward st ctxs ad args.
Proof.
  intros Hread Hbk Hbv Hp. cbv zeta.
  unfold load_weights, set_weight, bbind, bret. cbn [fst snd].
  rewrite Hbk, Hbv.
  set (st1 := (st0 ++ [key_tensor]) ++ [value_tensor]).
  assert (Hk1 : st1 !! length st0 = Some key_tensor).
  { unfold st1. rewrite lookup_app_l by (rewrite length_app; simpl; lia).
    rewrite lookup_app_r by lia. now rewrite Nat.sub_diag. }
  assert (Hv1 : st1 !! length (st0 ++ [key_tensor]) = Some value_tensor).
  { unfold st1. rewrite lookup_app_r by lia. now rewrite Nat.sub_diag. }
  assert (Hold : forall l, l < length st0 -> st1 !! l = st0 !! l).
  { intros l Hl. unfold st1. rewrite <- app_assoc. now apply lookup_app_l. }
  unfold adapter_weights, image_key_projection, image_value_projection in *.
  cbn [read_all histogram_cross_attention Distribute_1_Linear Distribute_2_Linear weight]
    in *.
  unfold read in Hread |- *. rewrite Hk1, Hv1. cbn [rbind].
  split; [reflexivity|]. split; [exact Hold|].
  destruct (st !! weight (Distribute_1_Linear (histogram_cross_attention ad)))
    as [Wk|] eqn:HWk; [|discriminate]. cbn [rbind] in Hread.
  destruct (st !! weight (Distribute_2_Linear (histogram_cross_attention ad)))
    as [Wv|] eqn:HWv; [|discriminate]. cbn [rbind] in Hread.
  injection Hread as -> ->.
  apply CrossAttentionAdapter_forward_agree; cbn; auto.
  - eapply List.Forall_impl; [|exact Hp]. intros l [Hl E]. cbv beta.
    now rewrite Hold.
  - intros x. unfold Linear_forward, read, image_key_projection.
    cbn [histogram_cross_attention Distribute_1_Linear weight bias in_features out_features].
    now rewrite Hk1, HWk, Hbk.
  - intros x. unfold Linear_forward, read, image_value_projection.
    cbn [histogram_cross_attention Distribute_2_Linear weight bias in_features out_features].
    now rewrite Hv1, HWv, Hbv.
Qed.

(** X14.  Saving the [weights] of a trained [HistogramCrossAttentionAdapter]
    and loading them into a newly built one restores it when the target
    uses no bias: the loaded tensors are then the [weights] of the new
    adapter, no tensor that was in the store changes, and the new adapter
    computes, for every context and input, what the trained one
    computes. *)
Theorem load_weights_restores (a : Attention) (scale : R) (st0 st : list (Tensor R))
    (key_tensor value_tensor : Tensor R)
    (ctxs : gmap string (gmap string (Tensor R))) (args : list (Tensor R)) :
  use_bias a = false ->
  Forall (fun l => l < length st0) (Attention_params a) ->
  (forall l, l < length st0 -> st !! l = st0 !! l) ->
  let ad := fst (HistogramCrossAttentionAdapter_init a scale st0) in
  let st1 := snd (HistogramCrossAttentionAdapter_init a scale st0) in
  read_all st (adapter_weights ad) = Ok [key_tensor; value_tensor] ->
  let ad1 := fst (load_weights ad key_tensor value_tensor st1) in
  let st2 := snd (load_weights ad key_tensor value_tensor st1) in
  read_all st2 (adapter_weights ad1) = Ok [key_tensor; value_tensor]
  /\ (forall l, l < length st1 -> st2 !! l = st1 !! l)
  /\ CrossAttentionAdapter_forward st2 ctxs ad1 args
     = CrossAttentionAdapter_forward st ctxs ad args.
Proof.
  intros Hub Hwf Hold. cbv zeta. intros Hread.
  destruct (HistogramCrossAttentionAdapter_init_spec a scale st0)
    as (Htarget & _ & _ & Hbranch & Hst).
  cbv zeta in *. rewrite Hub in Hbranch, Hst. cbn [with_bias] in Hbranch.
  apply load_weights_agree; auto.
  - unfold image_key_projection. now rewrite Hbranch.
  - unfold image_value_projection. now rewrite Hbranch.
  - rewrite Htarget. eapply List.Forall_impl; [|exact Hwf]. intros l Hl. cbv beta in Hl |- *.
    rewrite Hst, length_app. split; [cbn [length]; lia|].
    rewrite lookup_app_l by exact Hl. symmetry. now apply Hold.
Qed.

End LoadWeightsFacts.

Section LoadWeightsExample.
Import Layers SD Example AdapterWeights ScaleExample.

Lemma load_weights_restores_witness :
  CrossAttentionAdapter_forward
    (snd (load_weights
            (fst (HistogramCrossAttentionAdapter_init (cross_attention false) 1%Z store))
            (mkTensor [2; 4] [1; 2; 3; 4; 5; 6; 7; 8]%Z)
            (mkTensor [2; 4] [2; 0; 1; 0; 0; 3; 0; 1]%Z)
            (snd (HistogramCrossAttentionAdapter_init (cross_attention false) 1%Z store))))
    palette_context
    (fst (load_weights
            (fst (HistogramCrossAttentionAdapter_init (cross_attention false) 1%Z store))
            (mkTensor [2; 4] [1; 2; 3; 4; 5; 6; 7; 8]%Z)
            (mkTensor [2; 4] [2; 0; 1; 0; 0; 3; 0; 1]%Z)
            (snd (HistogramCrossAttentionAdapter_init (cross_attention false) 1%Z store))))
    qkv_input
  = CrossAttentionAdapter_forward trained_store palette_context
      (fst (HistogramCrossAttentionAdapter_init (cross_attention false) 1%Z store))
      qkv_input.
Proof.
  apply (@load_weights_restores Zscalars Zframework (cross_attention false) 1%Z store
           trained_store
           (mkTensor [2; 4] [1; 2; 3; 4; 5; 6; 7; 8]%Z)
           (mkTensor [2; 4] [2; 0; 1; 0; 0; 3; 0; 1]%Z)
           palette_context qkv_input).
  - reflexivity.
  - simpl. repeat (apply List.Forall_cons; [simpl; lia|]). apply List.Forall_nil.
  - intros l Hl. do 9 (destruct l as [|l]; [reflexivity|]). simpl in Hl. lia.
  - reflexivity.
Defined.

End LoadWeightsExample.

(** ** The adapter as built and injected *)

Section InjectFacts.
Import Layers SD AdapterScale.
Context {K : Scalars} {F : Framework}.

Lemma CrossAttentionAdapter_init_weights (a : Attention) (scale : R) (st : list (Tensor R)) :
  let ad := fst (CrossAttentionAdapter_init a scale st) in
  let st1 := snd (CrossAttentionAdapter_init a scale st) in
  let p := if use_bias a then 2 else 1 in
  adapter_weights ad = [length st; length st + p]
  /\ length st1 = length st + 2 * p
  /\ Forall (fun w => st1 !! w = Some (init_param w [inner_dim a; image_in_features a]))
            (adapter_weights ad).
Proof.
  cbv zeta. unfold CrossAttentionAdapter_init, ImageCrossAttention_init, bbind, bret.
  rewrite (Linear_init_eq (image_in_features a) (inner_dim a) (use_bias a) st).
  destruct (use_bias a); cbn [fst snd].
  - rewrite Linear_init_eq. cbn [fst snd].
    unfold adapter_weights, image_key_projection, image_value_projection.
    cbn [histogram_cross_attention Distribute_1_Linear Distribute_2_Linear weight].
    rewrite !length_app. cbn [length].
    split; [reflexivity|]. split; [lia|].
    repeat constructor.
    + rewrite <- app_assoc, lookup_app_r by lia. now rewrite Nat.sub_diag.
    + rewrite lookup_app_r by (rewrite length_app; simpl; lia).
      rewrite length_app. cbn [length].
      now replace (length st + 2 - (length st + 2)) with 0 by lia.
  - rewrite Linear_init_eq. cbn [fst snd].
    unfold adapter_weights, image_key_projection, image_value_projection.
    cbn [histogram_cross_attention Distribute_1_Linear Distribute_2_Linear weight].
    rewrite !length_app. cbn [length].
    split; [reflexivity|]. split; [lia|].
    repeat constructor.
    + rewrite <- app_assoc, lookup_app_r by lia. now rewrite Nat.sub_diag.
    + rewrite lookup_app_r by (rewrite length_app; simpl; lia).
      rewrite length_app. cbn [length].
      now replace (length st + 1 - (length st + 1)) with 0 by lia.
Qed.

Lemma build_all_weights (scale : R) (l : list Attention) (st : list (Tensor R)) :
  let subs := fst (build_all (fun a => CrossAttentionAdapter_init a scale) l st) in
  let st1 := snd (build_all (fun a => CrossAttentionAdapter_init a scale) l st) in
  length subs = length l
  /\ StronglySorted lt (flat_map adapter_weights subs)
  /\ Forall (fun w => length st <= w < length st1) (flat_map adapter_weights subs)
  /\ Forall2 (fun a ad =>
                Forall (fun w => st1 !! w
                                 = Some (init_param w [inner_dim a; image_in_features a]))
                       (adapter_weights ad)) l subs.
Proof.
  cbv zeta. revert st. induction l as [|a l IH]; intros st; simpl.
  - repeat split; constructor.
  - unfold bbind, bret.
    destruct (CrossAttentionAdapter_init_weights a scale st) as (Hw & Hlen & Hinit).
    destruct (CrossAttentionAdapter_init_spec a scale st) as (e1 & Hs1 & _).
    cbv zeta in *.
    destruct (CrossAttentionAdapter_init a scale st) as [ad st1]. cbn [fst snd] in *.
    destruct (IH st1) as (IHlen & IHsorted & IHbound & IHinit).
    destruct (build_all_spec scale l st1) as (e2 & Hs2 & _).
    destruct (build_all (fun a0 => CrossAttentionAdapter_init a0 scale) l st1) as [ads st2].
    cbn [fst snd flat_map length] in *.
    assert (Hp : 0 < (if use_bias a then 2 else 1)) by (destruct (use_bias a); lia).
    assert (Hl2 : length st1 <= length st2) by (rewrite Hs2, length_app; lia).
    split; [now rewrite IHlen|]. rewrite Hw. cbn [app].
    split; [|split].
    + constructor.
      * constructor; [exact IHsorted|].
        eapply List.Forall_impl; [|exact IHbound]. intros w Hb. cbv beta in Hb. lia.
      * constructor; [lia|].
        eapply List.Forall_impl; [|exact IHbound]. intros w Hb. cbv beta in Hb. lia.
    + constructor; [lia|]. constructor; [lia|].
      eapply List.Forall_impl; [|exact IHbound]. intros w Hb. cbv beta in Hb |- *. lia.
    + constructor.
      * eapply List.Forall_impl; [|exact Hinit].
        intros w Hwv. cbv beta in Hwv |- *. rewrite Hs2.
        apply lookup_app_l_Some. exact Hwv.
      * exact IHinit.
Qed.

(** X15.  The constructor gives each sub-adapter weight tensors of its
    own: [weights] lists two tensors per sub-adapter, in the order of the
    adapted layers, and no tensor twice; each is a new tensor of the
    store, created with the sizes (inner_dim of its layer, input width of
    the branch), which is its shape when a new parameter has the shape it
    is created with.  The sub-adapters are those of image_prompt, with
    the [weights] of the sibling class of this file. *)
Theorem weights_distinct (net : Module Attention) (enc : HistogramEncoder) (scale : R)
    (st0 : list (Tensor R)) :
  let self := fst (SD1HistogramAdapter_init net enc scale st0) in
  let st1 := snd (SD1HistogramAdapter_init net enc scale st0) in
  length (weights self)
  = 2 * length (List.filter not_SelfAttention (layers_Attention net))
  /\ NoDup (weights self)
  /\ StronglySorted lt (weights self)
  /\ Forall2 (fun a ad =>
                Forall (fun w => st1 !! w
                                 = Some (init_param w [inner_dim a; image_in_features a]))
                       (adapter_weights ad))
             (List.filter not_SelfAttention (layers_Attention net)) (sub_adapters self)
  /\ ((forall l s, shape (init_param l s) = s) ->
      Forall2 (fun a ad =>
                 Forall (fun w => exists t,
                           st1 !! w = Some t
                           /\ shape t = [inner_dim a; image_in_features a])
                        (adapter_weights ad))
              (List.filter not_SelfAttention (layers_Attention net)) (sub_adapters self)).
Proof.
  cbv zeta. unfold SD1HistogramAdapter_init, bbind, bret.
  destruct (build_all_weights scale (List.filter not_SelfAttention (layers_Attention net)) st0)
    as (Hlen & Hsorted & _ & Hinit).
  cbv zeta in *.
  destruct (build_all (fun a => CrossAttentionAdapter_init a scale)
              (List.filter not_SelfAttention (layers_Attention net)) st0) as [subs st1].
  cbn [fst snd] in *. unfold weights. cbn [sub_adapters].
  split; [|split; [|split; [exact Hsorted | split; [exact Hinit|]]]].
  - rewrite <- Hlen. clear. induction subs as [|ad subs IH]; simpl; [reflexivity|].
    rewrite IH. lia.
  - clear -Hsorted. induction Hsorted as [|w ws _ IH Hall]; constructor; auto.
    intros Hin. rewrite Forall_forall in Hall. specialize (Hall w Hin). lia.
  - intros Hshape. eapply Forall2_impl; [exact Hinit|].
    intros a ad Hws. eapply List.Forall_impl; [|exact Hws].
    intros w Hw. cbv beta in Hw |- *. eexists. split; [exact Hw | apply Hshape].
Qed.

Lemma put_adapters_target (subs : list CrossAttentionAdapter) (a : Attention) :
  fold_left (fun l ad => put_adapter ad l) subs (Plain a) = Plain a
  <-> ~ In a (map target subs).
Proof.
  induction subs as [|ad subs IH]; simpl; [tauto|].
  destruct (decide (a = target ad)) as [->|Hne].
  - rewrite put_adapters_Adapted. split; [discriminate | tauto].
  - rewrite IH. split; [intros Hn [E|Hin]; congruence | tauto].
Qed.

(** X16.  After injection the network is a chain around the target with
    the same layers, except that every attention layer whose type is not
    [fl.SelfAttention] is replaced by a sub-adapter that adapts it, and
    every layer of type [fl.SelfAttention] is left as it was. *)
Theorem inject_adapts_cross_attention (net : Module Attention) (enc : HistogramEncoder)
    (scale : R) (st0 : list (Tensor R)) :
  let self := fst (SD1HistogramAdapter_init net enc scale st0) in
  exists g : Attention -> Layer,
    inject self = Chain [replace_layers g net]
    /\ forall a,
         (type_name a = Some "SelfAttention" -> g a = Plain a)
         /\ (In a (layers_Attention net) -> type_name a <> Some "SelfAttention" ->
             exists ad, In ad (sub_adapters self) /\ target ad = a /\ g a = Adapted ad).
Proof.
  cbv zeta.
  destruct (SD1HistogramAdapter_init_spec net enc scale st0)
    as (ext & _ & Htarget & _ & Hsubs).
  set (self := fst (SD1HistogramAdapter_init net enc scale st0)) in *.
  pose proof (Forall2_built_over_targets _ _ _ _ Hsubs) as Hmap.
  exists (fun a => fold_left (fun l ad => put_adapter ad l) (sub_adapters self) (Plain a)).
  split.
  - unfold inject. now rewrite inject_all_layers, Htarget.
  - intros a. split.
    + intros Hself. apply put_adapters_target. rewrite Hmap.
      intros Hin. apply filter_In in Hin. destruct Hin as [_ Hsel].
      unfold not_SelfAttention in Hsel.
      rewrite bool_decide_eq_true_2 in Hsel by exact Hself. discriminate.
    + intros Hin Hty.
      destruct (put_adapters_Plain (sub_adapters self) a) as [Hplain|Had]; [|exact Had].
      exfalso. apply put_adapters_target in Hplain. apply Hplain. rewrite Hmap.
      apply filter_In. split; [exact Hin|].
      unfold not_SelfAttention. now rewrite bool_decide_eq_false_2.
Qed.

End InjectFacts.

Section WeightsExample.
Import Layers SD Example.

Lemma weights_distinct_witness :
  Forall2 (fun a ad =>
             Forall (fun w => exists t,
                       snd (SD1HistogramAdapter_init (unet true) encoder 1%Z store) !! w
                       = Some t
                       /\ shape t = [inner_dim a; image_in_features a])
                    (adapter_weights ad))
          (List.filter not_SelfAttention (layers_Attention (unet true)))
          (sub_adapters (fst (SD1HistogramAdapter_init (unet true) encoder 1%Z store))).
Proof.
  apply (@weights_distinct Zscalars Zframework (unet true) encoder 1%Z store).
  intros l s. reflexivity.
Defined.

End WeightsExample.

(** * The trainer *)

Section TrainerFacts.
Import Trainer.

Lemma stack_not_AttributeError (ts : list (Tensor Q)) (name : string) :
  stack ts <> Raise (AttributeError name).
Proof.
  unfold stack. destruct ts as [|t ts]; [discriminate|].
  destruct (forallb _ ts); discriminate.
Qed.

(** X17.  The collate functions of the evaluation batches never return a
    batch.  They look up [text_embeddings] on the sequence of items, which
    has no such attribute: when the histograms and the embeddings of the
    items can be stacked the call raises [AttributeError], otherwise the
    error of the stacking; [BatchHistogramResults.collate_fn] fails the
    same way, in the collate function of its base class. *)
Theorem collate_fn_never_returns {ColorPalette : Type} (attributes : list string)
    (iterate : string -> result (list (Tensor Q))) :
  "text_embeddings" ∉ attributes ->
  (forall batch : list (@BatchHistogramPrompt ColorPalette),
     is_ok (collate_fn attributes iterate batch) = false
     /\ (is_ok (stack (map source_histograms batch)) = true ->
         is_ok (stack (map source_histograms_embeddings batch)) = true ->
         collate_fn attributes iterate batch = Raise (AttributeError "text_embeddings"))
     /\ (collate_fn attributes iterate batch = Raise (AttributeError "text_embeddings") ->
         batch <> []))
  /\ (forall batch : list (@BatchHistogramResults ColorPalette),
        is_ok (results_collate_fn attributes iterate batch) = false).
Proof.
  intros Hnot.
  assert (Hget : sequence_getattr attributes "text_embeddings"
                 = Raise (AttributeError "text_embeddings")).
  { unfold sequence_getattr. now rewrite bool_decide_eq_false_2. }
  assert (Hprompt : forall batch : list (@BatchHistogramPrompt ColorPalette),
            is_ok (collate_fn attributes iterate batch) = false).
  { intros batch. unfold collate_fn.
    destruct (stack (map source_histograms batch)); [|reflexivity]. cbn [rbind].
    destruct (stack (map source_histograms_embeddings batch)); [|reflexivity]. cbn [rbind].
    now rewrite Hget. }
  split.
  - intros batch. split; [apply Hprompt|]. split.
    + unfold collate_fn.
      destruct (stack (map source_histograms batch)); [|discriminate]. cbn [rbind].
      destruct (stack (map source_histograms_embeddings batch)); [|discriminate].
      cbn [rbind]. now rewrite Hget.
    + intros E ->. discriminate E.
  - intros batch. unfold results_collate_fn.
    specialize (Hprompt (map prompt batch)).
    destruct (collate_fn attributes iterate (map prompt batch)); [discriminate|reflexivity].
Qed.

Lemma collate_fn_never_returns_witness :
  collate_fn list_methods (fun _ => Ok []) [evaluation_item; evaluation_item]
  = Raise (AttributeError "text_embeddings").
Proof.
  apply (collate_fn_never_returns list_methods (fun _ => Ok []));
    [|reflexivity|reflexivity].
  intros Hin. unfold list_methods in Hin.
  repeat (apply elem_of_cons in Hin; destruct Hin as [Hin|Hin]; [discriminate|]).
  now apply elem_of_nil in Hin.
Defined.

Lemma digit_value_pretty (x : N) :
  (x < 10)%N -> digit_value (pretty_N_char x) = x.
Proof.
  intros Hx.
  assert (x = 0 \/ x = 1 \/ x = 2 \/ x = 3 \/ x = 4 \/ x = 5 \/ x = 6 \/ x = 7
          \/ x = 8 \/ x = 9)%N as Hc by lia.
  repeat (destruct Hc as [->|Hc]; [reflexivity|]). now subst.
Qed.

Lemma parse_pretty_N_go (x : N) (s : string) :
  parse_from (pretty_N_go x s) 0 = parse_from s x.
Proof.
  revert s. induction (N.lt_wf_0 x) as [x _ IH]. intros s.
  assert (x = 0 \/ 0 < x)%N as [->|Hx] by lia.
  - now rewrite pretty_N_go_0.
  - rewrite pretty_N_go_step by exact Hx.
    rewrite IH by (apply N.div_lt; lia). cbn [parse_from].
    rewrite digit_value_pretty by (apply N.mod_lt; lia).
    f_equal. rewrite (N.div_mod x 10) at 3 by lia. reflexivity.
Qed.

Lemma parse_pretty (i : nat) : parse_from (pretty i) 0 = N.of_nat i.
Proof.
  unfold pretty, pretty_nat, pretty, pretty_N.
  destruct (decide (N.of_nat i = 0%N)) as [->|_]; [reflexivity|].
  now rewrite parse_pretty_N_go.
Qed.

Lemma parse_zeros (n : nat) (s : string) :
  parse_from (zeros n +:+ s) 0 = parse_from s 0.
Proof. induction n as [|n IH]; [reflexivity|]. exact IH. Qed.

(** The number can be read back from its key. *)
Lemma parse_format_03d (i : nat) : parse_from (format_03d i) 0 = N.of_nat i.
Proof. unfold format_03d. now rewrite parse_zeros, parse_pretty. Qed.

Lemma checkpoint_key_inj (i j : nat) : checkpoint_key i = checkpoint_key j -> i = j.
Proof.
  unfold checkpoint_key. intros E.
  remember (format_03d i) as a eqn:Ha. remember (format_03d j) as b eqn:Hb.
  cbn in E. injection E as E. subst a b.
  apply (f_equal (fun s => parse_from s 0)) in E. cbv beta in E.
  change (parse_from (zeros 0 +:+ format_03d i) 0
          = parse_from (zeros 0 +:+ format_03d j) 0) in E.
  rewrite !parse_zeros, !parse_format_03d in E. lia.
Qed.

Lemma tensors_of_snoc {A} (weights : list A) (w : A) :
  tensors_of (weights ++ [w])
  = <[checkpoint_key (length weights) := w]> (tensors_of weights).
Proof.
  unfold tensors_of. rewrite imap_app, fold_left_app. cbn [imap fold_left fst snd].
  now rewrite Nat.add_0_r.
Qed.

Lemma tensors_of_lookup {A} (weights : list A) (i : nat) :
  tensors_of weights !! checkpoint_key i = weights !! i.
Proof.
  induction weights as [|w weights IH] using rev_ind.
  - unfold tensors_of. cbn. now rewrite lookup_empty.
  - rewrite tensors_of_snoc.
    destruct (decide (i = length weights)) as [->|Hne].
    + rewrite lookup_insert_eq, lookup_app_r by lia. now rewrite Nat.sub_diag.
    + rewrite lookup_insert_ne by (intros E; apply checkpoint_key_inj in E; lia).
      rewrite IH.
      destruct (Nat.lt_ge_cases i (length weights)) as [Hlt|Hge].
      * now rewrite lookup_app_l.
      * rewrite !lookup_ge_None_2; [reflexivity| |lia].
        rewrite length_app. simpl. lia.
Qed.

(** X18.  [SaveHistogram] raises [ValueError] when the model has no
    parent.  Otherwise the keys it gives to the weights are pairwise
    distinct, so no weight replaces another: the dictionary has one entry
    per weight, the weight of index [i] is stored under [unet.] followed
    by [i] in at least three digits, and nothing else is stored. *)
Theorem on_checkpoint_save_keys {A} (parent : option (list A)) :
  (parent = None ->
   on_checkpoint_save parent = Raise (ValueError "The model must have a parent."))
  /\ (forall weights, parent = Some weights ->
        exists tensors,
          on_checkpoint_save parent = Ok tensors
          /\ (forall i j, checkpoint_key i = checkpoint_key j -> i = j)
          /\ (forall i, tensors !! checkpoint_key i = weights !! i)
          /\ (forall key w, tensors !! key = Some w ->
                exists i, key = checkpoint_key i /\ weights !! i = Some w)
          /\ size tensors = length weights).
Proof.
  split; [intros ->; reflexivity|].
  intros weights ->. exists (tensors_of weights). split; [reflexivity|].
  split; [apply checkpoint_key_inj|]. split; [apply tensors_of_lookup|].
  induction weights as [|w0 weights [IHk IHs]] using rev_ind.
  - split; [|reflexivity]. intros key w. unfold tensors_of. cbn.
    rewrite lookup_empty. discriminate.
  - rewrite tensors_of_snoc. split.
    + intros key w. destruct (decide (key = checkpoint_key (length weights))) as [->|Hne].
      * rewrite lookup_insert_eq. intros E. injection E as <-.
        exists (length weights). split; [reflexivity|].
        rewrite lookup_app_r by lia. now rewrite Nat.sub_diag.
      * rewrite lookup_insert_ne by congruence. intros E.
        destruct (IHk key w E) as (i & -> & Hi). exists i. split; [reflexivity|].
        rewrite lookup_app_l; [exact Hi|]. eapply lookup_lt_Some, Hi.
    + rewrite map_size_insert_None, IHs, length_app; [simpl; lia|].
      rewrite tensors_of_lookup. apply lookup_ge_None_2. lia.
Qed.

End TrainerFacts.

(** ** The context entry of HistogramCrossAttention *)

Section PaletteEntryFacts.
Import Layers SD.
Context {K : Scalars} {F : Framework}.

(** X19.  The two [UseContext] layers of a [HistogramCrossAttention] read
    the entry ["palette_embedding"] of the namespace ["ip_adapter"], which
    [set_histogram_embedding] does not write: an entry that is unset
    before the call is unset after it, and the forward pass of the branch
    raises on it. *)
Theorem HistogramCrossAttention_entry_unset (a : Attention) (scale : R)
    (st st' : list (Tensor R)) (e q k v : Tensor R)
    (ctxs : gmap string (gmap string (Tensor R))) :
  (forall c, ctxs !! "ip_adapter" = Some c -> c !! "palette_embedding" = None) ->
  let h := fst (HistogramCrossAttention_init a scale st) in
  (hca_context h, hca_key h) = ("ip_adapter", "palette_embedding")
  /\ is_ok (Context.UseContext (hca_context h) (hca_key h) ctxs) = false
  /\ Context.UseContext "ip_adapter" "clip_image_embedding" (set_histogram_embedding e ctxs)
     = Ok e
  /\ Context.UseContext (hca_context h) (hca_key h) (set_histogram_embedding e ctxs)
     = Raise (AssertionError "context entry is unset")
  /\ HistogramCrossAttention_forward st' (set_histogram_embedding e ctxs) h q k v
     = Raise (AssertionError "context entry is unset").
Proof.
  intros Hunset. cbv zeta.
  assert (Hh : (hca_context (fst (HistogramCrossAttention_init a scale st)),
                hca_key (fst (HistogramCrossAttention_init a scale st)))
               = ("ip_adapter", "palette_embedding")).
  { unfold HistogramCrossAttention_init, bbind, bret.
    destruct (Linear_init 4 (inner_dim a) (use_bias a) st) as [k0 st1].
    destruct (Linear_init 4 (inner_dim a) (use_bias a) st1) as [v0 st2]. reflexivity. }
  injection Hh as Hc Hk.
  assert (Hread : Context.UseContext "ip_adapter" "palette_embedding"
                    (set_histogram_embedding e ctxs)
                  = Raise (AssertionError "context entry is unset")).
  { unfold Context.UseContext, set_histogram_embedding, Context.set_context.
    rewrite lookup_insert_eq. rewrite lookup_singleton_ne by discriminate. reflexivity. }
  repeat split.
  - now rewrite Hc, Hk.
  - rewrite Hc, Hk. unfold Context.UseContext.
    destruct (ctxs !! "ip_adapter") as [c|] eqn:Ec; [|reflexivity].
    now rewrite (Hunset c eq_refl).
  - unfold Context.UseContext, set_histogram_embedding, Context.set_context.
    rewrite lookup_insert_eq, lookup_singleton_eq. reflexivity.
  - now rewrite Hc, Hk.
  - unfold HistogramCrossAttention_forward. rewrite Hc, Hk, Hread. reflexivity.
Qed.

End PaletteEntryFacts.

Section PaletteEntryExample.
Import Layers SD Example ScaleExample.

Lemma HistogramCrossAttention_entry_unset_witness :
  HistogramCrossAttention_forward store
    (set_histogram_embedding (K := Zscalars) palette_embedding ∅)
    (fst (HistogramCrossAttention_init (cross_attention false) 1%Z store))
    (mkTensor [1; 2] [5; 6]%Z) (mkTensor [1; 2] [1; 2]%Z) (mkTensor [1; 2] [3; 4]%Z)
  = Raise (AssertionError "context entry is unset").
Proof.
  apply (@HistogramCrossAttention_entry_unset Zscalars Zframework (cross_attention false)
           1%Z store store palette_embedding).
  intros c Hc. rewrite lookup_empty in Hc. discriminate Hc.
Defined.

End PaletteEntryExample.
